(** * sct_dmri_separate_b0_and_dwi: separation of b=0 and DW images

    A shallow embedding of [scripts/sct_dmri_separate_b0_and_dwi.py] and the
    properties of its classifier ([identify_b0]) and of the assembly of the
    two output volumes in [main].

    Python floats are IEEE 754 binary64 numbers: they are Rocq's primitive
    floats, and [<] on them is [PrimFloat.ltb].  Python lists are lists,
    indexed with stdpp's lookup; an index out of range raises [IndexError].
    The files of the temporary folder are a finite map from file names to
    volumes.  A call either returns, leaves through [sys.exit], or raises.

    The first part is the model: Python values, what the script takes from
    its libraries (a [platform]), the state of a run (a [world]), the monad
    of the script and the functions of the script, then a platform and data
    to evaluate them on, and the vocabulary of the properties.  The second
    part holds the properties. *)

From Stdlib Require Import Floats ZArith String Ascii List Lia.
From Stdlib Require Import DecimalString DecimalNat.
From stdpp Require Import base tactics option list gmap strings sorting.

#[local] Set Warnings "-inexact-float".
#[local] Open Scope Z_scope.
#[local] Open Scope nat_scope.
#[local] Open Scope string_scope.
#[local] Open Scope list_scope.

(** ** Python values and the ways a call ends *)

Module Py.

(** The exceptions that the script can meet. *)
Inductive exn : Set :=
| IndexError
| ValueError
| OverflowError
| IOError
| OtherError (name : string).

(** A call returns a value, leaves the interpreter through [sys.exit]
    with a status, or raises. *)
Inductive outcome (A : Type) : Type :=
| Return (a : A)
| Exit (status : Z)
| Raise (e : exn).
#[global] Arguments Return {A} a.
#[global] Arguments Exit {A} status.
#[global] Arguments Raise {A} e.

(** A value computed by a library call: the value, or the exception. *)
Definition result (A : Type) : Type := exn + A.

(** The values that [argparse] stores for an option without [type=]:
    the string of the command line, or the default as it was given. *)
Inductive value : Set :=
| Int (z : Z)
| Str (s : string).

(** [v == n] for an integer [n]: a string is never equal to an integer. *)
Definition eq_int (v : value) (n : Z) : bool :=
  match v with
  | Int z => Z.eqb z n
  | Str _ => false
  end.

(** Truth value of a float: every float but [0.0] and [-0.0] is true. *)
Definition truthy_float (x : float) : bool := negb (PrimFloat.eqb x 0%float).

(** Truth value of an [Optional[float]]: [None] is false. *)
Definition truthy_opt_float (o : option float) : bool :=
  match o with
  | None => false
  | Some x => truthy_float x
  end.

(** [str(n)] for a non-negative [int]. *)
Definition str (n : nat) : string := NilEmpty.string_of_uint (Nat.to_uint n).

(** [k] characters '0' before [s]. *)
Fixpoint pad (k : nat) (s : string) : string :=
  match k with
  | 0 => s
  | S k' => String "0" (pad k' s)
  end.

(** [s.zfill(width)] for a string without sign: [s] padded with '0' on
    the left to the width, or [s] when it is as long. *)
Definition zfill (width : nat) (s : string) : string :=
  pad (width - String.length s) s.

(** [", ".join(l)]. *)
Definition join (sep : string) (l : list string) : string := String.concat sep l.

(** [str(l)] for a list of non-negative [int]s. *)
Definition str_list (l : list nat) : string :=
  "[" +:+ join ", " (map str l) +:+ "]".

(** [zip( *rows )]: one tuple per position below the length of the
    shortest row, holding the components of all rows at that position. *)
Fixpoint zip_star {A : Type} (rows : list (list A)) : list (list A) :=
  match rows with
  | [] => []
  | [r] => map (λ x, [x]) r
  | r :: rs => zip_with cons r (zip_star rs)
  end.

(** [math.sqrt]: the IEEE square root; a NaN result for an argument that
    is not NaN is a "math domain error". *)
Definition math_sqrt (x : float) : result float :=
  let r := PrimFloat.sqrt x in
  if PrimFloat.is_nan r && negb (PrimFloat.is_nan x) then inl ValueError else inr r.

End Py.

Import Py.

#[global] Instance exn_eq_dec : EqDecision Py.exn.
Proof. solve_decision. Defined.

#[global] Instance result_eq_dec {A : Type} `{EqDecision A} : EqDecision (Py.result A).
Proof. unfold Py.result. apply _. Defined.

#[global] Instance result_ret : MRet Py.result := λ A a, inr a.
#[global] Instance result_bind : MBind Py.result :=
  λ A B k m, match m with inl e => inl e | inr a => k a end.

(** A list comprehension whose element expression may raise: elements are
    evaluated from left to right and the first exception ends it. *)
Fixpoint comprehension {A B : Type} (f : A → Py.result B) (l : list A) : Py.result (list B) :=
  match l with
  | [] => inr []
  | x :: l' => y ← f x; ys ← comprehension f l'; mret (y :: ys)
  end.

(** ** What the script takes from its libraries and from the machine *)

(** [frame] is a 3-D image; a 4-D volume is the list of its frames along
    the temporal axis. *)
Record platform (frame : Type) : Type := Platform {
  (** [math.fsum] and [x ** n] of a float and an [int], with the exceptions
      they raise (overflow). *)
  math_fsum : list float → Py.result float;
  float_pow : float → Z → Py.result float;
  (** Lines 258-262: the rows read from the bvecs file of that name, each
      line split and converted with [float]. *)
  read_bvecs : string → Py.result (list (list float));
  (** [dipy.io.read_bvals_bvecs fname_bvals fname_bvecs]. *)
  read_bvals_bvecs : string → string → Py.result (list float * list (list float));
  (** The 4-D volume that [convert] reads from the input file, if it can. *)
  read_image : string → option (list frame);
  (** [sct_maths -mean t]. *)
  mean_t : list frame → frame;
  (** Paths. *)
  abspath : string → string;
  path_join : string → string → string;
  extract_fname : string → string * string * string;
  tmp_create : string → string;
}.
#[global] Arguments math_fsum {frame} _ _.
#[global] Arguments float_pow {frame} _ _ _.
#[global] Arguments read_bvecs {frame} _ _.
#[global] Arguments read_bvals_bvecs {frame} _ _ _.
#[global] Arguments read_image {frame} _ _.
#[global] Arguments mean_t {frame} _ _.
#[global] Arguments abspath {frame} _ _.
#[global] Arguments path_join {frame} _ _ _.
#[global] Arguments extract_fname {frame} _ _.
#[global] Arguments tmp_create {frame} _ _.

(** One call of [sct.printv(string, verbose, type)]. *)
Record printv_call : Set := Printv {
  pv_string : string;
  pv_verbose : Z;
  pv_type : string;
}.

(** The state that a run changes: the calls of [sct.printv] so far (latest
    last), the files of the temporary folder by name, the output files by
    path, and whether the temporary folder was removed. *)
Record world (frame : Type) : Type := World {
  printed : list printv_call;
  tmp_files : gmap string (list frame);
  out_files : gmap string (list frame);
  tmp_removed : bool;
}.
#[global] Arguments World {frame} _ _ _ _.
#[global] Arguments printed {frame} _.
#[global] Arguments tmp_files {frame} _.
#[global] Arguments out_files {frame} _.
#[global] Arguments tmp_removed {frame} _.

(** ** Parameters and options *)

(** The class [Param] (lines 33-39) with the values of [__init__].  The
    threshold [bval_min] is the [int] 100 until [main] replaces it by the
    float of [-bvalmin]; it is only ever compared with floats, so that it
    is held as the float of the same value. *)
Module Param.
Record t : Set := Make {
  debug : Z;
  average : Z;
  remove_temp_files : Z;
  verbose : Z;
  bval_min : float;
}.
Definition init : t :=
  {| debug := 0; average := 1; remove_temp_files := 1; verbose := 1; bval_min := 100%float |}.
(** [param.bval_min = x]. *)
Definition set_bval_min (p : t) (x : float) : t :=
  {| debug := debug p; average := average p; remove_temp_files := remove_temp_files p;
     verbose := verbose p; bval_min := x |}.
End Param.

(** The options of a command line: [-i] and [-bvec] are required; the
    values of [-a] and [-bvalmin] are those that [type=int] and
    [type=float] convert. *)
Record cmdline : Set := Cmdline {
  opt_i : string;
  opt_bvec : string;
  opt_a : option Z;
  opt_bval : option string;
  opt_bvalmin : option float;
  opt_ofolder : option string;
  opt_r : option string;
  opt_v : option string;
}.

(** The namespace that [parse_args] returns. *)
Module Args.
Record t : Set := Make {
  i : string;
  bvec : string;
  a : Z;
  bval : string;
  bvalmin : option float;
  ofolder : string;
  r : Py.value;
  v : Py.value;
}.
End Args.

(** ** The monad of the script: state and the three ways to end *)

Definition M (frame A : Type) : Type := world frame → Py.outcome A * world frame.

#[global] Instance M_ret {frame} : MRet (M frame) := λ A a w, (Return a, w).
#[global] Instance M_bind {frame} : MBind (M frame) :=
  λ A B k m w,
    match m w with
    | (Return a, w') => k a w'
    | (Exit s, w') => (Exit s, w')
    | (Raise e, w') => (Raise e, w')
    end.

Section Script.

Context {frame : Type} (P : platform frame).

#[local] Abbreviation M := (M frame).

Definition sys_exit {A : Type} (status : Z) : M A := λ w, (Exit status, w).
Definition raise {A : Type} (e : Py.exn) : M A := λ w, (Raise e, w).

(** A library call inside the script: its exception propagates. *)
Definition lift {A : Type} (r : Py.result A) : M A :=
  match r with
  | inl e => raise e
  | inr a => mret a
  end.

(** [l[i]]. *)
Definition item {A : Type} (l : list A) (i : nat) : M A :=
  match l !! i with
  | Some x => mret x
  | None => raise IndexError
  end.

(** [sct.printv(s, verbose, type)] is not in this file: the model records
    the call, message, verbosity and type, and takes it to return. *)
Definition printv (s : string) (verbose : Z) (type : string) : M unit :=
  λ w, (Return tt,
        World (printed w ++ [Printv s verbose type]) (tmp_files w) (out_files w) (tmp_removed w)).

(** [for x in xs: body], with the variables that the body assigns as [s]. *)
Fixpoint for_in {A S : Type} (xs : list A) (body : A → S → M S) (s : S) : M S :=
  match xs with
  | [] => mret s
  | x :: xs' => s' ← body x s; for_in xs' body s'
  end.

(** [range(0, n)]. *)
Definition range (n : nat) : list nat := seq 0 n.

Definition nl : string := String "010"%char "".

(** *** identify_b0 (lines 248-311) *)

(** Line 276: [math.sqrt(math.fsum([i**2 for i in v]))]. *)
Definition norm (v : list float) : Py.result float :=
  squares ← comprehension (λ i, float_pow P i 2%Z) v;
  s ← math_fsum P squares;
  math_sqrt s.

Definition msg_identify : string := nl +:+ "Identify b=0 and DWI images...".
Definition msg_3xn : string :=
  "  WARNING: bvecs file is 3xn instead of nx3. Consider using sct_dmri_transpose_bvecs.".
Definition msg_transpose : string := "  Transpose bvecs...".
Definition msg_no_b0 : string :=
  "ERROR: no b=0 images detected. Maybe you are using non-null low bvals? in that case use flag -bvalmin. Exit program.".

Definition identify_b0 (fname_bvecs fname_bvals : string) (bval_min : float) (verbose : Z)
  : M (list nat * list nat * nat * nat) :=
  printv msg_identify verbose "normal";;
  '(index_b0, index_dwi) ←
    (if decide (fname_bvals = "") then
       (* if bval is not provided *)
       bvecs ← lift (read_bvecs P fname_bvecs);
       row0 ← item bvecs 0;
       bvecs ←
         (if negb (Nat.eqb (length row0) 3) then
            printv msg_3xn verbose "warning";;
            printv msg_transpose verbose "normal";;
            mret (zip_star bvecs)
          else mret bvecs);
       let nt := length bvecs in
       for_in (range nt)
         (λ it '(index_b0, index_dwi),
            v ← item bvecs it;
            n ← lift (norm v);
            if PrimFloat.ltb n 0.01%float
            then mret (index_b0 ++ [it], index_dwi)
            else mret (index_b0, index_dwi ++ [it]))
         ([], [])
     else
       (* if bval is provided *)
       '(bvals, bvecs) ← lift (read_bvals_bvecs P fname_bvals fname_bvecs);
       let nt := length bvals in
       printv msg_identify verbose "normal";;
       for_in (range nt)
         (λ it '(index_b0, index_dwi),
            b ← item bvals it;
            if PrimFloat.ltb b bval_min
            then mret (index_b0 ++ [it], index_dwi)
            else mret (index_b0, index_dwi ++ [it]))
         ([], []));
  (* check if no b=0 images were detected *)
  (if decide (index_b0 = []) then
     printv msg_no_b0 1 "error";;
     sys_exit 2
   else mret tt);;
  let nb_b0 := length index_b0 in
  let nb_dwi := length index_dwi in
  printv ("  Number of b=0: " +:+ str nb_b0 +:+ " " +:+ str_list index_b0) verbose "normal";;
  printv ("  Number of DWI: " +:+ str nb_dwi +:+ " " +:+ str_list index_dwi) verbose "normal";;
  mret (index_b0, index_dwi, nb_b0, nb_dwi).

(** *** The parser (lines 42-112) *)

(** [get_parser().parse_args(args)]: the namespace that the parser of
    lines 42-112 returns for the options of a command line, or the exit
    with status 2 of [argparse] for a value that is not among the
    [choices].  [-a] is converted by [type=int] and [-bvalmin] by
    [type=float]; [-r] and [-v] have no [type=], so that they hold the
    string of the command line, or the default of [Param], an [int], when
    the option is absent. *)
Definition get_parser (cmd : cmdline) : M Args.t :=
  let param_default := Param.init in
  a ← match opt_a cmd with
      | None => mret (Param.average param_default)
      | Some z => if decide (z ∈ [0; 1]%Z) then mret z else sys_exit 2
      end;
  r ← match opt_r cmd with
      | None => mret (Int (Param.remove_temp_files param_default))
      | Some s => if decide (s ∈ ["0"; "1"]) then mret (Str s) else sys_exit 2
      end;
  v ← match opt_v cmd with
      | None => mret (Int (Param.verbose param_default))
      | Some s => if decide (s ∈ ["0"; "1"]) then mret (Str s) else sys_exit 2
      end;
  mret {| Args.i := opt_i cmd;
          Args.bvec := opt_bvec cmd;
          Args.a := a;
          Args.bval := default "" (opt_bval cmd);
          Args.bvalmin := opt_bvalmin cmd;
          Args.ofolder := default "./" (opt_ofolder cmd);
          Args.r := r;
          Args.v := v |}.

(** [int(x)] for a value of [-v]. *)
Definition int (x : Py.value) : M Z :=
  match x with
  | Int z => mret z
  | Str s =>
      match NilEmpty.uint_of_string s with
      | Some d => if decide (s = "") then raise ValueError else mret (Z.of_nat (Nat.of_uint d))
      | None => raise ValueError
      end
  end.

(** *** The files of the temporary folder *)

Definition save (name : string) (data : list frame) : M unit :=
  λ w, (Return tt,
        World (printed w) (<[name := data]> (tmp_files w)) (out_files w) (tmp_removed w)).

(** [Image(name)]: the data of a file of the temporary folder. *)
Definition Image (name : string) : M (list frame) :=
  λ w, match tmp_files w !! name with
       | Some data => (Return data, w)
       | None => (Raise IOError, w)
       end.

Definition ext : string := ".nii".
Definition dmri_name : string := "dmri".

(** Modelled from the spec: the frame-splitting collaborator
    ([sct_image.split_data], not in this file) "produces a sequence of
    single-frame volumes, one per index along that axis, in ascending
    index order".  Each of them carries the path that [save] writes: the
    name of the input with the suffix [_T] and the index on four digits,
    which are the names that lines 199 and 210 read back. *)
Definition split_data (name ext : string) (data : list frame) : list (string * list frame) :=
  imap (λ idx fr, (name +:+ "_T" +:+ zfill 4 (str idx) +:+ ext, [fr])) data.

(** Modelled from the spec: the frame-concatenation collaborator
    ([sct_image.concat_data], not in this file) "accepts an ordered
    sequence of single-frame volume file paths and an axis index;
    produces one Volume4D by concatenating them in the given order". *)
Fixpoint concat_data (l : list string) : M (list frame) :=
  match l with
  | [] => mret []
  | fname :: l' => data ← Image fname; rest ← concat_data l'; mret (data ++ rest)
  end.

(** [sct_maths -i fin -o fout -mean t], run by [run_proc]. *)
Definition sct_maths_mean_t (fin fout : string) : M unit :=
  data ← Image fin; save fout [mean_t P data].

Definition write_output (fout : string) (data : list frame) : M unit :=
  λ w, (Return tt,
        World (printed w) (tmp_files w) (<[fout := data]> (out_files w)) (tmp_removed w)).

Definition generate_output_file (fin fout : string) : M unit :=
  data ← Image fin; write_output fout data.

Definition rmtree : M unit :=
  λ w, (Return tt, World (printed w) ∅ (out_files w) true).

(** Lines 197-200 and 208-211, the same statements for the two classes:
    the names of the frames of the class, then their concatenation saved
    under [name]. *)
Definition merge (index : list nat) (nb : nat) (name : string) : M unit :=
  l ← for_in (range nb)
        (λ it l,
           idx ← item index it;
           mret (l ++ [dmri_name +:+ "_T" +:+ zfill 4 (str idx) +:+ ext]))
        [];
  im_out ← concat_data l;
  save name im_out.

(** *** main (lines 117-242)

    The arguments are the options of the command line (the [--help] of
    an empty command line is not modelled).  The progress messages of
    [main], the copy of the bvecs file and the changes of directory carry
    no decision and are left out: files of the temporary folder are named
    relative to it. *)

(** Lines 136-137: [if arguments.bvalmin: param.bval_min = arguments.bvalmin]. *)
Definition update_bval_min (param : Param.t) (arguments : Args.t) : Param.t :=
  if truthy_opt_float (Args.bvalmin arguments)
  then Param.set_bval_min param (default 0%float (Args.bvalmin arguments))
  else param.

(** Lines 188-242, the end of [main] once the frames are classified: split,
    merge, average, generate the output files, remove the temporary
    folder. *)
Definition main_outputs (file_data ext_data path_out : string) (average : Z)
    (remove_temp_files : Py.value) (im_dmri : list frame)
    (index_b0 index_dwi : list nat) (nb_b0 nb_dwi : nat)
  : M (string * string * string * string) :=
  let b0_name := file_data +:+ "_b0" in
  let b0_mean_name := b0_name +:+ "_mean" in
  let dwi_name := file_data +:+ "_dwi" in
  let dwi_mean_name := dwi_name +:+ "_mean" in
  (* Split into T dimension *)
  for_in (split_data dmri_name ext im_dmri)
    (λ im_d _, save im_d.1 im_d.2) tt;;
  (* Merge b=0 images *)
  merge index_b0 nb_b0 (b0_name +:+ ext);;
  (* Average b=0 images *)
  (if negb (Z.eqb average 0)
   then sct_maths_mean_t (b0_name +:+ ext) (b0_mean_name +:+ ext)
   else mret tt);;
  (* Merge DWI *)
  merge index_dwi nb_dwi (dwi_name +:+ ext);;
  (* Average DWI images *)
  (if negb (Z.eqb average 0)
   then sct_maths_mean_t (dwi_name +:+ ext) (dwi_mean_name +:+ ext)
   else mret tt);;
  (* Generate output files *)
  let fname_b0 := abspath P (path_join P path_out (b0_name +:+ ext_data)) in
  let fname_dwi := abspath P (path_join P path_out (dwi_name +:+ ext_data)) in
  let fname_b0_mean := abspath P (path_join P path_out (b0_mean_name +:+ ext_data)) in
  let fname_dwi_mean := abspath P (path_join P path_out (dwi_mean_name +:+ ext_data)) in
  generate_output_file (b0_name +:+ ext) fname_b0;;
  generate_output_file (dwi_name +:+ ext) fname_dwi;;
  (if negb (Z.eqb average 0)
   then generate_output_file (b0_mean_name +:+ ext) fname_b0_mean;;
        generate_output_file (dwi_mean_name +:+ ext) fname_dwi_mean
   else mret tt);;
  (* Remove temporary files *)
  (if eq_int remove_temp_files 1
   then rmtree
   else mret tt);;
  mret (fname_b0, fname_b0_mean, fname_dwi, fname_dwi_mean).

Definition main (cmd : cmdline) : M (string * string * string * string) :=
  let param := Param.init in
  arguments ← get_parser cmd;
  let fname_data := Args.i arguments in
  let fname_bvecs := Args.bvec arguments in
  let average := Args.a arguments in
  verbose ← int (Args.v arguments);
  let remove_temp_files := Args.r arguments in
  let path_out := Args.ofolder arguments in
  let fname_bvals := Args.bval arguments in
  let param := update_bval_min param arguments in
  (* Get full path *)
  let fname_data := abspath P fname_data in
  let fname_bvecs := abspath P fname_bvecs in
  let fname_bvals := if decide (fname_bvals = "") then fname_bvals else abspath P fname_bvals in
  (* Extract path, file and extension *)
  let '(path_data, file_data, ext_data) := extract_fname P fname_data in
  (* create temporary folder *)
  let path_tmp := tmp_create P "dmri_separate" in
  (* copy files into tmp folder and convert to nifti *)
  match read_image P fname_data with
  | Some data => save (dmri_name +:+ ext) data
  | None => printv "ERROR in convert." 1 "error"
  end;;
  (* Get size of data *)
  im_dmri ← Image (dmri_name +:+ ext);
  (* Identify b=0 and DWI images *)
  '(index_b0, index_dwi, nb_b0, nb_dwi) ←
    identify_b0 fname_bvecs fname_bvals (Param.bval_min param) verbose;
  main_outputs file_data ext_data path_out average remove_temp_files im_dmri
    index_b0 index_dwi nb_b0 nb_dwi.

End Script.

(** ** A platform and data to run the model on

    [x ** 2] is [x * x], with [OverflowError] when a finite [x] has an
    infinite square; [fsum] adds from left to right, which is the exactly
    rounded sum whenever every partial sum is exact, as it is for the
    tables evaluated below.  A frame is a number, and the mean of frames
    their sum. *)

(** [x ** 2] on the platform of the examples. *)
Definition pow_ieee (x : float) (n : Z) : Py.result float :=
  if decide (n = 2%Z) then
    let y := (x * x)%float in
    if PrimFloat.is_infinity y && negb (PrimFloat.is_infinity x)
    then inl OverflowError else inr y
  else inl (OtherError "pow").

(** [math.fsum] on the platform of the examples. *)
Definition fsum_exact_cases (l : list float) : Py.result float :=
  inr (fold_left PrimFloat.add l 0%float).

(** The platform of the examples, from the rows that each bvecs file holds,
    the b-values that the reader returns, if any, and the input volume. *)
Definition demo_files (read : string → list (list float)) (bvals : option (list float))
    (image : list nat) : platform nat :=
  {| math_fsum := fsum_exact_cases;
     float_pow := pow_ieee;
     read_bvecs := λ fname, inr (read fname);
     read_bvals_bvecs := λ _ fname,
       match bvals with
       | Some b => inr (b, read fname)
       | None => inl IOError
       end;
     read_image := λ _, Some image;
     mean_t := λ v, foldr Nat.add 0 v;
     abspath := λ s, s;
     path_join := λ a b, a +:+ b;
     extract_fname := λ s, ("/data/", "dmri_in", ".nii.gz");
     tmp_create := λ s, "/tmp/" +:+ s +:+ "/" |}.

(** The platform on which every bvecs file holds [bvecs]. *)
Definition demo (bvecs : list (list float)) (bvals : option (list float))
    (image : list nat) : platform nat :=
  demo_files (λ _, bvecs) bvals image.

(** The platform with the file ["bvecs"] holding [rows] and every other
    file [cols]. *)
Definition demo_two (rows cols : list (list float)) : platform nat :=
  demo_files (λ fname, if decide (fname = "bvecs") then rows else cols) None [].

(** A world with nothing printed and no file, to run the model from. *)
Definition w0 : world nat := World [] ∅ ∅ false.

(** The table of the end-to-end scenario: frames 0, 1 and 4 have a null
    gradient. *)
Definition five_frames : list (list float) :=
  [[0; 0; 0]; [0; 0; 0]; [1; 0; 0]; [0; 1; 0]; [0; 0; 0]]%float.

(** The table of the end-to-end scenario stored by columns. *)
Definition five_frames_3xn : list (list float) :=
  [[0; 0; 1; 0; 0]; [0; 0; 0; 1; 0]; [0; 0; 0; 0; 0]]%float.

(** Three vectors of norm 0.01, 0.009999 and 0. *)
Definition boundary_frames : list (list float) :=
  [[0.01; 0; 0]; [0; 0.009999; 0]; [0; 0; 0]]%float.

(** A table of 3 frames, and the same table stored by columns. *)
Definition three_frames : list (list float) :=
  [[0; 0; 0]; [1; 0; 0]; [0; 1; 0]]%float.

Definition three_frames_3xn : list (list float) :=
  [[0; 1; 0]; [0; 0; 1]; [0; 0; 0]]%float.

(** A table whose second row has 2 components. *)
Definition short_row : list (list float) := [[0; 0; 0]; [1; 0]]%float.

(** Two frames with a gradient of norm 1. *)
Definition no_b0_frames : list (list float) := [[1; 0; 0]; [0; 1; 0]]%float.

(** The list [2, 0, 5] over a volume of 6 frames: the frames 2, 0 and 5,
    in this order. *)
Definition six_frames : list nat := [10; 11; 12; 13; 14; 15].

(** The world after the split of these 6 frames. *)
Definition w_split : world nat :=
  (for_in (split_data dmri_name ext six_frames) (λ im_d _, save im_d.1 im_d.2) tt w0).2.

(** A command line with the two required options only, and what the parser
    returns for it. *)
Definition cmd_default : cmdline :=
  {| opt_i := "dmri.nii.gz"; opt_bvec := "bvecs"; opt_a := None; opt_bval := None;
     opt_bvalmin := None; opt_ofolder := None; opt_r := None; opt_v := None |}.

Definition args_default : Args.t :=
  {| Args.i := "dmri.nii.gz"; Args.bvec := "bvecs"; Args.a := 1; Args.bval := "";
     Args.bvalmin := None; Args.ofolder := "./"; Args.r := Int 1; Args.v := Int 1 |}.

(** The options [-bval bvals -bvalmin 0] and what the parser returns. *)
Definition cmd_bvalmin_0 : cmdline :=
  {| opt_i := "dmri.nii.gz"; opt_bvec := "bvecs"; opt_a := None; opt_bval := Some "bvals";
     opt_bvalmin := Some 0%float; opt_ofolder := None; opt_r := None; opt_v := None |}.

Definition args_bvalmin_0 : Args.t :=
  {| Args.i := "dmri.nii.gz"; Args.bvec := "bvecs"; Args.a := 1; Args.bval := "bvals";
     Args.bvalmin := Some 0%float; Args.ofolder := "./"; Args.r := Int 1; Args.v := Int 1 |}.

(** The end-to-end scenario with b-values. *)
Definition demo_bvals : platform nat :=
  demo five_frames (Some [5; 10; 800; 900; 0]%float) [10; 11; 12; 13; 14].

(** ** The vocabulary of the properties *)

(** The world after more calls of [sct.printv]. *)
Definition say {frame : Type} (w : world frame) (l : list printv_call) : world frame :=
  World (printed w ++ l) (tmp_files w) (out_files w) (tmp_removed w).

(** The test of line 276 on frame [it] of a table and the test of line
    294 on frame [it] of the b-values: the truth value of the comparison,
    or the exception raised on the way. *)
Definition b0_by_norm {frame : Type} (P : platform frame) (table : list (list float))
    (it : nat) : Py.result bool :=
  match table !! it with
  | Some v =>
      match norm P v with
      | inr n => inr (PrimFloat.ltb n 0.01%float)
      | inl e => inl e
      end
  | None => inl IndexError
  end.

Definition b0_by_bval (bvals : list float) (bval_min : float) (it : nat) : Py.result bool :=
  match bvals !! it with
  | Some b => inr (PrimFloat.ltb b bval_min)
  | None => inl IndexError
  end.

(** The table that the loop of line 275 reads: the rows of the file, or
    their transposition when the first row has not 3 components. *)
Definition oriented (rows : list (list float)) : list (list float) :=
  match rows with
  | row0 :: _ => if Nat.eqb (length row0) 3 then rows else zip_star rows
  | [] => rows
  end.

(** The indices below [n] on which the test gives [b], in ascending
    order. *)
Definition indices (c : nat → Py.result bool) (b : bool) (n : nat) : list nat :=
  filter (λ i, c i = inr b) (seq 0 n).

(** How [identify_b0] ends once the two lists are known (lines 299-311),
    and what it prints on the way. *)
Definition finish (b0 dwi : list nat) : Py.outcome (list nat * list nat * nat * nat) :=
  if decide (b0 = []) then Exit 2 else Return (b0, dwi, length b0, length dwi).

Definition finish_trace (b0 dwi : list nat) (verbose : Z) : list printv_call :=
  if decide (b0 = []) then [Printv msg_no_b0 1 "error"]
  else [Printv ("  Number of b=0: " +:+ str (length b0) +:+ " " +:+ str_list b0) verbose "normal";
        Printv ("  Number of DWI: " +:+ str (length dwi) +:+ " " +:+ str_list dwi) verbose "normal"].

Definition transpose_trace (rows : list (list float)) (verbose : Z) : list printv_call :=
  match rows with
  | row0 :: _ =>
      if Nat.eqb (length row0) 3 then []
      else [Printv msg_3xn verbose "warning"; Printv msg_transpose verbose "normal"]
  | [] => []
  end.

(** A table of [n] rows of [m] components. *)
Definition grid (n m : nat) (rows : list (list float)) : Prop :=
  length rows = n ∧ Forall (λ r, length r = m) rows.

(** [cols] holds by columns what [rows] holds by rows. *)
Definition transposed (cols rows : list (list float)) : Prop :=
  ∀ i j, cols !! j ≫= (.!! i) = rows !! i ≫= (.!! j).

(** The test that decides the class of each frame in a call of
    [identify_b0], and the number of frames [nt]: the norm of the rows of
    the oriented table when no b-values are given, the b-values
    otherwise. *)
Inductive classification {frame : Type} (P : platform frame)
    (fname_bvecs fname_bvals : string) (bval_min : float)
  : (nat → Py.result bool) → nat → Prop :=
| by_norm (rows : list (list float)) :
    fname_bvals = "" →
    read_bvecs P fname_bvecs = inr rows →
    rows ≠ [] →
    classification P fname_bvecs fname_bvals bval_min
      (b0_by_norm P (oriented rows)) (length (oriented rows))
| by_bval (bvals : list float) (bvecs : list (list float)) :
    fname_bvals ≠ "" →
    read_bvals_bvecs P fname_bvals fname_bvecs = inr (bvals, bvecs) →
    classification P fname_bvecs fname_bvals bval_min
      (b0_by_bval bvals bval_min) (length bvals).

(** The test is computed on every frame. *)
Definition total (c : nat → Py.result bool) (n : nat) : Prop :=
  Forall (λ i, ∃ b, c i = inr b) (seq 0 n).

(** The norm of line 276 is computed without exception on the vectors of
    3 components made of entries of the file. *)
Definition norms_computed {frame : Type} (P : platform frame) (rows : list (list float)) : Prop :=
  ∀ v, length v = 3 → (∀ x, x ∈ v → ∃ r, r ∈ rows ∧ x ∈ r) → ∃ n, norm P v = inr n.

(** The inputs of [identify_b0] for [N] frames: a gradient table read as
    [N] rows of 3 components or as 3 rows of [N] components, on which the
    norms are computed; with b-values, what the reader returns is [N]
    b-values and [N] gradients. *)
Inductive well_formed {frame : Type} (P : platform frame) (fname_bvecs : string)
  : string → nat → Prop :=
| gradients_only (rows : list (list float)) (N : nat) :
    read_bvecs P fname_bvecs = inr rows →
    0 < N →
    grid N 3 rows ∨ grid 3 N rows →
    norms_computed P rows →
    well_formed P fname_bvecs "" N
| gradients_and_bvalues (fname_bvals : string) (bvals : list float)
    (bvecs : list (list float)) (N : nat) :
    fname_bvals ≠ "" →
    read_bvals_bvecs P fname_bvals fname_bvecs = inr (bvals, bvecs) →
    0 < N →
    length bvals = N →
    grid N 3 bvecs →
    well_formed P fname_bvecs fname_bvals N.

(** The world once [convert] has written the input volume in the temporary
    folder. *)
Definition converted {frame : Type} (data : list frame) (w : world frame) : world frame :=
  World (printed w) (<[dmri_name +:+ ext := data]> (tmp_files w)) (out_files w) (tmp_removed w).

(** What [main] passes to [identify_b0] for the b-values (lines 135 and
    152-153). *)
Definition fname_bvals_of {frame : Type} (P : platform frame) (arguments : Args.t) : string :=
  if decide (Args.bval arguments = "") then Args.bval arguments
  else abspath P (Args.bval arguments).

(** The command line without [-bvalmin]. *)
Definition without_bvalmin (cmd : cmdline) : cmdline :=
  {| opt_i := opt_i cmd; opt_bvec := opt_bvec cmd; opt_a := opt_a cmd;
     opt_bval := opt_bval cmd; opt_bvalmin := None; opt_ofolder := opt_ofolder cmd;
     opt_r := opt_r cmd; opt_v := opt_v cmd |}.

(** [m] takes a world to a world related by [R], however it ends, and exits
    only with a status in [E]. *)
Definition behaves {frame A : Type} (R : relation (world frame)) (E : Z → Prop)
    (m : M frame A) : Prop :=
  ∀ w, R w (m w).2 ∧ ∀ s, (m w).1 = Exit s → E s.

(** The run printed nothing. *)
Definition silent {frame : Type} : relation (world frame) := λ w w', printed w' = printed w.

(** The run did not remove the temporary folder. *)
Definition keeps_tmp {frame : Type} : relation (world frame) :=
  λ w w', tmp_removed w' = tmp_removed w.

(** Relations that hold across changes of the files. *)
Class Footprint {frame : Type} (R : relation (world frame)) : Prop := {
  footprint_preorder :: PreOrder R;
  footprint_files w t o : R w (World (printed w) t o (tmp_removed w));
}.

(** [Q] holds of the value and of the world whenever [m] returns. *)
Definition post {frame A : Type} (m : M frame A) (Q : A → world frame → Prop) : Prop :=
  ∀ w a w', m w = (Return a, w') → Q a w'.

(** The file of frame [idx] in the temporary folder (lines 199 and 210). *)
Definition frame_file (idx : nat) : string :=
  dmri_name +:+ "_T" +:+ zfill 4 (str idx) +:+ ext.

(** The characters of a string. *)
Definition chars (s : string) : list ascii := list_ascii_of_string s.

(** The characters of [str] and [zfill]. *)
Definition digit (c : ascii) : Prop := c ∈ chars "0123456789".

(** The number that a string of digits denotes. *)
Definition number (s : string) : option nat := Nat.of_uint <$> NilEmpty.uint_of_string s.

(** The frames of [data] are in the temporary folder, each under its
    name, as the split of line 190 and the [save] of line 192 leave them. *)
Definition frames_saved {frame : Type} (data : list frame) (w : world frame) : Prop :=
  ∀ idx fr, data !! idx = Some fr → tmp_files w !! frame_file idx = Some [fr].

(** The least of [a] and of the lengths of the rows. *)
Definition min_length (a : nat) (rows : list (list float)) : nat :=
  foldr (λ r m, Nat.min (length r) m) a rows.

(** The messages that a run printed, after those of the world it started
    from. *)
Definition new_messages {frame : Type} (w w' : world frame) : list printv_call :=
  drop (length (printed w)) (printed w').

(** Two rows of 4 and 2 components. *)
Definition ragged_rows : list (list float) := [[0; 1; 1; 1]; [0; 0]]%float.

(** A call that returns or raises, and leaves the world as it is. *)
Definition pure_call {frame A : Type} (m : M frame A) : Prop :=
  ∀ w, (∃ a, m w = (Return a, w)) ∨ (∃ e, m w = (Raise e, w)).

(** The output files that the end of [main] leaves: those of the two
    classes, then their means when [average] is true. *)
Definition outputs {frame : Type} (P : platform frame) (average : Z)
    (fname_b0 fname_b0_mean fname_dwi fname_dwi_mean : string) (b0 dwi : list frame)
    (out : gmap string (list frame)) : gmap string (list frame) :=
  let classes := <[fname_dwi := dwi]> (<[fname_b0 := b0]> out) in
  if negb (Z.eqb average 0)
  then <[fname_dwi_mean := [mean_t P dwi]]> (<[fname_b0_mean := [mean_t P b0]]> classes)
  else classes.

(** Following the spec ("compute the Euclidean norm of its gradient
    vector"): [n] is the square root of the sum of the squares of the
    components of [v], with the power and the sum of the platform and the
    IEEE square root, when none of them raises. *)
Inductive euclidean_norm {frame : Type} (P : platform frame) (v : list float) : float → Prop :=
| sqrt_of_sum_of_squares (squares : list float) (s : float) :
    Forall2 (λ x x2, float_pow P x 2%Z = inr x2) v squares →
    math_fsum P squares = inr s →
    PrimFloat.is_nan (PrimFloat.sqrt s) && negb (PrimFloat.is_nan s) = false →
    euclidean_norm P v (PrimFloat.sqrt s).

(** * Properties *)

(** ** The statements of the script, one at a time *)

Section Steps.

Context {frame : Type}.

Lemma say_say (w : world frame) l1 l2 : say (say w l1) l2 = say w (l1 ++ l2).
Proof. unfold say. simpl. by rewrite app_assoc. Qed.

Lemma printv_say s verbose type (w : world frame) :
  printv s verbose type w = (Return tt, say w [Printv s verbose type]).
Proof. done. Qed.

Lemma bind_unfold {A B : Type} (m : M frame A) (k : A → M frame B) (w : world frame) :
  (m ≫= k) w
  = match m w with
    | (Return a, w') => k a w'
    | (Exit s, w') => (Exit s, w')
    | (Raise e, w') => (Raise e, w')
    end.
Proof. done. Qed.

Lemma mret_unfold {A : Type} (a : A) (w : world frame) : mret (M:=M frame) a w = (Return a, w).
Proof. done. Qed.

Lemma lift_inr {A : Type} (a : A) (w : world frame) : lift (frame:=frame) (inr a) w = (Return a, w).
Proof. done. Qed.

Lemma lift_inl {A : Type} (e : Py.exn) (w : world frame) :
  lift (frame:=frame) (A:=A) (inl e) w = (Raise e, w).
Proof. done. Qed.

Lemma item_Some {A : Type} (l : list A) (i : nat) (x : A) (w : world frame) :
  l !! i = Some x → item l i w = (Return x, w).
Proof. unfold item. by intros ->. Qed.

Lemma item_None {A : Type} (l : list A) (i : nat) (w : world frame) :
  l !! i = None → item l i w = (Raise IndexError, w).
Proof. unfold item. by intros ->. Qed.

End Steps.

(** One statement of the script: the outermost bind at the current world,
    with what is known of its first computation. *)
Ltac run_bind :=
  rewrite bind_unfold;
  rewrite ?printv_say, ?mret_unfold, ?lift_inr, ?lift_inl;
  cbv beta iota.

(** ** The classification loops *)

Section Loops.

Context {frame : Type} (P : platform frame).

(** A loop that appends each index to one of two lists, by a test that
    may raise, returns the indices of the two classes in the order of the
    loop, or raises the first exception of the tests. *)
Lemma for_in_classes (c : nat → Py.result bool)
    (body : nat → list nat * list nat → M frame (list nat * list nat))
    (xs : list nat) (w : world frame) :
  (∀ it b0 dwi, it ∈ xs →
     body it (b0, dwi) w
     = match c it with
       | inr b => (Return (if b then (b0 ++ [it], dwi) else (b0, dwi ++ [it])), w)
       | inl e => (Raise e, w)
       end) →
  ∀ b0 dwi,
    for_in xs body (b0, dwi) w
    = match comprehension c xs with
      | inr _ => (Return (b0 ++ filter (λ i, c i = inr true) xs,
                          dwi ++ filter (λ i, c i = inr false) xs), w)
      | inl e => (Raise e, w)
      end.
Proof.
  induction xs as [|x xs IH]; intros Hbody b0 dwi.
  - simpl. by rewrite !app_nil_r.
  - cbn [for_in comprehension]. rewrite bind_unfold.
    rewrite Hbody by (apply elem_of_cons; by left).
    rewrite !filter_cons.
    destruct (c x) as [e|[|]] eqn:Hc; [done|..];
      (rewrite IH by (intros; apply Hbody, elem_of_cons; by right));
      cbn; destruct (comprehension c xs); cbn; try done;
      repeat case_decide; try done; by rewrite <- app_assoc.
Qed.

Lemma comprehension_inr {A B : Type} (f : A → Py.result B) (l : list A) :
  Forall (λ x, ∃ y, f x = inr y) l → ∃ ys, comprehension f l = inr ys.
Proof.
  induction 1 as [|x l [y Hy] _ [ys Hys]]; simpl; [by eexists|].
  rewrite Hy. cbn. rewrite Hys. cbn. by eexists.
Qed.

Lemma comprehension_inr_inv {A B : Type} (f : A → Py.result B) (l : list A) (ys : list B) :
  comprehension f l = inr ys → Forall (λ x, ∃ y, f x = inr y) l.
Proof.
  revert ys. induction l as [|x l IH]; intros ys; simpl; [by constructor|].
  destruct (f x) as [e|y] eqn:Hy; cbn; [done|].
  destruct (comprehension f l) as [e|ys'] eqn:Hys; cbn; [done|].
  intros _. constructor; eauto.
Qed.

Lemma loop_by_norm (table : list (list float)) (w : world frame) :
  for_in (range (length table))
    (λ it '(index_b0, index_dwi),
       v ← item table it;
       n ← lift (norm P v);
       if PrimFloat.ltb n 0.01%float
       then mret (index_b0 ++ [it], index_dwi)
       else mret (index_b0, index_dwi ++ [it]))
    ([], []) w
  = match comprehension (b0_by_norm P table) (seq 0 (length table)) with
    | inr _ => (Return (indices (b0_by_norm P table) true (length table),
                        indices (b0_by_norm P table) false (length table)), w)
    | inl e => (Raise e, w)
    end.
Proof.
  apply (for_in_classes (b0_by_norm P table)).
  intros it b0 dwi _. unfold b0_by_norm. rewrite bind_unfold.
  destruct (table !! it) as [v|] eqn:Hv.
  - rewrite (item_Some _ _ v) by done. cbv beta iota. rewrite bind_unfold.
    destruct (norm P v) as [e|n]; [by rewrite lift_inl|].
    rewrite lift_inr. by destruct (PrimFloat.ltb n 0.01%float).
  - by rewrite item_None.
Qed.

Lemma loop_by_bval (bvals : list float) (bval_min : float) (w : world frame) :
  for_in (range (length bvals))
    (λ it '(index_b0, index_dwi),
       b ← item bvals it;
       if PrimFloat.ltb b bval_min
       then mret (index_b0 ++ [it], index_dwi)
       else mret (index_b0, index_dwi ++ [it]))
    ([], []) w
  = (Return (indices (b0_by_bval bvals bval_min) true (length bvals),
             indices (b0_by_bval bvals bval_min) false (length bvals)), w).
Proof.
  unfold indices, range.
  rewrite (for_in_classes (b0_by_bval bvals bval_min)).
  - destruct (comprehension_inr (b0_by_bval bvals bval_min) (seq 0 (length bvals))) as [bs ->]; [|done].
    apply Forall_seq. intros it [_ Hit]. simpl in Hit.
    destruct (lookup_lt_is_Some_2 bvals it Hit) as [b Hb].
    unfold b0_by_bval. rewrite Hb. by eexists.
  - intros it b0 dwi _. unfold b0_by_bval. rewrite bind_unfold.
    destruct (bvals !! it) as [b|] eqn:Hb.
    + rewrite (item_Some _ _ b) by done. by destruct (PrimFloat.ltb b bval_min).
    + by rewrite item_None.
Qed.

Lemma check_and_display (index_b0 index_dwi : list nat) (verbose : Z) (w : world frame) :
  ((if decide (index_b0 = []) then
      printv msg_no_b0 1 "error";;
      sys_exit 2
    else mret tt);;
   let nb_b0 := length index_b0 in
   let nb_dwi := length index_dwi in
   printv ("  Number of b=0: " +:+ str nb_b0 +:+ " " +:+ str_list index_b0) verbose "normal";;
   printv ("  Number of DWI: " +:+ str nb_dwi +:+ " " +:+ str_list index_dwi) verbose "normal";;
   mret (index_b0, index_dwi, nb_b0, nb_dwi)) w
  = (finish index_b0 index_dwi, say w (finish_trace index_b0 index_dwi verbose)).
Proof.
  unfold finish, finish_trace.
  destruct (decide (index_b0 = [])) as [->|Hb0].
  - do 2 run_bind. done.
  - do 3 run_bind. by rewrite !say_say.
Qed.

(** [identify_b0] without b-values, on a file that is read and has a first
    row: the first exception of the norms, or the end of lines 299-311 on
    the indices of the two classes. *)
Lemma identify_b0_bvecs (fname_bvecs : string) (bval_min : float) (verbose : Z)
    (rows : list (list float)) (w : world frame) :
  read_bvecs P fname_bvecs = inr rows →
  rows ≠ [] →
  let table := oriented rows in
  let b0 := indices (b0_by_norm P table) true (length table) in
  let dwi := indices (b0_by_norm P table) false (length table) in
  let before := Printv msg_identify verbose "normal" :: transpose_trace rows verbose in
  identify_b0 P fname_bvecs "" bval_min verbose w
  = match comprehension (b0_by_norm P table) (seq 0 (length table)) with
    | inr _ => (finish b0 dwi, say w (before ++ finish_trace b0 dwi verbose))
    | inl e => (Raise e, say w before)
    end.
Proof.
  intros Hread Hne table b0 dwi before.
  destruct rows as [|row0 rows']; [done|].
  unfold identify_b0. rewrite decide_True by done. rewrite Hread.
  do 4 run_bind. rewrite (item_Some _ 0 row0) by done. cbv beta iota.
  unfold before, transpose_trace, b0, dwi, table, oriented in *.
  destruct (Nat.eqb (length row0) 3) eqn:Hlen; cbn [negb].
  - run_bind. rewrite (loop_by_norm (row0 :: rows')).
    destruct (comprehension _ _); [done|].
    rewrite check_and_display, say_say. done.
  - do 3 run_bind. rewrite (loop_by_norm (zip_star (row0 :: rows'))).
    destruct (comprehension _ _); [by rewrite !say_say|].
    rewrite check_and_display, !say_say. done.
Qed.

Lemma identify_b0_bvecs_unread (fname_bvecs : string) (bval_min : float) (verbose : Z)
    (e : Py.exn) (w : world frame) :
  read_bvecs P fname_bvecs = inl e →
  identify_b0 P fname_bvecs "" bval_min verbose w
  = (Raise e, say w [Printv msg_identify verbose "normal"]).
Proof.
  intros Hread. unfold identify_b0. rewrite decide_True by done. rewrite Hread.
  by do 3 run_bind.
Qed.

Lemma identify_b0_bvecs_empty (fname_bvecs : string) (bval_min : float) (verbose : Z)
    (w : world frame) :
  read_bvecs P fname_bvecs = inr [] →
  identify_b0 P fname_bvecs "" bval_min verbose w
  = (Raise IndexError, say w [Printv msg_identify verbose "normal"]).
Proof.
  intros Hread. unfold identify_b0. rewrite decide_True by done. rewrite Hread.
  do 4 run_bind. by rewrite item_None.
Qed.

Lemma identify_b0_bvals_unread (fname_bvecs fname_bvals : string) (bval_min : float)
    (verbose : Z) (e : Py.exn) (w : world frame) :
  fname_bvals ≠ "" →
  read_bvals_bvecs P fname_bvals fname_bvecs = inl e →
  identify_b0 P fname_bvecs fname_bvals bval_min verbose w
  = (Raise e, say w [Printv msg_identify verbose "normal"]).
Proof.
  intros Hne Hread. unfold identify_b0. rewrite decide_False by done. rewrite Hread.
  by do 3 run_bind.
Qed.

(** [identify_b0] with b-values, when the reader returns. *)
Lemma identify_b0_bvals (fname_bvecs fname_bvals : string) (bval_min : float) (verbose : Z)
    (bvals : list float) (bvecs : list (list float)) (w : world frame) :
  fname_bvals ≠ "" →
  read_bvals_bvecs P fname_bvals fname_bvecs = inr (bvals, bvecs) →
  let b0 := indices (b0_by_bval bvals bval_min) true (length bvals) in
  let dwi := indices (b0_by_bval bvals bval_min) false (length bvals) in
  identify_b0 P fname_bvecs fname_bvals bval_min verbose w
  = (finish b0 dwi,
     say w ([Printv msg_identify verbose "normal"; Printv msg_identify verbose "normal"]
            ++ finish_trace b0 dwi verbose)).
Proof.
  intros Hne Hread b0 dwi.
  unfold identify_b0. rewrite decide_False by done. rewrite Hread.
  do 4 run_bind. rewrite loop_by_bval. cbv beta iota.
  rewrite check_and_display, !say_say. done.
Qed.

End Loops.

(** ** Facts on lists, transposition and floats *)

Lemma elem_of_indices (c : nat → Py.result bool) (b : bool) (n i : nat) :
  i ∈ indices c b n ↔ i < n ∧ c i = inr b.
Proof.
  unfold indices. rewrite list_elem_of_filter, elem_of_seq. simpl.
  split; [intros [? [_ ?]]|intros [? ?]]; (split; [done||lia|done||lia]).
Qed.

Lemma elem_of_indices_test (c : nat → Py.result bool) (b t : bool) (n i : nat) :
  i < n → c i = inr t → i ∈ indices c b n ↔ t = b.
Proof.
  intros Hi Hc. rewrite elem_of_indices, Hc.
  split; [by intros [_ [= ->]]|by intros ->].
Qed.

Lemma StronglySorted_lt_seq (j n : nat) : StronglySorted lt (seq j n).
Proof.
  revert j. induction n as [|n IH]; intros j; simpl; constructor; [apply IH|].
  apply Forall_seq. lia.
Qed.

Lemma StronglySorted_filter {A : Type} (R : A → A → Prop) (Q : A → Prop)
    `{∀ x, Decision (Q x)} (l : list A) :
  StronglySorted R l → StronglySorted R (filter Q l).
Proof.
  induction 1 as [|x l Hl IH Hx]; [constructor|].
  rewrite filter_cons. case_decide; [|done].
  constructor; [done|]. apply Forall_forall. intros y [_ Hy]%list_elem_of_filter.
  by apply (proj1 (Forall_forall _ _) Hx).
Qed.

Lemma indices_sorted (c : nat → Py.result bool) (b : bool) (n : nat) :
  StronglySorted lt (indices c b n).
Proof. apply StronglySorted_filter, StronglySorted_lt_seq. Qed.

Lemma indices_NoDup (c : nat → Py.result bool) (b : bool) (n : nat) : NoDup (indices c b n).
Proof. apply NoDup_filter, NoDup_seq. Qed.

Lemma classes_Permutation (c : nat → Py.result bool) (l : list nat) :
  Forall (λ i, ∃ b, c i = inr b) l →
  filter (λ i, c i = inr true) l ++ filter (λ i, c i = inr false) l ≡ₚ l.
Proof.
  induction 1 as [|x l [b Hb] _ IH]; [done|].
  rewrite !filter_cons. destruct b; repeat case_decide; try congruence.
  - simpl. by f_equiv.
  - rewrite <- Permutation_middle. by f_equiv.
Qed.

Lemma indices_Permutation (c : nat → Py.result bool) (n : nat) :
  Forall (λ i, ∃ b, c i = inr b) (seq 0 n) →
  indices c true n ++ indices c false n ≡ₚ seq 0 n.
Proof. apply classes_Permutation. Qed.

Lemma zip_star_grid (n m : nat) (rows : list (list float)) :
  0 < n → grid n m rows →
  length (zip_star rows) = m ∧
  ∀ j col, zip_star rows !! j = Some col →
    length col = n ∧ ∀ i, col !! i = rows !! i ≫= (.!! j).
Proof.
  revert n. induction rows as [|r rows IH]; intros n Hn [Hlen Hrows].
  { simpl in Hlen. lia. }
  apply Forall_cons in Hrows as [Hr Hrows].
  destruct rows as [|r2 rows].
  - simpl in *. subst n. split; [by rewrite length_map|].
    intros j col. rewrite list_lookup_fmap.
    destruct (r !! j) as [x|] eqn:Hx; [|done]. intros [= <-].
    split; [done|]. intros [|i]; simpl; by rewrite ?Hx.
  - destruct (IH (length (r2 :: rows))) as [IHlen IHcol].
    { simpl. lia. }
    { by split. }
    change (zip_star (r :: r2 :: rows)) with (zip_with cons r (zip_star (r2 :: rows))).
    split.
    + rewrite length_zip_with. lia.
    + intros j col. rewrite lookup_zip_with.
      destruct (r !! j) as [x|] eqn:Hx;
        destruct (zip_star (r2 :: rows) !! j) as [col'|] eqn:Hcol'; try done.
      cbn [mbind option_bind]. intros [= <-].
      destruct (IHcol j col' Hcol') as [Hl Hc].
      split; [cbn [length] in *; lia|].
      intros [|i]; cbn [lookup list_lookup mbind option_bind]; [by rewrite Hx|]. apply Hc.
Qed.

(** The transposition of line 269 gives back the table that was stored by
    columns. *)
Lemma zip_star_transposed (n m : nat) (cols rows : list (list float)) :
  0 < m → grid m n cols → grid n m rows → transposed cols rows →
  zip_star cols = rows.
Proof.
  intros Hm Hcols [Hlen Hrows] Ht.
  destruct (zip_star_grid m n cols Hm Hcols) as [Hzlen Hz].
  apply list_eq. intros i.
  destruct (zip_star cols !! i) as [col|] eqn:Hcol.
  - destruct (Hz i col Hcol) as [Hl Hc].
    apply lookup_lt_Some in Hcol. rewrite Hzlen, <- Hlen in Hcol.
    destruct (lookup_lt_is_Some_2 rows i Hcol) as [r Hr]. rewrite Hr. f_equal.
    apply list_eq. intros k. rewrite Hc, Ht, Hr. done.
  - apply lookup_ge_None in Hcol. symmetry. apply lookup_ge_None. lia.
Qed.

Lemma zip_star_entries (n m : nat) (rows : list (list float)) (col : list float) (x : float) :
  0 < n → grid n m rows → col ∈ zip_star rows → x ∈ col → ∃ r, r ∈ rows ∧ x ∈ r.
Proof.
  intros Hn Hgrid [j Hj]%list_elem_of_lookup [i Hi]%list_elem_of_lookup.
  destruct (zip_star_grid n m rows Hn Hgrid) as [_ Hz].
  destruct (Hz j col Hj) as [_ Hc]. rewrite Hc in Hi.
  destruct (rows !! i) as [r|] eqn:Hr; [|done]. simpl in Hi.
  exists r. split; apply list_elem_of_lookup; eauto.
Qed.

(** [<] on floats is irreflexive, NaN included. *)
Lemma ltb_irrefl (x : float) : PrimFloat.ltb x x = false.
Proof.
  rewrite ltb_spec. unfold SpecFloat.SFltb, SpecFloat.SFcompare.
  destruct (Prim2SF x) as [[]|[]| |[] m e]; try done.
  all: by rewrite Z.compare_refl, Pos.compare_cont_refl.
Qed.

(** ** What a call of [identify_b0] classifies *)

Lemma total_b0_by_bval (bvals : list float) (bval_min : float) :
  total (b0_by_bval bvals bval_min) (length bvals).
Proof.
  apply Forall_seq. intros it [_ Hit]. simpl in Hit.
  destruct (lookup_lt_is_Some_2 bvals it Hit) as [b Hb].
  unfold b0_by_bval. rewrite Hb. by eexists.
Qed.

Lemma total_b0_by_norm {frame : Type} (P : platform frame) (table : list (list float)) :
  Forall (λ v, ∃ n, norm P v = inr n) table →
  total (b0_by_norm P table) (length table).
Proof.
  intros Hnorm. apply Forall_seq. intros it [_ Hit]. simpl in Hit.
  destruct (lookup_lt_is_Some_2 table it Hit) as [v Hv].
  destruct (proj1 (Forall_lookup _ _) Hnorm it v Hv) as [n Hn].
  unfold b0_by_norm. rewrite Hv, Hn. by eexists.
Qed.

(** The outcome of [identify_b0] from the test of its classification. *)
Lemma identify_b0_outcome {frame : Type} (P : platform frame)
    (fname_bvecs fname_bvals : string) (bval_min : float) (verbose : Z) (w : world frame)
    (c : nat → Py.result bool) (n : nat) :
  classification P fname_bvecs fname_bvals bval_min c n →
  (identify_b0 P fname_bvecs fname_bvals bval_min verbose w).1
  = match comprehension c (seq 0 n) with
    | inr _ => finish (indices c true n) (indices c false n)
    | inl e => Raise e
    end.
Proof.
  intros [rows -> Hread Hne|bvals bvecs Hne Hread].
  - rewrite (identify_b0_bvecs P _ _ _ rows) by done.
    by destruct (comprehension _ _).
  - rewrite (identify_b0_bvals P _ _ _ _ bvals bvecs) by done.
    destruct (comprehension_inr _ _ (total_b0_by_bval bvals bval_min)) as [bs ->]. done.
Qed.

Lemma identify_b0_total {frame : Type} (P : platform frame)
    (fname_bvecs fname_bvals : string) (bval_min : float) (verbose : Z) (w : world frame)
    (c : nat → Py.result bool) (n : nat) :
  classification P fname_bvecs fname_bvals bval_min c n →
  total c n →
  (identify_b0 P fname_bvecs fname_bvals bval_min verbose w).1
  = finish (indices c true n) (indices c false n).
Proof.
  intros Hc Ht. rewrite (identify_b0_outcome P _ _ _ _ _ c n Hc).
  by destruct (comprehension_inr _ _ Ht) as [bs ->].
Qed.

Lemma finish_Return (b0 dwi index_b0 index_dwi : list nat) (nb_b0 nb_dwi : nat) :
  finish b0 dwi = Return (index_b0, index_dwi, nb_b0, nb_dwi) →
  b0 ≠ [] ∧ index_b0 = b0 ∧ index_dwi = dwi ∧ nb_b0 = length b0 ∧ nb_dwi = length dwi.
Proof. unfold finish. case_decide; [done|]. by intros [= <- <- <- <-]. Qed.

(** Whenever [identify_b0] returns, it returns the indices of the two
    classes of a classification whose test was computed on every frame. *)
Lemma identify_b0_Return {frame : Type} (P : platform frame)
    (fname_bvecs fname_bvals : string) (bval_min : float) (verbose : Z) (w : world frame)
    (index_b0 index_dwi : list nat) (nb_b0 nb_dwi : nat) :
  (identify_b0 P fname_bvecs fname_bvals bval_min verbose w).1
  = Return (index_b0, index_dwi, nb_b0, nb_dwi) →
  ∃ c n,
    classification P fname_bvecs fname_bvals bval_min c n ∧ total c n ∧
    index_b0 = indices c true n ∧ index_dwi = indices c false n ∧
    nb_b0 = length index_b0 ∧ nb_dwi = length index_dwi ∧ index_b0 ≠ [].
Proof.
  intros Hrun.
  assert (∀ c n, classification P fname_bvecs fname_bvals bval_min c n →
    ∃ c n, classification P fname_bvecs fname_bvals bval_min c n ∧ total c n ∧
      index_b0 = indices c true n ∧ index_dwi = indices c false n ∧
      nb_b0 = length index_b0 ∧ nb_dwi = length index_dwi ∧ index_b0 ≠ []) as Hinv.
  { intros c n Hc. rewrite (identify_b0_outcome P _ _ _ _ _ c n Hc) in Hrun.
    destruct (comprehension c (seq 0 n)) as [e|bs] eqn:Hbs; [done|].
    apply finish_Return in Hrun as (? & -> & -> & -> & ->).
    exists c, n. repeat split; try done. by eapply comprehension_inr_inv. }
  destruct (decide (fname_bvals = "")) as [->|Hne].
  - destruct (read_bvecs P fname_bvecs) as [e|rows] eqn:Hread.
    { by rewrite (identify_b0_bvecs_unread P _ _ _ e) in Hrun. }
    destruct (decide (rows = [])) as [->|Hrows].
    { by rewrite (identify_b0_bvecs_empty P) in Hrun. }
    eapply Hinv. by eapply by_norm.
  - destruct (read_bvals_bvecs P fname_bvals fname_bvecs) as [e|[bvals bvecs]] eqn:Hread.
    { by rewrite (identify_b0_bvals_unread P _ _ _ _ e) in Hrun. }
    eapply Hinv. by eapply by_bval.
Qed.

Lemma well_formed_classification {frame : Type} (P : platform frame)
    (fname_bvecs fname_bvals : string) (bval_min : float) (N : nat) :
  well_formed P fname_bvecs fname_bvals N →
  ∃ c, classification P fname_bvecs fname_bvals bval_min c N ∧ total c N.
Proof.
  intros [rows N' Hread HN Hgrid Hnorm|fname_bvals' bvals bvecs N' Hne Hread HN Hlen Hgrid].
  - assert (rows ≠ []) as Hne.
    { intros ->. destruct Hgrid as [[Hl _]|[Hl _]]; simpl in Hl; lia. }
    assert (length (oriented rows) = N' ∧
            Forall (λ v, ∃ n, norm P v = inr n) (oriented rows)) as [Hlen Hall].
    { destruct rows as [|row0 rows']; [done|]. unfold oriented.
      destruct (Nat.eqb (length row0) 3) eqn:Hrow0.
      - apply Nat.eqb_eq in Hrow0.
        assert (grid N' 3 (row0 :: rows')) as [Hl Hrows].
        { destruct Hgrid as [?|[Hl Hrows]]; [done|].
          pose proof (Forall_inv Hrows) as Hr. simpl in Hr.
          assert (N' = 3) as -> by lia. by split. }
        split; [done|]. apply Forall_forall. intros v Hv.
        apply Hnorm; [by apply (proj1 (Forall_forall _ _) Hrows)|]. eauto.
      - apply Nat.eqb_neq in Hrow0.
        destruct Hgrid as [[_ Hrows]|Hgrid].
        { pose proof (Forall_inv Hrows) as Hr. simpl in Hr. done. }
        destruct (zip_star_grid 3 N' _ ltac:(lia) Hgrid) as [Hl Hz].
        split; [done|]. apply Forall_forall. intros v Hv. apply Hnorm.
        + apply list_elem_of_lookup in Hv as [j Hj]. by destruct (Hz j v Hj).
        + intros x Hx. apply (zip_star_entries 3 N' _ v x); [lia|done..]. }
    exists (b0_by_norm P (oriented rows)). rewrite <- Hlen. split.
    + by apply by_norm.
    + by apply total_b0_by_norm.
  - exists (b0_by_bval bvals bval_min). rewrite <- Hlen. split.
    + by eapply by_bval.
    + apply total_b0_by_bval.
Qed.

(** ** The classifier *)

Lemma demo_norms_computed (read : string → list (list float)) (bvals : option (list float))
    (image : list nat) (bvecs : list (list float)) :
  Forall (Forall (λ x, x = 0%float ∨ x = 1%float)) bvecs →
  norms_computed (demo_files read bvals image) bvecs.
Proof.
  intros Hall v Hlen Hv.
  assert (Forall (λ x, x = 0%float ∨ x = 1%float) v) as Hv01.
  { apply Forall_forall. intros x [r [Hr Hx]]%Hv.
    apply (proj1 (Forall_forall _ _) (proj1 (Forall_forall _ _) Hall r Hr) x Hx). }
  destruct v as [|a [|b [|c [|]]]]; try done.
  apply Forall_cons in Hv01 as [Ha Hv01].
  apply Forall_cons in Hv01 as [Hb Hv01].
  apply Forall_cons in Hv01 as [Hc _].
  destruct Ha as [-> | ->], Hb as [-> | ->], Hc as [-> | ->]; by eexists.
Qed.

Lemma five_frames_01 : Forall (Forall (λ x, x = 0%float ∨ x = 1%float)) five_frames.
Proof. repeat constructor; by (left + right). Qed.

(** ** The norm of line 276 is the Euclidean norm *)

Lemma comprehension_Forall2 {A B : Type} (f : A → Py.result B) (l : list A) (ys : list B) :
  comprehension f l = inr ys ↔ Forall2 (λ x y, f x = inr y) l ys.
Proof.
  revert ys. induction l as [|x l IH]; intros ys; simpl.
  - split; [by intros [= <-]; constructor|by intros ->%Forall2_nil_inv_l].
  - destruct (f x) as [e|y] eqn:Hy; cbn.
    + split; [done|]. intros (y & ys' & Hfx & _ & _)%Forall2_cons_inv_l. congruence.
    + destruct (comprehension f l) as [e|ys'] eqn:Hys; cbn.
      * split; [done|]. intros (y' & ys' & _ & Hl & _)%Forall2_cons_inv_l.
        by apply IH in Hl.
      * split.
        -- intros [= <-]. constructor; [done|]. by apply IH.
        -- intros (y' & ys'' & Hfx & Hl & ->)%Forall2_cons_inv_l.
           apply IH in Hl. rewrite Hy in Hfx.
           injection Hfx as <-. injection Hl as <-. done.
Qed.

(** What line 276 computes on [v] is the Euclidean norm of [v]. *)
Lemma norm_euclidean {frame : Type} (P : platform frame) (v : list float) (n : float) :
  norm P v = inr n ↔ euclidean_norm P v n.
Proof.
  unfold norm. split.
  - destruct (comprehension _ v) as [e|squares] eqn:Hsq; cbn; [done|].
    destruct (math_fsum P squares) as [e|s] eqn:Hs; cbn; [done|].
    unfold Py.math_sqrt.
    destruct (PrimFloat.is_nan (PrimFloat.sqrt s) && negb (PrimFloat.is_nan s)) eqn:Hdom;
      [done|].
    intros [= <-]. apply (sqrt_of_sum_of_squares P v squares s); [|done..].
    by apply comprehension_Forall2.
  - intros [squares s Hsq Hs Hdom].
    apply comprehension_Forall2 in Hsq. rewrite Hsq. cbn. rewrite Hs. cbn.
    unfold Py.math_sqrt. by rewrite Hdom.
Qed.

Lemma euclidean_norms_computed {frame : Type} (P : platform frame)
    (table : list (list float)) :
  Forall (λ v, ∃ n, euclidean_norm P v n) table →
  Forall (λ v, ∃ n, norm P v = inr n) table.
Proof.
  intros Hall. eapply Forall_impl; [exact Hall|].
  intros v [n Hn]. exists n. by apply norm_euclidean.
Qed.

(** The test of line 276 on a frame whose Euclidean norm is [n]. *)
Lemma b0_by_norm_euclidean {frame : Type} (P : platform frame) (table : list (list float))
    (i : nat) (v : list float) (n : float) :
  table !! i = Some v → euclidean_norm P v n →
  b0_by_norm P table i = inr (PrimFloat.ltb n 0.01%float).
Proof.
  intros Hv Hn%norm_euclidean. unfold b0_by_norm. by rewrite Hv, Hn.
Qed.

(** C1, as stated, fails: on a well-formed table of 2 frames of which none
    is b=0, [identify_b0] returns no list: it exits with the status 2. *)
Lemma partition_not_returned :
  well_formed (demo no_b0_frames None []) "bvecs" "" 2 ∧
  (identify_b0 (demo no_b0_frames None []) "bvecs" "" 100%float 1%Z w0).1 = Exit 2 ∧
  ¬ ∃ lists,
      (identify_b0 (demo no_b0_frames None []) "bvecs" "" 100%float 1%Z w0).1 = Return lists.
Proof.
  split; [|split].
  - apply (gradients_only _ _ no_b0_frames 2); [reflexivity|lia| |].
    + left. split; [reflexivity|]. repeat constructor.
    + apply demo_norms_computed. repeat constructor; by (left + right).
  - by vm_compute.
  - intros [lists Hrun]. vm_compute in Hrun. discriminate Hrun.
Qed.

(** C1, amended. For every well-formed table of N frames, with or without
    b-values, the two lists that [identify_b0] builds, the indices below N
    on which the test of the table gives b=0 and those on which it does
    not, partition the indices 0..N-1: together they are a permutation of
    0..N-1, without repetition, and every index below N is in exactly one
    of them.  [identify_b0] returns these two lists, with their lengths,
    when some frame is b=0; when none is, it returns nothing and exits
    with the status 2. *)
Theorem identify_b0_partition {frame : Type} (P : platform frame)
    (fname_bvecs fname_bvals : string) (bval_min : float) (verbose : Z) (w : world frame)
    (N : nat) :
  well_formed P fname_bvecs fname_bvals N →
  ∃ c, classification P fname_bvecs fname_bvals bval_min c N ∧
    let index_b0 := indices c true N in
    let index_dwi := indices c false N in
    (∀ i, i ∈ index_b0 ↔ i < N ∧ c i = inr true) ∧
    (∀ i, i ∈ index_dwi ↔ i < N ∧ c i = inr false) ∧
    index_b0 ++ index_dwi ≡ₚ seq 0 N ∧
    NoDup (index_b0 ++ index_dwi) ∧
    (∀ i, i < N → (i ∈ index_b0 ∧ i ∉ index_dwi) ∨ (i ∈ index_dwi ∧ i ∉ index_b0)) ∧
    (index_b0 ≠ [] →
       (identify_b0 P fname_bvecs fname_bvals bval_min verbose w).1
       = Return (index_b0, index_dwi, length index_b0, length index_dwi)) ∧
    (index_b0 = [] →
       (identify_b0 P fname_bvecs fname_bvals bval_min verbose w).1 = Exit 2).
Proof.
  intros Hwf.
  destruct (well_formed_classification P _ _ bval_min N Hwf) as (c & Hc & Ht).
  exists c. split; [done|]. cbv zeta.
  split; [intros i; apply elem_of_indices|].
  split; [intros i; apply elem_of_indices|].
  split; [by apply indices_Permutation|].
  split; [rewrite (indices_Permutation c N Ht); apply NoDup_seq|].
  split.
  - intros i Hi.
    destruct (proj1 (Forall_seq _ _ _) Ht i ltac:(lia)) as [b Hb].
    rewrite !(elem_of_indices_test c _ b N i Hi Hb).
    destruct b; [left|right]; done.
  - rewrite (identify_b0_total P _ _ _ verbose w c N Hc Ht). unfold finish.
    split; intros Hb0; [by rewrite decide_False|by rewrite decide_True].
Qed.

Lemma identify_b0_partition_witness :
  ∃ c, classification (demo five_frames None []) "bvecs" "" 100%float c 5 ∧
    let index_b0 := indices c true 5 in
    let index_dwi := indices c false 5 in
    (∀ i, i ∈ index_b0 ↔ i < 5 ∧ c i = inr true) ∧
    (∀ i, i ∈ index_dwi ↔ i < 5 ∧ c i = inr false) ∧
    index_b0 ++ index_dwi ≡ₚ seq 0 5 ∧
    NoDup (index_b0 ++ index_dwi) ∧
    (∀ i, i < 5 → (i ∈ index_b0 ∧ i ∉ index_dwi) ∨ (i ∈ index_dwi ∧ i ∉ index_b0)) ∧
    (index_b0 ≠ [] →
       (identify_b0 (demo five_frames None []) "bvecs" "" 100%float 1%Z w0).1
       = Return (index_b0, index_dwi, length index_b0, length index_dwi)) ∧
    (index_b0 = [] →
       (identify_b0 (demo five_frames None []) "bvecs" "" 100%float 1%Z w0).1 = Exit 2).
Proof.
  apply identify_b0_partition.
  apply (gradients_only _ _ five_frames 5).
  - reflexivity.
  - lia.
  - left. split; [reflexivity|]. repeat constructor.
  - apply demo_norms_computed, five_frames_01.
Defined.

(** On the table of five frames the lists returned are [0, 1, 4] and
    [2, 3]. *)
Example five_frames_partition :
  (identify_b0 (demo five_frames None []) "bvecs" "" 100%float 1%Z w0).1
  = Return ([0; 1; 4], [2; 3], 3, 2).
Proof. by vm_compute. Qed.

(** C2. With a b-value table, frame [i] is put in [index_b0] if and only if
    [bvals[i] < bval_min], and in [index_dwi] otherwise; a b-value equal to
    the threshold is in [index_dwi].  The gradients play no part: any
    platform whose reader returns the same b-values ends in the same
    way. *)
Theorem identify_b0_by_bvalue {frame : Type} (P : platform frame)
    (fname_bvecs fname_bvals : string) (bval_min : float) (verbose : Z) (w : world frame)
    (bvals : list float) (bvecs : list (list float)) :
  fname_bvals ≠ "" →
  read_bvals_bvecs P fname_bvals fname_bvecs = inr (bvals, bvecs) →
  ∃ index_b0 index_dwi,
    (identify_b0 P fname_bvecs fname_bvals bval_min verbose w).1 = finish index_b0 index_dwi ∧
    (∀ i b, bvals !! i = Some b →
       (i ∈ index_b0 ↔ PrimFloat.ltb b bval_min = true) ∧
       (i ∈ index_dwi ↔ PrimFloat.ltb b bval_min = false) ∧
       (b = bval_min → i ∈ index_dwi)) ∧
    (∀ (P' : platform frame) (bvecs' : list (list float)),
       read_bvals_bvecs P' fname_bvals fname_bvecs = inr (bvals, bvecs') →
       (identify_b0 P' fname_bvecs fname_bvals bval_min verbose w).1
       = finish index_b0 index_dwi).
Proof.
  intros Hne Hread.
  set (c := b0_by_bval bvals bval_min).
  exists (indices c true (length bvals)), (indices c false (length bvals)).
  split; [|split].
  - apply identify_b0_total; [by eapply by_bval|apply total_b0_by_bval].
  - intros i b Hb.
    pose proof (lookup_lt_Some _ _ _ Hb) as Hi.
    assert (c i = inr (PrimFloat.ltb b bval_min)) as Hc.
    { unfold c, b0_by_bval. by rewrite Hb. }
    rewrite !(elem_of_indices_test c _ _ _ i Hi Hc).
    split; [done|]. split; [done|]. intros ->. apply ltb_irrefl.
  - intros P' bvecs' Hread'.
    apply identify_b0_total; [by eapply by_bval|apply total_b0_by_bval].
Qed.

Lemma identify_b0_by_bvalue_witness :
  ∃ index_b0 index_dwi,
    (identify_b0 (demo five_frames (Some [5; 10; 800; 900; 0]%float) [])
       "bvecs" "bvals" 100%float 1%Z w0).1 = finish index_b0 index_dwi ∧
    (∀ i b, [5; 10; 800; 900; 0]%float !! i = Some b →
       (i ∈ index_b0 ↔ PrimFloat.ltb b 100%float = true) ∧
       (i ∈ index_dwi ↔ PrimFloat.ltb b 100%float = false) ∧
       (b = 100%float → i ∈ index_dwi)) ∧
    (∀ (P' : platform nat) (bvecs' : list (list float)),
       read_bvals_bvecs P' "bvals" "bvecs" = inr ([5; 10; 800; 900; 0]%float, bvecs') →
       (identify_b0 P' "bvecs" "bvals" 100%float 1%Z w0).1 = finish index_b0 index_dwi).
Proof.
  apply (identify_b0_by_bvalue _ _ _ _ _ _ _ five_frames).
  - discriminate.
  - reflexivity.
Defined.

(** C3. Without a b-value table, frame [i] is put in [index_b0] if and only
    if the Euclidean norm of its gradient vector, the square root of the
    sum of the squares of its components, is [< 0.01], and in [index_dwi]
    otherwise; a norm of exactly 0.01 is in [index_dwi] and a norm of
    0.009999 in [index_b0]. *)
Theorem identify_b0_by_norm {frame : Type} (P : platform frame)
    (fname_bvecs : string) (bval_min : float) (verbose : Z) (w : world frame)
    (rows : list (list float)) :
  read_bvecs P fname_bvecs = inr rows →
  rows ≠ [] →
  Forall (λ v, ∃ n, euclidean_norm P v n) (oriented rows) →
  ∃ index_b0 index_dwi,
    (identify_b0 P fname_bvecs "" bval_min verbose w).1 = finish index_b0 index_dwi ∧
    ∀ i v n, oriented rows !! i = Some v → euclidean_norm P v n →
      (i ∈ index_b0 ↔ PrimFloat.ltb n 0.01%float = true) ∧
      (i ∈ index_dwi ↔ PrimFloat.ltb n 0.01%float = false) ∧
      (n = 0.01%float → i ∈ index_dwi) ∧
      (n = 0.009999%float → i ∈ index_b0).
Proof.
  intros Hread Hne Hnorm%euclidean_norms_computed.
  set (c := b0_by_norm P (oriented rows)).
  exists (indices c true (length (oriented rows))), (indices c false (length (oriented rows))).
  split.
  - apply identify_b0_total; [by eapply by_norm|by apply total_b0_by_norm].
  - intros i v n Hv Hn.
    pose proof (lookup_lt_Some _ _ _ Hv) as Hi.
    pose proof (b0_by_norm_euclidean P _ i v n Hv Hn) as Hc. fold c in Hc.
    rewrite !(elem_of_indices_test c _ _ _ i Hi Hc).
    split; [done|]. split; [done|]. split; intros ->; [apply ltb_irrefl|done].
Qed.

Lemma identify_b0_by_norm_witness :
  ∃ index_b0 index_dwi,
    (identify_b0 (demo boundary_frames None []) "bvecs" "" 100%float 1%Z w0).1
    = finish index_b0 index_dwi ∧
    ∀ i v n, oriented boundary_frames !! i = Some v →
      euclidean_norm (demo boundary_frames None []) v n →
      (i ∈ index_b0 ↔ PrimFloat.ltb n 0.01%float = true) ∧
      (i ∈ index_dwi ↔ PrimFloat.ltb n 0.01%float = false) ∧
      (n = 0.01%float → i ∈ index_dwi) ∧
      (n = 0.009999%float → i ∈ index_b0).
Proof.
  apply identify_b0_by_norm.
  - reflexivity.
  - discriminate.
  - apply Forall_cons; split; [|apply Forall_cons; split; [|apply Forall_cons; split]].
    + eexists. eapply (sqrt_of_sum_of_squares _ _ [_; _; _]);
        [repeat (apply Forall2_cons; split; [reflexivity|]); constructor
        |reflexivity|reflexivity].
    + eexists. eapply (sqrt_of_sum_of_squares _ _ [_; _; _]);
        [repeat (apply Forall2_cons; split; [reflexivity|]); constructor
        |reflexivity|reflexivity].
    + eexists. eapply (sqrt_of_sum_of_squares _ _ [_; _; _]);
        [repeat (apply Forall2_cons; split; [reflexivity|]); constructor
        |reflexivity|reflexivity].
    + constructor.
Defined.

(** On the platform of the examples the norm of line 276 of (3, 4, 0) is 5,
    the Euclidean norm, not the sum 7 of the components. *)
Example norm_3_4_0 :
  norm (demo boundary_frames None []) [3; 4; 0]%float = inr 5%float ∧
  euclidean_norm (demo boundary_frames None []) [3; 4; 0]%float 5%float.
Proof.
  split; [reflexivity|].
  change 5%float with (PrimFloat.sqrt 25%float).
  apply (sqrt_of_sum_of_squares _ _ [9; 16; 0]%float); [|reflexivity..].
  repeat (apply Forall2_cons; split; [reflexivity|]). constructor.
Qed.

(** The norms of the three vectors are 0.01, 0.009999 and 0 on the platform
    of the examples, and the classifier returns frames 1 and 2 as b=0. *)
Example boundary_frames_norms :
  map (norm (demo boundary_frames None [])) boundary_frames
  = [inr 0.01; inr 0.009999; inr 0]%float.
Proof. reflexivity. Qed.

Example boundary_frames_classes :
  (identify_b0 (demo boundary_frames None []) "bvecs" "" 100%float 1%Z w0).1
  = Return ([1; 2], [0], 2, 1).
Proof. vm_compute. reflexivity. Qed.

(** C4. Whenever [identify_b0] returns, each of the two lists is strictly
    ascending: the indices of a class are in the order of acquisition. *)
Theorem identify_b0_ascending {frame : Type} (P : platform frame)
    (fname_bvecs fname_bvals : string) (bval_min : float) (verbose : Z) (w : world frame)
    (index_b0 index_dwi : list nat) (nb_b0 nb_dwi : nat) :
  (identify_b0 P fname_bvecs fname_bvals bval_min verbose w).1
  = Return (index_b0, index_dwi, nb_b0, nb_dwi) →
  StronglySorted lt index_b0 ∧ StronglySorted lt index_dwi.
Proof.
  intros (c & n & _ & _ & -> & -> & _)%identify_b0_Return.
  split; apply indices_sorted.
Qed.

Lemma identify_b0_ascending_witness :
  StronglySorted lt [0; 1; 4] ∧ StronglySorted lt [2; 3].
Proof.
  apply (identify_b0_ascending (demo five_frames None []) "bvecs" "" 100%float 1%Z w0
           [0; 1; 4] [2; 3] 3 2).
  vm_compute. reflexivity.
Defined.

(** *** Tables stored by columns *)

(** C7, as stated, fails for 3 frames: a 3x3 table is read as 3 rows
    whichever way it is stored, so that the rows of the table stored by
    columns, which are the columns of the table, are taken for the
    frames. *)
Lemma transposed_3x3_differs :
  grid 3 3 three_frames ∧ grid 3 3 three_frames_3xn ∧
  transposed three_frames_3xn three_frames ∧
  (identify_b0 (demo_two three_frames three_frames_3xn) "bvecs" "" 100%float 1%Z w0).1
  = Return ([0], [1; 2], 1, 2) ∧
  (identify_b0 (demo_two three_frames three_frames_3xn) "bvecs_3xn" "" 100%float 1%Z w0).1
  = Return ([2], [0; 1], 1, 2) ∧
  (identify_b0 (demo_two three_frames three_frames_3xn) "bvecs_3xn" "" 100%float 1%Z w0).1
  ≠ (identify_b0 (demo_two three_frames three_frames_3xn) "bvecs" "" 100%float 1%Z w0).1.
Proof.
  split; [split; [done|repeat constructor]|].
  split; [split; [done|repeat constructor]|].
  split; [by intros [|[|[|i]]] [|[|[|j]]]|].
  by vm_compute.
Qed.

(** C7, amended. For a table of N frames, N other than 3, the table stored
    as 3 rows of N components and the table stored as N rows of 3
    components end [identify_b0] in the same way (same lists, or same
    exit or exception); the first prints the warning and the notice of
    transposition, the second does not, and the rest of what they print is
    the same. *)
Theorem identify_b0_transposed {frame : Type} (P : platform frame)
    (fname_nx3 fname_3xn : string) (bval_min : float) (verbose : Z) (w : world frame)
    (rows cols : list (list float)) (N : nat) :
  read_bvecs P fname_nx3 = inr rows →
  read_bvecs P fname_3xn = inr cols →
  0 < N → N ≠ 3 →
  grid N 3 rows → grid 3 N cols → transposed cols rows →
  (identify_b0 P fname_3xn "" bval_min verbose w).1
  = (identify_b0 P fname_nx3 "" bval_min verbose w).1 ∧
  ∃ others,
    printed (identify_b0 P fname_3xn "" bval_min verbose w).2
    = printed w ++ [Printv msg_identify verbose "normal";
                    Printv msg_3xn verbose "warning";
                    Printv msg_transpose verbose "normal"] ++ others ∧
    printed (identify_b0 P fname_nx3 "" bval_min verbose w).2
    = printed w ++ [Printv msg_identify verbose "normal"] ++ others.
Proof.
  intros Hrows Hcols HN HN3 Hgr Hgc Ht.
  pose proof (zip_star_transposed N 3 cols rows ltac:(lia) Hgc Hgr Ht) as Hz.
  destruct Hgr as [Hlr Hr], Hgc as [Hlc Hc].
  destruct rows as [|row0 rows']; [simpl in Hlr; lia|].
  destruct cols as [|col0 cols']; [done|].
  pose proof (Forall_inv Hr) as Hrow0. pose proof (Forall_inv Hc) as Hcol0.
  simpl in Hrow0, Hcol0.
  rewrite (identify_b0_bvecs P _ _ _ (col0 :: cols')) by done.
  rewrite (identify_b0_bvecs P _ _ _ (row0 :: rows')) by done.
  unfold oriented, transpose_trace.
  rewrite Hrow0. replace (Nat.eqb (length col0) 3) with false
    by (symmetry; apply Nat.eqb_neq; lia).
  cbn [Nat.eqb]. rewrite Hz.
  destruct (comprehension _ _) as [e|bs]; cbn [fst snd say printed].
  - split; [done|]. exists []. by rewrite !app_nil_r.
  - split; [done|]. eexists. split; [|done]. done.
Qed.

Lemma five_frames_transposed : transposed five_frames_3xn five_frames.
Proof. by intros [|[|[|[|[|[|i]]]]]] [|[|[|[|j]]]]. Qed.

Lemma identify_b0_transposed_witness :
  (identify_b0 (demo_two five_frames five_frames_3xn) "bvecs_3xn" "" 100%float 1%Z w0).1
  = (identify_b0 (demo_two five_frames five_frames_3xn) "bvecs" "" 100%float 1%Z w0).1 ∧
  ∃ others,
    printed (identify_b0 (demo_two five_frames five_frames_3xn) "bvecs_3xn" "" 100%float 1%Z w0).2
    = printed w0 ++ [Printv msg_identify 1 "normal";
                     Printv msg_3xn 1 "warning";
                     Printv msg_transpose 1 "normal"] ++ others ∧
    printed (identify_b0 (demo_two five_frames five_frames_3xn) "bvecs" "" 100%float 1%Z w0).2
    = printed w0 ++ [Printv msg_identify 1 "normal"] ++ others.
Proof.
  apply (identify_b0_transposed _ _ _ _ _ _ five_frames five_frames_3xn 5).
  - reflexivity.
  - reflexivity.
  - lia.
  - lia.
  - split; [reflexivity|repeat constructor].
  - split; [reflexivity|repeat constructor].
  - apply five_frames_transposed.
Defined.

(** *** Rows that have not 3 components *)

(** C8, as stated, fails: no exception is raised for a row of 2 components,
    which is classified by the norm of its 2 components. *)
Lemma short_row_classified :
  Exists (λ v, length v ≠ 3) (oriented short_row) ∧
  (identify_b0 (demo short_row None []) "bvecs" "" 100%float 1%Z w0).1
  = Return ([0], [1], 1, 1).
Proof.
  split.
  - apply Exists_cons_tl, Exists_cons_hd. simpl. lia.
  - by vm_compute.
Qed.

(** C8, amended. [identify_b0] does not check the number of components of
    the vectors.  When the Euclidean norms of the vectors are computed, it
    ends without exception (it returns the two lists, or exits for want of
    a b=0 frame); a vector that has not 3 components is classified as the
    others are, by the Euclidean norm of the components that it has; and
    this is silent: the messages are those of every call, the first one,
    the two of the transposition when the first row has not 3 components,
    and the two counts or the error of the missing b=0 frame. *)
Theorem identify_b0_malformed_row {frame : Type} (P : platform frame)
    (fname_bvecs : string) (bval_min : float) (verbose : Z) (w : world frame)
    (rows : list (list float)) :
  read_bvecs P fname_bvecs = inr rows →
  rows ≠ [] →
  Forall (λ v, ∃ n, euclidean_norm P v n) (oriented rows) →
  ∃ index_b0 index_dwi,
    (identify_b0 P fname_bvecs "" bval_min verbose w).1 = finish index_b0 index_dwi ∧
    (∀ e, (identify_b0 P fname_bvecs "" bval_min verbose w).1 ≠ Raise e) ∧
    new_messages w (identify_b0 P fname_bvecs "" bval_min verbose w).2
    = Printv msg_identify verbose "normal"
      :: (if Nat.eqb (length (default [] (head rows))) 3 then []
          else [Printv msg_3xn verbose "warning"; Printv msg_transpose verbose "normal"])
      ++ (if decide (index_b0 = []) then [Printv msg_no_b0 1 "error"]
          else [Printv ("  Number of b=0: " +:+ str (length index_b0) +:+ " "
                        +:+ str_list index_b0) verbose "normal";
                Printv ("  Number of DWI: " +:+ str (length index_dwi) +:+ " "
                        +:+ str_list index_dwi) verbose "normal"]) ∧
    ∀ i v, oriented rows !! i = Some v → length v ≠ 3 →
      ∃ n, euclidean_norm P v n ∧
        (i ∈ index_b0 ↔ PrimFloat.ltb n 0.01%float = true) ∧
        (i ∈ index_dwi ↔ PrimFloat.ltb n 0.01%float = false).
Proof.
  intros Hread Hne Hnorm.
  pose proof (euclidean_norms_computed P _ Hnorm) as Hnorm'.
  set (c := b0_by_norm P (oriented rows)).
  exists (indices c true (length (oriented rows))), (indices c false (length (oriented rows))).
  pose proof (total_b0_by_norm P _ Hnorm') as Ht. fold c in Ht.
  rewrite (identify_b0_bvecs P _ _ _ rows) by done. fold c.
  destruct (comprehension_inr _ _ Ht) as [bs ->]. cbn [fst snd].
  split; [done|]. split; [|split].
  - intros e. unfold finish. by case_decide.
  - unfold new_messages, say. cbn [printed]. rewrite drop_app_length.
    destruct rows as [|row0 rows']; [done|]. done.
  - intros i v Hv _.
    destruct (proj1 (Forall_lookup _ _) Hnorm i v Hv) as [n Hn].
    exists n. split; [done|].
    pose proof (lookup_lt_Some _ _ _ Hv) as Hi.
    pose proof (b0_by_norm_euclidean P _ i v n Hv Hn) as Hc. fold c in Hc.
    by rewrite !(elem_of_indices_test c _ _ _ i Hi Hc).
Qed.

Lemma identify_b0_malformed_row_witness :
  ∃ index_b0 index_dwi,
    (identify_b0 (demo short_row None []) "bvecs" "" 100%float 1%Z w0).1
    = finish index_b0 index_dwi ∧
    (∀ e, (identify_b0 (demo short_row None []) "bvecs" "" 100%float 1%Z w0).1 ≠ Raise e) ∧
    new_messages w0 (identify_b0 (demo short_row None []) "bvecs" "" 100%float 1%Z w0).2
    = Printv msg_identify 1 "normal"
      :: (if Nat.eqb (length (default [] (head short_row))) 3 then []
          else [Printv msg_3xn 1 "warning"; Printv msg_transpose 1 "normal"])
      ++ (if decide (index_b0 = []) then [Printv msg_no_b0 1 "error"]
          else [Printv ("  Number of b=0: " +:+ str (length index_b0) +:+ " "
                        +:+ str_list index_b0) 1 "normal";
                Printv ("  Number of DWI: " +:+ str (length index_dwi) +:+ " "
                        +:+ str_list index_dwi) 1 "normal"]) ∧
    ∀ i v, oriented short_row !! i = Some v → length v ≠ 3 →
      ∃ n, euclidean_norm (demo short_row None []) v n ∧
        (i ∈ index_b0 ↔ PrimFloat.ltb n 0.01%float = true) ∧
        (i ∈ index_dwi ↔ PrimFloat.ltb n 0.01%float = false).
Proof.
  apply identify_b0_malformed_row.
  - reflexivity.
  - discriminate.
  - apply Forall_cons; split; [|apply Forall_cons; split; [|constructor]].
    + eexists. eapply (sqrt_of_sum_of_squares _ _ [_; _; _]);
        [repeat (apply Forall2_cons; split; [reflexivity|]); constructor
        |reflexivity|reflexivity].
    + eexists. eapply (sqrt_of_sum_of_squares _ _ [_; _]);
        [repeat (apply Forall2_cons; split; [reflexivity|]); constructor
        |reflexivity|reflexivity].
Defined.

(** The messages of the call on the table whose second row has 2
    components: none is about the row. *)
Example short_row_messages :
  printed (identify_b0 (demo short_row None []) "bvecs" "" 100%float 1%Z w0).2
  = [Printv msg_identify 1 "normal";
     Printv "  Number of b=0: 1 [0]" 1 "normal";
     Printv "  Number of DWI: 1 [1]" 1 "normal"].
Proof. by vm_compute. Qed.

(** ** The run of [main] *)

(** *** The parser *)

Lemma get_parser_Return {frame : Type} (cmd : cmdline) (w w' : world frame)
    (arguments : Args.t) :
  get_parser cmd w = (Return arguments, w') →
  w' = w ∧
  Args.i arguments = opt_i cmd ∧
  Args.bvec arguments = opt_bvec cmd ∧
  Args.bval arguments = default "" (opt_bval cmd) ∧
  Args.bvalmin arguments = opt_bvalmin cmd ∧
  Args.ofolder arguments = default "./" (opt_ofolder cmd) ∧
  match opt_a cmd with
  | None => Args.a arguments = 1%Z
  | Some z => Args.a arguments = z ∧ (z = 0%Z ∨ z = 1%Z)
  end ∧
  match opt_r cmd with
  | None => Args.r arguments = Int 1
  | Some s => Args.r arguments = Str s ∧ (s = "0" ∨ s = "1")
  end ∧
  match opt_v cmd with
  | None => Args.v arguments = Int 1
  | Some s => Args.v arguments = Str s ∧ (s = "0" ∨ s = "1")
  end.
Proof.
  unfold get_parser. destruct cmd as [i bvec a bval bvalmin ofolder r v]. cbn [opt_a opt_r opt_v].
  intros Hrun.
  destruct a as [a|], r as [r|], v as [v|]; repeat case_decide;
    try discriminate Hrun;
    injection Hrun as <- <-; cbn;
    repeat match goal with
           | H : _ ∈ _ :: _ |- _ => apply elem_of_cons in H as [H|H]
           | H : _ ∈ [] |- _ => by apply elem_of_nil in H
           end;
    subst; auto 15.
Qed.

Lemma int_verbose {frame : Type} (cmd : cmdline) (w w' : world frame) (arguments : Args.t) :
  get_parser cmd w = (Return arguments, w') →
  ∃ verbose, (verbose = 0%Z ∨ verbose = 1%Z) ∧
    ∀ w1 : world frame, int (Args.v arguments) w1 = (Return verbose, w1).
Proof.
  intros (_ & _ & _ & _ & _ & _ & _ & _ & Hv)%get_parser_Return.
  destruct (opt_v cmd) as [s|].
  - destruct Hv as [-> [-> | ->]]; [exists 0%Z|exists 1%Z]; auto.
  - rewrite Hv. exists 1%Z. auto.
Qed.

(** *** From the command line to the classification *)

(** When the options are accepted and the input volume is converted, [main]
    is the call of [identify_b0] on the paths and the threshold of lines
    136-137, followed by [main_outputs] on what it returns. *)
Lemma main_classify {frame : Type} (P : platform frame) (cmd : cmdline) (w : world frame)
    (arguments : Args.t) (data : list frame) :
  get_parser cmd w = (Return arguments, w) →
  read_image P (abspath P (Args.i arguments)) = Some data →
  ∃ verbose, (verbose = 0%Z ∨ verbose = 1%Z) ∧
    main P cmd w
    = ('(index_b0, index_dwi, nb_b0, nb_dwi) ←
         identify_b0 P (abspath P (Args.bvec arguments)) (fname_bvals_of P arguments)
           (Param.bval_min (update_bval_min Param.init arguments)) verbose;
       main_outputs P (extract_fname P (abspath P (Args.i arguments))).1.2
         (extract_fname P (abspath P (Args.i arguments))).2
         (Args.ofolder arguments) (Args.a arguments) (Args.r arguments) data
         index_b0 index_dwi nb_b0 nb_dwi) (converted data w).
Proof.
  intros Hparse Himage.
  destruct (int_verbose cmd w w arguments Hparse) as (verbose & Hv & Hint).
  exists verbose. split; [done|].
  unfold main. rewrite bind_unfold, Hparse. cbv beta iota.
  rewrite bind_unfold, Hint. cbv beta iota zeta.
  destruct (extract_fname P (abspath P (Args.i arguments))) as [[path_data file_data] ext_data].
  rewrite Himage. rewrite bind_unfold. cbn [save]. cbv beta iota.
  rewrite bind_unfold. unfold Image at 1. cbn [tmp_files].
  rewrite lookup_insert_eq. cbv beta iota.
  done.
Qed.

(** *** What a part of the script may change *)

Section Behaviour.

Context {frame : Type}.

#[global] Instance silent_footprint : Footprint (frame:=frame) silent.
Proof. split; [split|]; unfold silent; [by intros ?|intros ???; congruence|done]. Qed.

#[global] Instance keeps_tmp_footprint : Footprint (frame:=frame) keeps_tmp.
Proof. split; [split|]; unfold keeps_tmp; [by intros ?|intros ???; congruence|done]. Qed.

Context (R : relation (world frame)) (E : Z → Prop) `{!Footprint R}.

Lemma behaves_unchanged {A : Type} (m : M frame A) :
  (∀ w, (m w).2 = w ∧ ∀ s, (m w).1 ≠ Exit s) → behaves R E m.
Proof. intros Hm w. destruct (Hm w) as [-> Hne]. split; [done|]. intros s Hs. by destruct (Hne s). Qed.

Lemma behaves_ret {A : Type} (a : A) : behaves R E (mret a).
Proof. by apply behaves_unchanged. Qed.

Lemma behaves_raise {A : Type} (e : Py.exn) : behaves R E (raise (A:=A) e).
Proof. by apply behaves_unchanged. Qed.

Lemma behaves_sys_exit {A : Type} (s : Z) : E s → behaves R E (sys_exit (A:=A) s).
Proof. intros Hs w. split; [done|]. by intros ? [= <-]. Qed.

Lemma behaves_lift {A : Type} (r : Py.result A) : behaves R E (lift r).
Proof. apply behaves_unchanged. by destruct r. Qed.

Lemma behaves_item {A : Type} (l : list A) (i : nat) : behaves R E (item l i).
Proof. apply behaves_unchanged. intros w. unfold item. by destruct (l !! i). Qed.

Lemma behaves_Image (name : string) : behaves R E (Image name).
Proof. apply behaves_unchanged. intros w. unfold Image. by destruct (tmp_files w !! name). Qed.

Lemma behaves_save (name : string) (data : list frame) : behaves R E (save name data).
Proof. intros w. split; [apply footprint_files|done]. Qed.

Lemma behaves_write_output (name : string) (data : list frame) :
  behaves R E (write_output name data).
Proof. intros w. split; [apply footprint_files|done]. Qed.

Lemma behaves_bind {A B : Type} (m : M frame A) (k : A → M frame B) :
  behaves R E m → (∀ a, behaves R E (k a)) → behaves R E (m ≫= k).
Proof.
  intros Hm Hk w. rewrite bind_unfold.
  destruct (Hm w) as [HR HE]. destruct (m w) as [[a|s|e] w1]; simpl in *.
  - destruct (Hk a w1) as [HR' HE']. split; [by etrans|done].
  - split; [done|]. intros ? [= <-]. by apply HE.
  - by split.
Qed.

Lemma behaves_for_in {A S : Type} (xs : list A) (body : A → S → M frame S) (s : S) :
  (∀ x s, behaves R E (body x s)) → behaves R E (for_in xs body s).
Proof.
  intros Hbody. revert s. induction xs as [|x xs IH]; intros s; simpl.
  - apply behaves_ret.
  - apply behaves_bind; [apply Hbody|apply IH].
Qed.

Lemma behaves_concat_data (l : list string) : behaves R E (concat_data l).
Proof.
  induction l as [|fname l IH]; simpl; [apply behaves_ret|].
  apply behaves_bind; [apply behaves_Image|intros data].
  apply behaves_bind; [apply IH|intros rest]. apply behaves_ret.
Qed.

Lemma behaves_merge (index : list nat) (nb : nat) (name : string) :
  behaves R E (merge index nb name).
Proof.
  unfold merge. apply behaves_bind.
  - apply behaves_for_in. intros it l.
    apply behaves_bind; [apply behaves_item|intros idx; apply behaves_ret].
  - intros l. apply behaves_bind; [apply behaves_concat_data|intros; apply behaves_save].
Qed.

Lemma behaves_sct_maths_mean_t (P : platform frame) (fin fout : string) :
  behaves R E (sct_maths_mean_t P fin fout).
Proof. apply behaves_bind; [apply behaves_Image|intros; apply behaves_save]. Qed.

Lemma behaves_generate_output_file (fin fout : string) :
  behaves R E (generate_output_file fin fout).
Proof. apply behaves_bind; [apply behaves_Image|intros; apply behaves_write_output]. Qed.

Lemma behaves_if {A : Type} (b : bool) (m1 m2 : M frame A) :
  (b = true → behaves R E m1) → (b = false → behaves R E m2) →
  behaves R E (if b then m1 else m2).
Proof. destruct b; auto. Qed.

(** The end of [main] exits nowhere; it changes the files, and removes
    the temporary folder under the test of line 234 only. *)
Lemma behaves_main_outputs (P : platform frame) (file_data ext_data path_out : string)
    (average : Z) (remove_temp_files : Py.value) (im_dmri : list frame)
    (index_b0 index_dwi : list nat) (nb_b0 nb_dwi : nat) :
  (eq_int remove_temp_files 1 = true → behaves R E rmtree) →
  behaves R E (main_outputs P file_data ext_data path_out average remove_temp_files im_dmri
                 index_b0 index_dwi nb_b0 nb_dwi).
Proof.
  intros Hrm. unfold main_outputs. cbv zeta.
  repeat first
    [ apply behaves_merge
    | apply behaves_sct_maths_mean_t
    | apply behaves_generate_output_file
    | apply behaves_save
    | apply behaves_ret
    | by apply Hrm
    | apply behaves_if; intros ?
    | apply behaves_for_in; intros ? ?
    | apply behaves_bind; [|intros ?] ].
Qed.

End Behaviour.

Section Run.

Context {frame : Type} (P : platform frame).

Lemma behaves_bind_Return {A B : Type} (R : relation (world frame)) (E : Z → Prop)
    `{!Footprint R} (m : M frame A) (k : A → M frame B) :
  behaves R E m →
  (∀ a w w1, m w = (Return a, w1) → behaves R E (k a)) →
  behaves R E (m ≫= k).
Proof.
  intros Hm Hk w. rewrite bind_unfold.
  destruct (Hm w) as [HR HE]. destruct (m w) as [[a|s|e] w1] eqn:Hmw; simpl in *.
  - destruct (Hk a w w1 Hmw w1) as [HR' HE']. split; [by etrans|done].
  - split; [done|]. intros ? [= <-]. by apply HE.
  - by split.
Qed.

Lemma behaves_printv (E : Z → Prop) (s : string) (verbose : Z) (type : string) :
  behaves (frame:=frame) keeps_tmp E (printv s verbose type).
Proof. by intros w. Qed.

Lemma behaves_rmtree (E : Z → Prop) : behaves (frame:=frame) silent E rmtree.
Proof. by intros w. Qed.

Lemma behaves_get_parser (R : relation (world frame)) (E : Z → Prop) `{!Footprint R}
    (cmd : cmdline) :
  E 2%Z → behaves R E (get_parser cmd).
Proof.
  intros HE. unfold get_parser.
  repeat first
    [ apply (behaves_ret _ _ _)
    | by apply (behaves_sys_exit _ _ _)
    | match goal with
      | |- behaves _ _ (match ?o with Some _ => _ | None => _ end) => destruct o
      | |- behaves _ _ (if ?b then _ else _) => destruct b
      end
    | apply (behaves_bind _ _ _); [|intros ?] ].
Qed.

Lemma behaves_int (R : relation (world frame)) (E : Z → Prop) `{!Footprint R} (x : Py.value) :
  behaves R E (int x).
Proof.
  unfold int.
  repeat first
    [ apply (behaves_ret _ _ _)
    | apply (behaves_raise _ _ _)
    | match goal with
      | |- behaves _ _ (match ?o with Some _ => _ | None => _ end) => destruct o
      | |- behaves _ _ (match ?o with Int _ => _ | Str _ => _ end) => destruct o
      | |- behaves _ _ (if ?b then _ else _) => destruct b
      end ].
Qed.

(** [identify_b0] does not touch the temporary folder. *)
Lemma behaves_identify_b0 (fname_bvecs fname_bvals : string) (bval_min : float) (verbose : Z) :
  behaves keeps_tmp (λ _, True) (identify_b0 P fname_bvecs fname_bvals bval_min verbose).
Proof.
  unfold identify_b0.
  repeat first
    [ apply (behaves_ret _ _ _)
    | apply behaves_printv
    | apply (behaves_lift _ _ _)
    | apply (behaves_item _ _ _)
    | by apply (behaves_sys_exit _ _ _)
    | apply (behaves_for_in _ _ _); intros ? [? ?]
    | match goal with
      | |- behaves _ _ (if ?b then _ else _) => destruct b
      | |- behaves _ _ (let '(_, _) := ?x in _) => destruct x
      end
    | apply (behaves_bind _ _ _); [|intros ?] ].
Qed.

(** *** What holds when a part of the script returns *)

Lemma bind_Return {A B : Type} (m : M frame A) (k : A → M frame B) (w w' : world frame) (b : B) :
  (m ≫= k) w = (Return b, w') →
  ∃ a w1, m w = (Return a, w1) ∧ k a w1 = (Return b, w').
Proof.
  rewrite bind_unfold. destruct (m w) as [[a|s|e] w1]; [|done..].
  intros Hk. by exists a, w1.
Qed.

Lemma post_bind {A B : Type} (m : M frame A) (k : A → M frame B) (Q : B → world frame → Prop) :
  (∀ a w w1, m w = (Return a, w1) → post (k a) Q) → post (m ≫= k) Q.
Proof. intros Hk w b w' (a & w1 & Hm & Hka)%bind_Return. by eapply Hk. Qed.

(** When the end of [main] returns under a true test of line 234, the
    temporary folder is removed. *)
Lemma post_main_outputs (file_data ext_data path_out : string)
    (average : Z) (remove_temp_files : Py.value) (im_dmri : list frame)
    (index_b0 index_dwi : list nat) (nb_b0 nb_dwi : nat) :
  eq_int remove_temp_files 1 = true →
  post (main_outputs P file_data ext_data path_out average remove_temp_files im_dmri
          index_b0 index_dwi nb_b0 nb_dwi)
    (λ _ w', tmp_removed w' = true).
Proof.
  intros Hrm. unfold main_outputs. cbv zeta. rewrite Hrm.
  do 8 (apply post_bind; intros ? ? ? _).
  by intros ? ? ? [= _ <-].
Qed.

End Run.

(** ** The options of [main] *)

Lemma update_bval_min_Some (arguments : Args.t) (x : float) :
  Args.bvalmin arguments = Some x →
  Param.bval_min (update_bval_min Param.init arguments)
  = if PrimFloat.eqb x 0 then 100%float else x.
Proof.
  intros Hx. unfold update_bval_min. rewrite Hx. cbn.
  unfold truthy_float. by destruct (PrimFloat.eqb x 0).
Qed.

Lemma update_bval_min_None (arguments : Args.t) :
  Args.bvalmin arguments = None →
  Param.bval_min (update_bval_min Param.init arguments) = 100%float.
Proof. intros Hx. unfold update_bval_min. by rewrite Hx. Qed.

Lemma main_bvalmin_zero {frame : Type} (P : platform frame) (cmd : cmdline) (x : float)
    (w : world frame) :
  opt_bvalmin cmd = Some x →
  PrimFloat.eqb x 0 = true →
  main P cmd w = main P (without_bvalmin cmd) w.
Proof.
  destruct cmd as [i bvec a bval bvalmin ofolder r v]. cbn. intros -> Hx.
  unfold main, without_bvalmin, get_parser. cbn.
  destruct a as [a|], r as [r|], v as [v|]; repeat case_decide;
    repeat (rewrite !bind_unfold; cbn);
    unfold update_bval_min; cbn; unfold truthy_float; rewrite ?Hx; cbn; done.
Qed.

(** The outcome and the messages of [identify_b0] when the test is computed
    on every frame: only the last message can be the error of line 301. *)
Lemma identify_b0_run {frame : Type} (P : platform frame)
    (fname_bvecs fname_bvals : string) (bval_min : float) (verbose : Z) (w : world frame)
    (c : nat → Py.result bool) (n : nat) :
  classification P fname_bvecs fname_bvals bval_min c n →
  total c n →
  ∃ before,
    Forall (λ p, pv_type p ≠ "error") before ∧
    identify_b0 P fname_bvecs fname_bvals bval_min verbose w
    = (finish (indices c true n) (indices c false n),
       say w (before ++ finish_trace (indices c true n) (indices c false n) verbose)).
Proof.
  intros [rows -> Hread Hne|bvals bvecs Hne Hread] Ht.
  - exists (Printv msg_identify verbose "normal" :: transpose_trace rows verbose). split.
    + constructor; [done|]. unfold transpose_trace.
      destruct rows as [|row0 ?]; [constructor|].
      destruct (Nat.eqb (length row0) 3); by repeat constructor.
    + rewrite (identify_b0_bvecs P _ _ _ rows) by done.
      by destruct (comprehension_inr _ _ Ht) as [bs ->].
  - exists [Printv msg_identify verbose "normal"; Printv msg_identify verbose "normal"]. split.
    + by repeat constructor.
    + by rewrite (identify_b0_bvals P _ _ _ _ bvals bvecs).
Qed.

(** C6. When the options are accepted and the volume is converted, and
    [identify_b0] finds no b=0 frame, the run of [main] ends with the exit
    status 2, and the last message printed is the error "no b=0 images
    detected"; when some frame is classified b=0, the run does not exit and
    does not print this error. *)
Theorem no_b0_exits {frame : Type} (P : platform frame) (cmd : cmdline) (w : world frame)
    (arguments : Args.t) (data : list frame) (c : nat → Py.result bool) (n : nat) :
  get_parser cmd w = (Return arguments, w) →
  read_image P (abspath P (Args.i arguments)) = Some data →
  classification P (abspath P (Args.bvec arguments)) (fname_bvals_of P arguments)
    (Param.bval_min (update_bval_min Param.init arguments)) c n →
  total c n →
  (indices c true n = [] →
     (main P cmd w).1 = Exit 2 ∧
     last (printed (main P cmd w).2) = Some (Printv msg_no_b0 1 "error")) ∧
  (indices c true n ≠ [] →
     (∀ s, (main P cmd w).1 ≠ Exit s) ∧
     Printv msg_no_b0 1 "error" ∉ drop (length (printed w)) (printed (main P cmd w).2)).
Proof.
  intros Hparse Himage Hc Ht.
  destruct (main_classify P cmd w arguments data Hparse Himage) as (verbose & _ & ->).
  destruct (identify_b0_run P _ _ _ verbose (converted data w) c n Hc Ht)
    as (before & Hbefore & Hrun).
  rewrite bind_unfold, Hrun. unfold finish, finish_trace. split.
  - intros ->. rewrite !decide_True by done. cbn.
    split; [done|]. by rewrite !app_assoc, last_snoc.
  - intros Hb0. rewrite !decide_False by done. cbv beta iota.
    match goal with |- context [main_outputs ?P ?f ?e ?o ?a ?r ?d ?b0 ?dwi ?n0 ?n1 ?w1] =>
      destruct (behaves_main_outputs silent (λ _, False) P f e o a r d b0 dwi n0 n1
                  ltac:(intros; apply behaves_rmtree) w1) as [Hsilent Hexit]
    end.
    split; [intros s Hs; by apply (Hexit s)|].
    rewrite Hsilent. cbn. rewrite drop_app_length.
    intros [Hin|Hin]%elem_of_app.
    + by apply (proj1 (Forall_forall _ _) Hbefore _ Hin).
    + apply elem_of_cons in Hin as [[=]|Hin].
      apply elem_of_cons in Hin as [[=]|Hin]. by apply elem_of_nil in Hin.
Qed.

Lemma no_b0_exits_witness :
  (indices (b0_by_norm (demo no_b0_frames None [7; 8]) (oriented no_b0_frames)) true 2 = [] →
     (main (demo no_b0_frames None [7; 8]) cmd_default w0).1 = Exit 2 ∧
     last (printed (main (demo no_b0_frames None [7; 8]) cmd_default w0).2)
     = Some (Printv msg_no_b0 1 "error")) ∧
  (indices (b0_by_norm (demo no_b0_frames None [7; 8]) (oriented no_b0_frames)) true 2 ≠ [] →
     (∀ s, (main (demo no_b0_frames None [7; 8]) cmd_default w0).1 ≠ Exit s) ∧
     Printv msg_no_b0 1 "error"
     ∉ drop (length (printed w0))
         (printed (main (demo no_b0_frames None [7; 8]) cmd_default w0).2)).
Proof.
  apply (no_b0_exits (demo no_b0_frames None [7; 8]) cmd_default w0 args_default [7; 8]).
  - reflexivity.
  - reflexivity.
  - exact (by_norm (demo no_b0_frames None [7; 8]) "bvecs" "" 100%float no_b0_frames
             eq_refl eq_refl ltac:(discriminate)).
  - apply (total_b0_by_norm (demo no_b0_frames None [7; 8]) no_b0_frames).
    repeat constructor; by eexists.
Defined.

(** The run on these two frames, and the run of the end-to-end scenario. *)
Example no_b0_run :
  (main (demo no_b0_frames None [7; 8]) cmd_default w0).1 = Exit 2.
Proof. by vm_compute. Qed.

Example five_frames_run :
  main (demo five_frames None [10; 11; 12; 13; 14]) cmd_default w0
  = (Return ("./dmri_in_b0.nii.gz", "./dmri_in_b0_mean.nii.gz",
             "./dmri_in_dwi.nii.gz", "./dmri_in_dwi_mean.nii.gz"),
     World [Printv msg_identify 1 "normal";
            Printv "  Number of b=0: 3 [0, 1, 4]" 1 "normal";
            Printv "  Number of DWI: 2 [2, 3]" 1 "normal"]
       ∅
       (<["./dmri_in_b0.nii.gz" := [10; 11; 14]]>
          (<["./dmri_in_dwi.nii.gz" := [12; 13]]>
             (<["./dmri_in_b0_mean.nii.gz" := [35]]>
                (<["./dmri_in_dwi_mean.nii.gz" := [25]]> ∅))))
       true).
Proof. by vm_compute. Qed.

(** C9. With [-bvalmin x], [main] classifies with the threshold [x] when
    [x] is not zero and with the default 100 when [x] is zero: the option
    is tested for its truth value, so that the run with [-bvalmin 0] is the
    run without the option. *)
Theorem bvalmin_zero_ignored {frame : Type} (P : platform frame) (cmd : cmdline)
    (w : world frame) (arguments : Args.t) (data : list frame) (x : float) :
  get_parser cmd w = (Return arguments, w) →
  read_image P (abspath P (Args.i arguments)) = Some data →
  opt_bvalmin cmd = Some x →
  Param.bval_min (update_bval_min Param.init arguments)
  = (if PrimFloat.eqb x 0 then 100%float else x) ∧
  (∃ verbose,
     main P cmd w
     = ('(index_b0, index_dwi, nb_b0, nb_dwi) ←
          identify_b0 P (abspath P (Args.bvec arguments)) (fname_bvals_of P arguments)
            (if PrimFloat.eqb x 0 then 100%float else x) verbose;
        main_outputs P (extract_fname P (abspath P (Args.i arguments))).1.2
          (extract_fname P (abspath P (Args.i arguments))).2
          (Args.ofolder arguments) (Args.a arguments) (Args.r arguments) data
          index_b0 index_dwi nb_b0 nb_dwi) (converted data w)) ∧
  (PrimFloat.eqb x 0 = true → main P cmd w = main P (without_bvalmin cmd) w).
Proof.
  intros Hparse Himage Hx.
  pose proof (get_parser_Return cmd w w arguments Hparse) as (_ & _ & _ & _ & Hmin & _).
  rewrite Hx in Hmin.
  pose proof (update_bval_min_Some arguments x Hmin) as Hthr.
  split; [done|]. split.
  - destruct (main_classify P cmd w arguments data Hparse Himage) as (verbose & _ & Hmain).
    exists verbose. by rewrite <- Hthr.
  - intros Hzero. by apply (main_bvalmin_zero P cmd x).
Qed.

Lemma bvalmin_zero_ignored_witness :
  Param.bval_min (update_bval_min Param.init args_bvalmin_0)
  = (if PrimFloat.eqb 0 0 then 100%float else 0%float) ∧
  (∃ verbose,
     main demo_bvals cmd_bvalmin_0 w0
     = ('(index_b0, index_dwi, nb_b0, nb_dwi) ←
          identify_b0 demo_bvals (abspath demo_bvals (Args.bvec args_bvalmin_0))
            (fname_bvals_of demo_bvals args_bvalmin_0)
            (if PrimFloat.eqb 0 0 then 100%float else 0%float) verbose;
        main_outputs demo_bvals
          (extract_fname demo_bvals (abspath demo_bvals (Args.i args_bvalmin_0))).1.2
          (extract_fname demo_bvals (abspath demo_bvals (Args.i args_bvalmin_0))).2
          (Args.ofolder args_bvalmin_0) (Args.a args_bvalmin_0) (Args.r args_bvalmin_0)
          [10; 11; 12; 13; 14] index_b0 index_dwi nb_b0 nb_dwi)
         (converted [10; 11; 12; 13; 14] w0)) ∧
  (PrimFloat.eqb 0 0 = true →
   main demo_bvals cmd_bvalmin_0 w0 = main demo_bvals (without_bvalmin cmd_bvalmin_0) w0).
Proof.
  apply (bvalmin_zero_ignored demo_bvals cmd_bvalmin_0 w0 args_bvalmin_0
           [10; 11; 12; 13; 14] 0%float).
  - reflexivity.
  - reflexivity.
  - reflexivity.
Defined.

(** With the b-values 5, 10, 800, 900, 0: the threshold 0 would leave no
    b=0 frame, yet [-bvalmin 0] classifies with 100; [-bvalmin 7] classifies
    with 7. *)
Example bvalmin_0_run :
  printed (main demo_bvals cmd_bvalmin_0 w0).2
  = [Printv msg_identify 1 "normal"; Printv msg_identify 1 "normal";
     Printv "  Number of b=0: 3 [0, 1, 4]" 1 "normal";
     Printv "  Number of DWI: 2 [2, 3]" 1 "normal"].
Proof. by vm_compute. Qed.

Example bvalmin_7_run :
  printed (main demo_bvals
             {| opt_i := "dmri.nii.gz"; opt_bvec := "bvecs"; opt_a := None;
                opt_bval := Some "bvals"; opt_bvalmin := Some 7%float;
                opt_ofolder := None; opt_r := None; opt_v := None |} w0).2
  = [Printv msg_identify 1 "normal"; Printv msg_identify 1 "normal";
     Printv "  Number of b=0: 2 [0, 4]" 1 "normal";
     Printv "  Number of DWI: 3 [1, 2, 3]" 1 "normal"].
Proof. by vm_compute. Qed.

(** C10. When [-r] is given, with '0' or '1', the parser stores a string,
    the test [remove_temp_files == 1] of line 234 is false and the run never
    removes the temporary folder; when [-r] is absent the parser stores the
    integer 1, the test is true, and a run that returns has removed the
    temporary folder. *)
Theorem remove_temp_files_test {frame : Type} (P : platform frame) (cmd : cmdline)
    (w : world frame) :
  (∀ s, opt_r cmd = Some s →
     (∀ arguments w', get_parser cmd w = (Return arguments, w') →
        (s = "0" ∨ s = "1") ∧ Args.r arguments = Str s ∧
        eq_int (Args.r arguments) 1 = false) ∧
     tmp_removed (main P cmd w).2 = tmp_removed w) ∧
  (opt_r cmd = None →
     (∀ arguments w', get_parser cmd w = (Return arguments, w') →
        Args.r arguments = Int 1 ∧ eq_int (Args.r arguments) 1 = true) ∧
     (∀ names w', main P cmd w = (Return names, w') → tmp_removed w' = true)).
Proof.
  split.
  - intros s Hr. split.
    + intros arguments w' (_ & _ & _ & _ & _ & _ & _ & Hargs & _)%get_parser_Return.
      rewrite Hr in Hargs. destruct Hargs as [-> Hs]. done.
    + assert (behaves keeps_tmp (λ _, True) (main P cmd)) as Hmain; [|apply Hmain].
      unfold main.
      apply (behaves_bind_Return _ _); [by apply (behaves_get_parser _ _)|].
      intros arguments w1 w2 (_ & _ & _ & _ & _ & _ & _ & Hargs & _)%get_parser_Return.
      rewrite Hr in Hargs. destruct Hargs as [Hargs _].
      apply (behaves_bind _ _ _); [apply (behaves_int _ _)|intros verbose].
      cbv zeta.
      destruct (extract_fname P (abspath P (Args.i arguments))) as [[path_data file_data] ext_data].
      apply (behaves_bind _ _ _).
      { destruct (read_image P _); [apply (behaves_save _ _ _)|apply behaves_printv]. }
      intros _. apply (behaves_bind _ _ _); [apply (behaves_Image _ _ _)|intros im_dmri].
      apply (behaves_bind _ _ _); [apply behaves_identify_b0|].
      intros [[[index_b0 index_dwi] nb_b0] nb_dwi].
      apply (behaves_main_outputs _ _ _). by rewrite Hargs.
  - intros Hr. split.
    + intros arguments w' (_ & _ & _ & _ & _ & _ & _ & Hargs & _)%get_parser_Return.
      rewrite Hr in Hargs. by rewrite Hargs.
    + assert (post (main P cmd) (λ _ w', tmp_removed w' = true)) as Hmain; [|apply Hmain].
      unfold main. apply post_bind.
      intros arguments w1 w2 (_ & _ & _ & _ & _ & _ & _ & Hargs & _)%get_parser_Return.
      rewrite Hr in Hargs.
      apply post_bind. intros verbose _ _ _. cbv zeta.
      destruct (extract_fname P (abspath P (Args.i arguments))) as [[path_data file_data] ext_data].
      apply post_bind. intros _ _ _ _.
      apply post_bind. intros im_dmri _ _ _.
      apply post_bind. intros [[[index_b0 index_dwi] nb_b0] nb_dwi] _ _ _.
      apply post_main_outputs. by rewrite Hargs.
Qed.

(** The run of the end-to-end scenario with [-r 1] returns and leaves the
    temporary folder; with [-r] absent it removes it. *)
Example r_1_run :
  let run := main (demo five_frames None [10; 11; 12; 13; 14])
               {| opt_i := "dmri.nii.gz"; opt_bvec := "bvecs"; opt_a := None;
                  opt_bval := None; opt_bvalmin := None; opt_ofolder := None;
                  opt_r := Some "1"; opt_v := None |} w0 in
  run.1 = Return ("./dmri_in_b0.nii.gz", "./dmri_in_b0_mean.nii.gz",
                  "./dmri_in_dwi.nii.gz", "./dmri_in_dwi_mean.nii.gz") ∧
  tmp_removed run.2 = false ∧
  tmp_removed (main (demo five_frames None [10; 11; 12; 13; 14]) cmd_default w0).2 = true.
Proof. by vm_compute. Qed.

(** ** The names of the frames *)

Lemma chars_app (s1 s2 : string) : chars (s1 +:+ s2) = chars s1 ++ chars s2.
Proof. unfold chars. induction s1 as [|c s1 IH]; [done|]. simpl. by rewrite IH. Qed.

Lemma chars_inj (s1 s2 : string) : chars s1 = chars s2 → s1 = s2.
Proof.
  intros Heq. rewrite <- (string_of_list_ascii_of_string s1),
    <- (string_of_list_ascii_of_string s2). unfold chars in Heq. by rewrite Heq.
Qed.

Lemma chars_length (s : string) : length (chars s) = String.length s.
Proof. unfold chars. induction s as [|c s IH]; [done|]. simpl. by rewrite IH. Qed.

Lemma chars_pad (k : nat) (s : string) : chars (pad k s) = replicate k "0"%char ++ chars s.
Proof. unfold chars. induction k as [|k IH]; [done|]. simpl. by rewrite IH. Qed.

Lemma chars_str_digits (n : nat) : Forall digit (chars (str n)).
Proof.
  unfold str. induction (Nat.to_uint n) as [|d IH|d IH|d IH|d IH|d IH|d IH|d IH|d IH|d IH|d IH];
    cbn; constructor; try done; unfold digit; cbn; set_solver.
Qed.

Lemma chars_zfill (width n : nat) :
  Forall digit (chars (zfill width (str n))) ∧ (width ≤ length (chars (zfill width (str n))))%nat.
Proof.
  unfold zfill. rewrite chars_pad. split.
  - apply Forall_app. split; [|apply chars_str_digits].
    apply Forall_replicate. unfold digit. cbn. set_solver.
  - rewrite length_app, length_replicate, chars_length. lia.
Qed.

Lemma number_str (n : nat) : number (str n) = Some n.
Proof.
  unfold number, str. rewrite NilEmpty.usu. cbn [fmap option_fmap option_map].
  f_equal. apply DecimalNat.Unsigned.of_to.
Qed.

Lemma number_pad (k : nat) (s : string) : number (pad k s) = number s.
Proof.
  induction k as [|k IH]; [done|]. rewrite <- IH. unfold number. cbn.
  by destruct (NilEmpty.uint_of_string (pad k s)).
Qed.

Lemma zfill_str_inj (width a b : nat) : zfill width (str a) = zfill width (str b) → a = b.
Proof.
  intros Heq. apply (f_equal number) in Heq. unfold zfill in Heq.
  rewrite !number_pad, !number_str in Heq. by injection Heq.
Qed.

#[global] Instance frame_file_inj : Inj (=) (=) frame_file.
Proof.
  intros a b Heq. apply (f_equal chars) in Heq. unfold frame_file in Heq.
  rewrite !chars_app in Heq.
  do 2 apply app_inv_head in Heq. apply app_inv_tail in Heq.
  by apply chars_inj, zfill_str_inj in Heq.
Qed.

Lemma letter_not_digit (c : ascii) :
  c = "_"%char ∨ c = "n"%char → ¬ digit c.
Proof.
  unfold digit. cbn. intros [-> | ->] H;
    repeat (apply elem_of_cons in H as [H|H]; [discriminate H|]);
    by apply elem_of_nil in H.
Qed.

(** A name whose characters before the extension end with a character that
    is not a digit, followed by less than 4 characters, is not a name of
    frame. *)
Lemma not_frame_file (s t : string) (c : ascii) (idx : nat) :
  ¬ digit c → (String.length t < 4)%nat →
  (s +:+ String c t) +:+ ext ≠ frame_file idx.
Proof.
  intros Hc Ht Heq. apply (f_equal chars) in Heq. unfold frame_file in Heq.
  rewrite !chars_app in Heq. rewrite !app_assoc in Heq. apply app_inv_tail in Heq.
  destruct (chars_zfill 4 idx) as [Hdigits Hlen].
  apply (f_equal reverse) in Heq. rewrite !reverse_app in Heq. cbn [chars list_ascii_of_string] in Heq.
  rewrite reverse_cons in Heq. rewrite <- !app_assoc in Heq.
  apply (f_equal (λ l, l !! String.length t)) in Heq.
  rewrite lookup_app_r in Heq by (rewrite length_reverse, chars_length; lia).
  rewrite length_reverse, chars_length, Nat.sub_diag in Heq. cbn in Heq.
  rewrite lookup_app_l in Heq by (rewrite length_reverse; lia).
  symmetry in Heq. apply list_elem_of_lookup_2 in Heq. rewrite elem_of_reverse in Heq.
  by apply Hc, (proj1 (Forall_forall _ _) Hdigits).
Qed.

(** ** The assembly of a class *)

Section Assembly.

Context {frame : Type}.

Lemma for_in_app {A S : Type} (xs ys : list A) (body : A → S → M frame S) (s : S)
    (w : world frame) :
  for_in (xs ++ ys) body s w
  = match for_in xs body s w with
    | (Return s', w') => for_in ys body s' w'
    | (Exit st, w') => (Exit st, w')
    | (Raise e, w') => (Raise e, w')
    end.
Proof.
  revert s w. induction xs as [|x xs IH]; intros s w; [done|].
  cbn [app for_in]. rewrite !bind_unfold.
  destruct (body x s w) as [[s'|st|e] w']; [apply IH|done..].
Qed.

Lemma split_data_snoc (name ext : string) (data : list frame) (fr : frame) :
  split_data name ext (data ++ [fr])
  = split_data name ext data
    ++ [(name +:+ "_T" +:+ zfill 4 (str (length data)) +:+ ext, [fr])].
Proof. unfold split_data. rewrite imap_app. cbn. by rewrite Nat.add_0_r. Qed.

(** Lines 190-192: the loop saves every frame under its name and leaves
    the other files as they are. *)
Lemma split_save (data : list frame) (w : world frame) :
  ∃ t,
    for_in (split_data dmri_name ext data) (λ im_d _, save im_d.1 im_d.2) tt w
    = (Return tt, World (printed w) t (out_files w) (tmp_removed w)) ∧
    (∀ idx fr, data !! idx = Some fr → t !! frame_file idx = Some [fr]) ∧
    (∀ name, (∀ idx, name ≠ frame_file idx) → t !! name = tmp_files w !! name).
Proof.
  induction data as [|fr data (t & Hrun & Hframes & Hothers)] using rev_ind.
  - exists (tmp_files w). split; [by destruct w|]. split; [by intros ? ? ?|done].
  - exists (<[frame_file (length data) := [fr]]> t).
    rewrite split_data_snoc, for_in_app, Hrun. split; [done|]. split.
    + intros idx fr' Hidx. destruct (decide (idx = length data)) as [->|Hne].
      * rewrite list_lookup_middle in Hidx by done. injection Hidx as <-.
        apply lookup_insert_eq.
      * rewrite lookup_insert_ne by (intros ?%(inj frame_file); done).
        apply Hframes. apply lookup_lt_Some in Hidx as Hlt.
        rewrite length_app in Hlt. cbn in Hlt.
        rewrite lookup_app_l in Hidx by lia. done.
    + intros name Hname. rewrite lookup_insert_ne by (intros Heq; by apply (Hname (length data))).
      by apply Hothers.
Qed.

Lemma split_frames_saved (data : list frame) (w : world frame) :
  frames_saved data
    (for_in (split_data dmri_name ext data) (λ im_d _, save im_d.1 im_d.2) tt w).2.
Proof. destruct (split_save data w) as (t & -> & Hframes & _). exact Hframes. Qed.

(** A file that is not a frame leaves the frames saved. *)
Lemma frames_saved_save (data : list frame) (name : string) (v : list frame)
    (w : world frame) :
  (∀ idx, name ≠ frame_file idx) →
  frames_saved data w → frames_saved data (save name v w).2.
Proof.
  intros Hname Hsaved idx fr Hidx. cbn.
  rewrite lookup_insert_ne by apply Hname. by apply Hsaved.
Qed.

(** Lines 197-199: the loop builds the names of the frames of the class, in
    the order of the list. *)
Lemma merge_names (pre post : list nat) (acc : list string) (w : world frame) :
  for_in (seq (length pre) (length post))
    (λ it l,
       idx ← item (pre ++ post) it;
       mret (l ++ [dmri_name +:+ "_T" +:+ zfill 4 (str idx) +:+ ext]))
    acc w
  = (Return (acc ++ map frame_file post), w).
Proof.
  revert pre acc. induction post as [|idx post IH]; intros pre acc.
  - cbn. by rewrite app_nil_r.
  - cbn [length seq for_in]. rewrite bind_unfold, bind_unfold.
    rewrite (item_Some _ _ idx) by (by apply list_lookup_middle).
    cbv beta iota. rewrite mret_unfold. cbv beta iota.
    replace (S (length pre)) with (length (pre ++ [idx]))
      by (rewrite length_app; cbn; lia).
    replace (pre ++ idx :: post) with ((pre ++ [idx]) ++ post)
      by (by rewrite <- app_assoc).
    rewrite IH. cbn. by rewrite <- app_assoc.
Qed.

(** [concat_data] on the names of saved frames gives these frames, in the
    order of the names. *)
Lemma concat_frames (data : list frame) (index : list nat) (w : world frame) :
  frames_saved data w →
  Forall (λ idx, idx < length data) index →
  ∃ out, concat_data (map frame_file index) w = (Return out, w) ∧
         Forall2 (λ idx fr, data !! idx = Some fr) index out.
Proof.
  intros Hsaved. induction 1 as [|idx index Hidx _ (out & Hrun & Hout)].
  - by exists [].
  - destruct (lookup_lt_is_Some_2 data idx Hidx) as [fr Hfr].
    exists (fr :: out). split; [|by constructor].
    cbn [map concat_data]. rewrite bind_unfold. unfold Image at 1.
    rewrite (Hsaved idx fr Hfr). cbv beta iota.
    rewrite bind_unfold, Hrun. done.
Qed.

Lemma merge_frames (data : list frame) (index : list nat) (name : string) (w : world frame) :
  frames_saved data w →
  Forall (λ idx, idx < length data) index →
  ∃ out,
    merge index (length index) name w
    = (Return tt,
       World (printed w) (<[name := out]> (tmp_files w)) (out_files w) (tmp_removed w)) ∧
    Forall2 (λ idx fr, data !! idx = Some fr) index out.
Proof.
  intros Hsaved Hindex.
  destruct (concat_frames data index w Hsaved Hindex) as (out & Hrun & Hout).
  exists out. split; [|done].
  pose proof (merge_names [] index [] w) as Hnames. cbn [length app] in Hnames.
  unfold merge, range. rewrite bind_unfold, Hnames. cbv beta iota.
  rewrite bind_unfold, Hrun. done.
Qed.

(** C5. When the frames of a volume are saved and every index of the
    list is an index of the volume, lines 197-200 (and 208-211) save
    under [name] a volume of as many frames as the list has indices, whose
    frame at position [k] is the frame [index[k]] of the volume. *)
Theorem merge_selects_frames (data : list frame) (index : list nat) (name : string)
    (w : world frame) :
  frames_saved data w →
  Forall (λ idx, idx < length data) index →
  ∃ out,
    (merge index (length index) name w).1 = Return tt ∧
    tmp_files (merge index (length index) name w).2 !! name = Some out ∧
    length out = length index ∧
    ∀ k idx, index !! k = Some idx → out !! k = data !! idx.
Proof.
  intros Hsaved Hindex.
  destruct (merge_frames data index name w Hsaved Hindex) as (out & -> & Hout).
  exists out. split; [done|]. split; [apply lookup_insert_eq|].
  split; [symmetry; by eapply Forall2_length|].
  intros k idx Hk.
  destruct (Forall2_lookup_l _ _ _ _ _ Hout Hk) as (fr & -> & Hfr). done.
Qed.

End Assembly.

Lemma merge_selects_frames_witness :
  ∃ out,
    (merge [2; 0; 5] 3 "out.nii" w_split).1 = Return tt ∧
    tmp_files (merge [2; 0; 5] 3 "out.nii" w_split).2 !! "out.nii" = Some out ∧
    length out = 3 ∧
    ∀ k idx, [2; 0; 5] !! k = Some idx → out !! k = six_frames !! idx.
Proof.
  apply (merge_selects_frames six_frames [2; 0; 5] "out.nii" w_split).
  - apply split_frames_saved.
  - repeat constructor.
Defined.

Example merge_2_0_5 :
  tmp_files (merge [2; 0; 5] 3 "out.nii" w_split).2 !! "out.nii" = Some [12; 10; 15].
Proof. by vm_compute. Qed.

(** ** The end of [main], from the split to the output files *)

(** Two names that differ after a common beginning. *)
Ltac names_differ :=
  let Heq := fresh "Heq" in
  intros Heq; apply (f_equal chars) in Heq;
  rewrite ?chars_app, <- ?app_assoc in Heq;
  repeat apply app_inv_head in Heq; discriminate Heq.

Section Outputs.

Context {frame : Type} (P : platform frame).

Lemma Image_Some (name : string) (data : list frame) (w : world frame) :
  tmp_files w !! name = Some data → Image name w = (Return data, w).
Proof. unfold Image. by intros ->. Qed.

(** When every index of the two lists is an index of the volume and the
    names of the output files differ, the end of [main] returns, and the
    output files of the two classes hold the frames of their indices, in
    the order of the lists. *)
Lemma main_outputs_files (file_data ext_data path_out : string) (average : Z)
    (remove_temp_files : Py.value) (data : list frame) (index_b0 index_dwi : list nat)
    (w : world frame) :
  let fname_b0 := abspath P (path_join P path_out ((file_data +:+ "_b0") +:+ ext_data)) in
  let fname_dwi := abspath P (path_join P path_out ((file_data +:+ "_dwi") +:+ ext_data)) in
  let fname_b0_mean :=
    abspath P (path_join P path_out (((file_data +:+ "_b0") +:+ "_mean") +:+ ext_data)) in
  let fname_dwi_mean :=
    abspath P (path_join P path_out (((file_data +:+ "_dwi") +:+ "_mean") +:+ ext_data)) in
  Forall (λ idx, idx < length data) index_b0 →
  Forall (λ idx, idx < length data) index_dwi →
  NoDup [fname_b0; fname_dwi; fname_b0_mean; fname_dwi_mean] →
  ∃ w' b0 dwi,
    main_outputs P file_data ext_data path_out average remove_temp_files data
      index_b0 index_dwi (length index_b0) (length index_dwi) w
    = (Return (fname_b0, fname_b0_mean, fname_dwi, fname_dwi_mean), w') ∧
    Forall2 (λ idx fr, data !! idx = Some fr) index_b0 b0 ∧
    Forall2 (λ idx fr, data !! idx = Some fr) index_dwi dwi ∧
    out_files w' !! fname_b0 = Some b0 ∧
    out_files w' !! fname_dwi = Some dwi ∧
    (average ≠ 0%Z →
       out_files w' !! fname_b0_mean = Some [mean_t P b0] ∧
       out_files w' !! fname_dwi_mean = Some [mean_t P dwi]) ∧
    tmp_removed w' = (if eq_int remove_temp_files 1 then true else tmp_removed w) ∧
    printed w' = printed w.
Proof.
  intros fname_b0 fname_dwi fname_b0_mean fname_dwi_mean Hb0 Hdwi Hnames.
  apply NoDup_cons in Hnames as [Hn1 Hnames].
  apply NoDup_cons in Hnames as [Hn2 Hnames].
  apply NoDup_cons in Hnames as [Hn3 _].
  apply not_elem_of_cons in Hn1 as [Hn12 Hn1].
  apply not_elem_of_cons in Hn1 as [Hn13 Hn1].
  apply not_elem_of_cons in Hn1 as [Hn14 _].
  apply not_elem_of_cons in Hn2 as [Hn23 Hn2].
  apply not_elem_of_cons in Hn2 as [Hn24 _].
  apply not_elem_of_cons in Hn3 as [Hn34 _].
  unfold main_outputs. cbv zeta.
  fold fname_b0 fname_dwi fname_b0_mean fname_dwi_mean.
  (* Split into T dimension *)
  destruct (split_save data w) as (t & Hsplit & Hframes & _).
  rewrite bind_unfold, Hsplit. cbv beta iota.
  (* Merge b=0 images *)
  destruct (merge_frames data index_b0 ((file_data +:+ "_b0") +:+ ext)
              (World (printed w) t (out_files w) (tmp_removed w)) Hframes Hb0)
    as (b0 & Hmerge_b0 & Hb0_frames).
  rewrite bind_unfold, Hmerge_b0. cbv beta iota. cbn [printed tmp_files out_files tmp_removed].
  assert (∀ idx, (file_data +:+ "_b0") +:+ ext ≠ frame_file idx) as Hnot_b0.
  { intros idx. apply (not_frame_file file_data "b0" "_"); [apply letter_not_digit; by left|cbn; lia]. }
  assert (∀ idx, ((file_data +:+ "_b0") +:+ "_mean") +:+ ext ≠ frame_file idx) as Hnot_b0_mean.
  { intros idx Heq. apply (not_frame_file (file_data +:+ "_b0_mea") "" "n" idx);
      [apply letter_not_digit; by right|cbn; lia|].
    rewrite <- Heq. apply chars_inj. rewrite !chars_app. cbn. by rewrite <- !app_assoc. }
  destruct (decide (average = 0%Z)) as [->|Havg].
  - (* no average *)
    cbn [Z.eqb negb]. rewrite bind_unfold, mret_unfold. cbv beta iota.
    rewrite bind_unfold.
    match goal with |- context [merge index_dwi _ ?name ?w1] =>
      destruct (merge_frames data index_dwi name w1) as (dwi & Hmerge_dwi & Hdwi_frames);
        [intros idx fr Hidx; cbn; rewrite lookup_insert_ne by apply Hnot_b0; by apply Hframes
        |done|]
    end.
    rewrite Hmerge_dwi. cbv beta iota. cbn [printed tmp_files out_files tmp_removed].
    rewrite bind_unfold, mret_unfold. cbv beta iota.
    rewrite bind_unfold. unfold generate_output_file at 1. rewrite bind_unfold.
    rewrite (Image_Some _ b0)
      by (cbn; rewrite lookup_insert_ne by names_differ; apply lookup_insert_eq).
    cbv beta iota. unfold write_output at 1. cbv beta iota.
    cbn [printed tmp_files out_files tmp_removed].
    rewrite bind_unfold. unfold generate_output_file at 1. rewrite bind_unfold.
    rewrite (Image_Some _ dwi) by (cbn; apply lookup_insert_eq).
    cbv beta iota. unfold write_output at 1. cbv beta iota.
    cbn [printed tmp_files out_files tmp_removed].
    rewrite bind_unfold, mret_unfold. cbv beta iota.
    rewrite bind_unfold.
    destruct (eq_int remove_temp_files 1); cbn;
      (eexists _, b0, dwi; split; [reflexivity|]; cbn;
       repeat split; try done;
       [by rewrite lookup_insert_ne, lookup_insert_eq by done
       |by rewrite lookup_insert_eq]).
  - (* average *)
    replace (negb (Z.eqb average 0)) with true
      by (symmetry; apply negb_true_iff, Z.eqb_neq; done).
    rewrite bind_unfold. unfold sct_maths_mean_t at 1. rewrite bind_unfold.
    rewrite (Image_Some _ b0) by (cbn; apply lookup_insert_eq).
    cbv beta iota. unfold save at 1. cbv beta iota.
    cbn [printed tmp_files out_files tmp_removed].
    rewrite bind_unfold.
    match goal with |- context [merge index_dwi _ ?name ?w1] =>
      destruct (merge_frames data index_dwi name w1) as (dwi & Hmerge_dwi & Hdwi_frames);
        [intros idx fr Hidx; cbn;
         rewrite lookup_insert_ne by apply Hnot_b0_mean;
         rewrite lookup_insert_ne by apply Hnot_b0; by apply Hframes
        |done|]
    end.
    rewrite Hmerge_dwi. cbv beta iota. cbn [printed tmp_files out_files tmp_removed].
    rewrite bind_unfold. unfold sct_maths_mean_t at 1. rewrite bind_unfold.
    rewrite (Image_Some _ dwi) by (cbn; apply lookup_insert_eq).
    cbv beta iota. unfold save at 1. cbv beta iota.
    cbn [printed tmp_files out_files tmp_removed].
    rewrite bind_unfold. unfold generate_output_file at 1. rewrite bind_unfold.
    rewrite (Image_Some _ b0)
      by (cbn; do 3 (rewrite lookup_insert_ne by names_differ); apply lookup_insert_eq).
    cbv beta iota. unfold write_output at 1. cbv beta iota.
    cbn [printed tmp_files out_files tmp_removed].
    rewrite bind_unfold. unfold generate_output_file at 1. rewrite bind_unfold.
    rewrite (Image_Some _ dwi)
      by (cbn; rewrite lookup_insert_ne by names_differ; apply lookup_insert_eq).
    cbv beta iota. unfold write_output at 1. cbv beta iota.
    cbn [printed tmp_files out_files tmp_removed].
    rewrite bind_unfold, bind_unfold. unfold generate_output_file at 1. rewrite bind_unfold.
    rewrite (Image_Some _ [mean_t P b0])
      by (cbn; do 2 (rewrite lookup_insert_ne by names_differ); apply lookup_insert_eq).
    cbv beta iota. unfold write_output at 1. cbv beta iota.
    cbn [printed tmp_files out_files tmp_removed].
    unfold generate_output_file at 1. rewrite bind_unfold.
    rewrite (Image_Some _ [mean_t P dwi]) by (cbn; apply lookup_insert_eq).
    cbv beta iota. unfold write_output at 1. cbv beta iota.
    cbn [printed tmp_files out_files tmp_removed].
    rewrite bind_unfold.
    destruct (eq_int remove_temp_files 1); cbn;
      (eexists _, b0, dwi; split; [reflexivity|]; cbn;
       repeat split; try done;
       [by do 3 (rewrite lookup_insert_ne by done); rewrite lookup_insert_eq
       |by do 2 (rewrite lookup_insert_ne by done); rewrite lookup_insert_eq
       |by rewrite lookup_insert_ne, lookup_insert_eq by done
       |by rewrite lookup_insert_eq]).
Qed.

End Outputs.

(** ** More on [identify_b0]: every input *)

(** The messages of [identify_b0] before the end of lines 299-311, the
    outcome and the world, for every input: an exception of the readers, of
    [bvecs[0]] or of a norm ends the call after these messages; otherwise
    the call ends as [finish] does on the indices of a classification. *)
Lemma identify_b0_ends {frame : Type} (P : platform frame)
    (fname_bvecs fname_bvals : string) (bval_min : float) (verbose : Z) (w : world frame) :
  ∃ before,
    hd_error before = Some (Printv msg_identify verbose "normal") ∧
    Forall (λ p, pv_type p ≠ "error") before ∧
    ((∃ e, identify_b0 P fname_bvecs fname_bvals bval_min verbose w
           = (Raise e, say w before)) ∨
     (∃ c n, classification P fname_bvecs fname_bvals bval_min c n ∧ total c n ∧
        identify_b0 P fname_bvecs fname_bvals bval_min verbose w
        = (finish (indices c true n) (indices c false n),
           say w (before ++ finish_trace (indices c true n) (indices c false n) verbose)))).
Proof.
  destruct (decide (fname_bvals = "")) as [->|Hne].
  - destruct (read_bvecs P fname_bvecs) as [e|rows] eqn:Hread.
    { exists [Printv msg_identify verbose "normal"]. split; [done|].
      split; [by repeat constructor|]. left. exists e.
      by apply identify_b0_bvecs_unread. }
    destruct (decide (rows = [])) as [->|Hrows].
    { exists [Printv msg_identify verbose "normal"]. split; [done|].
      split; [by repeat constructor|]. left. exists IndexError.
      by apply identify_b0_bvecs_empty. }
    exists (Printv msg_identify verbose "normal" :: transpose_trace rows verbose).
    split; [done|]. split.
    { constructor; [done|]. unfold transpose_trace.
      destruct rows as [|row0 ?]; [constructor|].
      destruct (Nat.eqb (length row0) 3); by repeat constructor. }
    rewrite (identify_b0_bvecs P _ _ _ rows) by done.
    destruct (comprehension _ _) as [e|bs] eqn:Hbs.
    + left. by exists e.
    + right. eexists _, _. split; [by apply by_norm|]. split; [|done].
      by eapply comprehension_inr_inv.
  - destruct (read_bvals_bvecs P fname_bvals fname_bvecs) as [e|[bvals bvecs]] eqn:Hread.
    { exists [Printv msg_identify verbose "normal"]. split; [done|].
      split; [by repeat constructor|]. left. exists e.
      by apply identify_b0_bvals_unread. }
    exists [Printv msg_identify verbose "normal"; Printv msg_identify verbose "normal"].
    split; [done|]. split; [by repeat constructor|]. right.
    eexists _, _. split; [by eapply by_bval|]. split; [apply total_b0_by_bval|].
    by rewrite (identify_b0_bvals P _ _ _ _ bvals bvecs).
Qed.

(** X1. Whenever [identify_b0] returns, whatever the table: the two counts
    are the lengths of the two lists, there is at least one b=0 frame, no
    index is repeated, and the indices of the two lists are exactly the
    numbers below [nb_b0 + nb_dwi]. *)
Theorem identify_b0_counts {frame : Type} (P : platform frame)
    (fname_bvecs fname_bvals : string) (bval_min : float) (verbose : Z) (w : world frame)
    (index_b0 index_dwi : list nat) (nb_b0 nb_dwi : nat) :
  (identify_b0 P fname_bvecs fname_bvals bval_min verbose w).1
  = Return (index_b0, index_dwi, nb_b0, nb_dwi) →
  nb_b0 = length index_b0 ∧ nb_dwi = length index_dwi ∧ 0 < nb_b0 ∧
  NoDup (index_b0 ++ index_dwi) ∧
  ∀ i, i ∈ index_b0 ++ index_dwi ↔ i < nb_b0 + nb_dwi.
Proof.
  intros (c & n & _ & Ht & -> & -> & -> & -> & Hne)%identify_b0_Return.
  pose proof (indices_Permutation c n Ht) as Hperm.
  split; [done|]. split; [done|]. split.
  { destruct (indices c true n); [done|]. cbn. lia. }
  split; [rewrite Hperm; apply NoDup_seq|].
  assert (length (indices c true n) + length (indices c false n) = n) as ->.
  { rewrite <- length_app, Hperm. apply length_seq. }
  intros i. rewrite Hperm, elem_of_seq. lia.
Qed.

Lemma identify_b0_counts_witness :
  3 = length [0; 1; 4] ∧ 2 = length [2; 3] ∧ 0 < 3 ∧
  NoDup ([0; 1; 4] ++ [2; 3]) ∧
  ∀ i, i ∈ [0; 1; 4] ++ [2; 3] ↔ i < 3 + 2.
Proof.
  apply (identify_b0_counts (demo five_frames None []) "bvecs" "" 100%float 1%Z w0).
  vm_compute. reflexivity.
Defined.

(** X2. For every input and however it ends, [identify_b0] only prints:
    the files of the temporary folder, the output files and the temporary
    folder itself are as before, the messages already printed are kept,
    and the first new message is "Identify b=0 and DWI images...". *)
Theorem identify_b0_only_prints {frame : Type} (P : platform frame)
    (fname_bvecs fname_bvals : string) (bval_min : float) (verbose : Z) (w : world frame) :
  ∃ messages,
    (identify_b0 P fname_bvecs fname_bvals bval_min verbose w).2
    = World (printed w ++ Printv msg_identify verbose "normal" :: messages)
        (tmp_files w) (out_files w) (tmp_removed w).
Proof.
  destruct (identify_b0_ends P fname_bvecs fname_bvals bval_min verbose w)
    as (before & Hhd & _ & [[e ->]|(c & n & _ & _ & ->)]);
    destruct before as [|p before]; try done; injection Hhd as ->; by eexists.
Qed.

(** X3. The outcome of [identify_b0] (the lists returned, the exit or the
    exception) depends neither on the verbosity nor on the state of the
    run. *)
Theorem identify_b0_verbose_independent {frame : Type} (P : platform frame)
    (fname_bvecs fname_bvals : string) (bval_min : float)
    (verbose verbose' : Z) (w w' : world frame) :
  (identify_b0 P fname_bvecs fname_bvals bval_min verbose w).1
  = (identify_b0 P fname_bvecs fname_bvals bval_min verbose' w').1.
Proof.
  destruct (decide (fname_bvals = "")) as [->|Hne].
  - destruct (read_bvecs P fname_bvecs) as [e|rows] eqn:Hread.
    { by rewrite !(identify_b0_bvecs_unread P _ _ _ e). }
    destruct (decide (rows = [])) as [->|Hrows].
    { by rewrite !(identify_b0_bvecs_empty P). }
    rewrite !(identify_b0_bvecs P _ _ _ rows) by done.
    by destruct (comprehension _ _).
  - destruct (read_bvals_bvecs P fname_bvals fname_bvecs) as [e|[bvals bvecs]] eqn:Hread.
    { by rewrite !(identify_b0_bvals_unread P _ _ _ _ e). }
    by rewrite !(identify_b0_bvals P _ _ _ _ bvals bvecs).
Qed.

(** X4. [identify_b0] exits with the status 2 only, and only after the
    error "no b=0 images detected", which is then the last message
    printed, with verbosity 1 whatever [verbose]. *)
Theorem identify_b0_exit_status {frame : Type} (P : platform frame)
    (fname_bvecs fname_bvals : string) (bval_min : float) (verbose : Z) (w : world frame)
    (status : Z) :
  (identify_b0 P fname_bvecs fname_bvals bval_min verbose w).1 = Exit status →
  status = 2%Z ∧
  last (printed (identify_b0 P fname_bvecs fname_bvals bval_min verbose w).2)
  = Some (Printv msg_no_b0 1 "error").
Proof.
  destruct (identify_b0_ends P fname_bvecs fname_bvals bval_min verbose w)
    as (before & _ & _ & [[e ->]|(c & n & _ & _ & ->)]); [done|].
  unfold finish, finish_trace. case_decide; [|done].
  intros [= <-]. split; [done|]. cbn. by rewrite !app_assoc, last_snoc.
Qed.

Lemma identify_b0_exit_status_witness :
  2%Z = 2%Z ∧
  last (printed (identify_b0 (demo no_b0_frames None []) "bvecs" "" 100%float 0%Z w0).2)
  = Some (Printv msg_no_b0 1 "error").
Proof.
  apply (identify_b0_exit_status (demo no_b0_frames None []) "bvecs" "" 100%float 0%Z w0).
  vm_compute. reflexivity.
Defined.

(** X5. An exception of the reading of the bvecs file (no b-values) or of
    the reader of b-values and gradients ends [identify_b0] with this
    exception, after its first message only. *)
Theorem identify_b0_reader_exception {frame : Type} (P : platform frame)
    (fname_bvecs fname_bvals : string) (bval_min : float) (verbose : Z) (w : world frame)
    (e : Py.exn) :
  (fname_bvals = "" ∧ read_bvecs P fname_bvecs = inl e) ∨
  (fname_bvals ≠ "" ∧ read_bvals_bvecs P fname_bvals fname_bvecs = inl e) →
  (identify_b0 P fname_bvecs fname_bvals bval_min verbose w).1 = Raise e ∧
  new_messages w (identify_b0 P fname_bvecs fname_bvals bval_min verbose w).2
  = [Printv msg_identify verbose "normal"].
Proof.
  unfold new_messages. intros [[-> Hread]|[Hne Hread]].
  - rewrite (identify_b0_bvecs_unread P _ _ _ e) by done. cbn.
    by rewrite drop_app_length.
  - rewrite (identify_b0_bvals_unread P _ _ _ _ e) by done. cbn.
    by rewrite drop_app_length.
Qed.

Lemma identify_b0_reader_exception_witness :
  (identify_b0 (demo five_frames None []) "bvecs" "bvals" 100%float 1%Z w0).1 = Raise IOError ∧
  new_messages w0 (identify_b0 (demo five_frames None []) "bvecs" "bvals" 100%float 1%Z w0).2
  = [Printv msg_identify 1 "normal"].
Proof.
  apply identify_b0_reader_exception.
  right. split; [discriminate|reflexivity].
Defined.

(** X6. Without b-values, a bvecs file without any line ends [identify_b0]
    with the [IndexError] of [bvecs[0]] (line 265), not with the error "no
    b=0 images detected". *)
Theorem identify_b0_no_line {frame : Type} (P : platform frame)
    (fname_bvecs : string) (bval_min : float) (verbose : Z) (w : world frame) :
  read_bvecs P fname_bvecs = inr [] →
  (identify_b0 P fname_bvecs "" bval_min verbose w).1 = Raise IndexError ∧
  Printv msg_no_b0 1 "error"
  ∉ new_messages w (identify_b0 P fname_bvecs "" bval_min verbose w).2.
Proof.
  intros Hread. rewrite (identify_b0_bvecs_empty P) by done.
  split; [done|]. unfold new_messages. cbn. rewrite drop_app_length.
  intros [[=]|Hin%elem_of_nil]%elem_of_cons. done.
Qed.

Lemma identify_b0_no_line_witness :
  (identify_b0 (demo [] None []) "bvecs" "" 100%float 1%Z w0).1 = Raise IndexError ∧
  Printv msg_no_b0 1 "error"
  ∉ new_messages w0 (identify_b0 (demo [] None []) "bvecs" "" 100%float 1%Z w0).2.
Proof. apply identify_b0_no_line. reflexivity. Defined.

(** *** Tables that are not rectangular *)

Lemma min_length_min (a b : nat) (rows : list (list float)) :
  min_length (Nat.min a b) rows = Nat.min a (min_length b rows).
Proof.
  unfold min_length. induction rows as [|r rows IH]; cbn; [done|]. rewrite IH. lia.
Qed.

Lemma min_length_le_first (a : nat) (rows : list (list float)) :
  (min_length a rows ≤ a)%nat.
Proof. unfold min_length. induction rows as [|r rows IH]; simpl; lia. Qed.

Lemma min_length_le (a : nat) (rows : list (list float)) (r : list float) :
  r ∈ rows → (min_length a rows ≤ length r)%nat.
Proof.
  unfold min_length. induction 1 as [r rows|r r' rows _ IH]; cbn; [lia|].
  etrans; [apply Nat.le_min_r|done].
Qed.

(** [zip( *rows )] stops at the shortest row. *)
Lemma length_zip_star (r : list float) (rows : list (list float)) :
  length (zip_star (r :: rows)) = min_length (length r) rows.
Proof.
  revert r. induction rows as [|r2 rows IH]; intros r.
  - cbn. by rewrite length_map.
  - change (zip_star (r :: r2 :: rows)) with (zip_with cons r (zip_star (r2 :: rows))).
    rewrite length_zip_with, IH. cbn [min_length foldr].
    fold (min_length (length r) rows) (min_length (length r2) rows).
    rewrite <- !min_length_min. f_equal. lia.
Qed.

(** Frame [i] of [zip( *rows )] holds the components at position [i] of
    the rows: the components of a row from the length of the shortest row
    on are in no frame. *)
Lemma zip_star_lookup (rows : list (list float)) (i : nat) (v : list float) :
  zip_star rows !! i = Some v → Forall2 (λ r x, r !! i = Some x) rows v.
Proof.
  revert v. induction rows as [|r rows IH]; intros v; [done|].
  destruct rows as [|r2 rows].
  - cbn [zip_star]. rewrite list_lookup_fmap.
    destruct (r !! i) as [x|] eqn:Hx; [|done]. intros [= <-].
    constructor; [done|constructor].
  - change (zip_star (r :: r2 :: rows)) with (zip_with cons r (zip_star (r2 :: rows))).
    intros (x & v' & -> & Hx & Hv')%lookup_zip_with_Some.
    constructor; [done|]. by apply IH.
Qed.

(** X7. Without b-values, when the first row of the file has not 3
    components, the frames that [identify_b0] classifies are as many as the
    shortest row has components: frame [i] is made of the components at
    position [i] of the rows, the two lists are the indices below this
    length on which the Euclidean norm of the frame is below 0.01 and those
    on which it is not, and [identify_b0] returns them, or exits when the
    first is empty.  The components of the longer rows beyond this length
    are in no frame, and no message tells it: the messages are the first
    one, the two of the transposition, and the two counts or the error of
    the missing b=0 frame. *)
Theorem identify_b0_shortest_row {frame : Type} (P : platform frame)
    (fname_bvecs : string) (bval_min : float) (verbose : Z) (w : world frame)
    (row0 : list float) (rows : list (list float)) :
  read_bvecs P fname_bvecs = inr (row0 :: rows) →
  length row0 ≠ 3 →
  Forall (λ v, ∃ n, euclidean_norm P v n) (zip_star (row0 :: rows)) →
  let m := min_length (length row0) rows in
  let index_b0 := indices (b0_by_norm P (zip_star (row0 :: rows))) true m in
  let index_dwi := indices (b0_by_norm P (zip_star (row0 :: rows))) false m in
  length (zip_star (row0 :: rows)) = m ∧
  (∀ i v, zip_star (row0 :: rows) !! i = Some v →
     Forall2 (λ r x, r !! i = Some x) (row0 :: rows) v) ∧
  (∀ i v n, zip_star (row0 :: rows) !! i = Some v → euclidean_norm P v n →
     (i ∈ index_b0 ↔ PrimFloat.ltb n 0.01%float = true) ∧
     (i ∈ index_dwi ↔ PrimFloat.ltb n 0.01%float = false)) ∧
  index_b0 ++ index_dwi ≡ₚ seq 0 m ∧
  (identify_b0 P fname_bvecs "" bval_min verbose w).1
  = (if decide (index_b0 = []) then Exit 2
     else Return (index_b0, index_dwi, length index_b0, length index_dwi)) ∧
  new_messages w (identify_b0 P fname_bvecs "" bval_min verbose w).2
  = [Printv msg_identify verbose "normal"; Printv msg_3xn verbose "warning";
     Printv msg_transpose verbose "normal"]
    ++ (if decide (index_b0 = []) then [Printv msg_no_b0 1 "error"]
        else [Printv ("  Number of b=0: " +:+ str (length index_b0) +:+ " "
                      +:+ str_list index_b0) verbose "normal";
              Printv ("  Number of DWI: " +:+ str (length index_dwi) +:+ " "
                      +:+ str_list index_dwi) verbose "normal"]).
Proof.
  intros Hread Hrow0 Hnorm m index_b0 index_dwi.
  pose proof (euclidean_norms_computed P _ Hnorm) as Hnorm'.
  assert (oriented (row0 :: rows) = zip_star (row0 :: rows)) as Hor.
  { unfold oriented. by rewrite (proj2 (Nat.eqb_neq _ _) Hrow0). }
  pose proof (total_b0_by_norm P _ Hnorm') as Ht.
  pose proof (length_zip_star row0 rows) as Hlen. fold m in Hlen.
  rewrite Hlen in Ht.
  split; [done|]. split; [apply zip_star_lookup|]. split.
  { intros i v n Hv Hn.
    pose proof (lookup_lt_Some _ _ _ Hv) as Hi. rewrite Hlen in Hi.
    pose proof (b0_by_norm_euclidean P _ i v n Hv Hn) as Hc.
    unfold index_b0, index_dwi.
    by rewrite !(elem_of_indices_test _ _ _ _ i Hi Hc). }
  split; [by apply indices_Permutation|].
  rewrite (identify_b0_bvecs P _ _ _ (row0 :: rows)) by done.
  rewrite Hor, Hlen. fold index_b0 index_dwi.
  destruct (comprehension_inr _ _ Ht) as [bs ->]. cbn [fst snd].
  split; [done|].
  unfold new_messages, say. cbn [printed]. rewrite drop_app_length.
  unfold transpose_trace. by rewrite (proj2 (Nat.eqb_neq _ _) Hrow0).
Qed.

Lemma identify_b0_shortest_row_witness :
  let P := demo ragged_rows None [] in
  let m := min_length 4 [[0; 0]%float] in
  let index_b0 := indices (b0_by_norm P (zip_star ragged_rows)) true m in
  let index_dwi := indices (b0_by_norm P (zip_star ragged_rows)) false m in
  length (zip_star ragged_rows) = m ∧
  (∀ i v, zip_star ragged_rows !! i = Some v →
     Forall2 (λ r x, r !! i = Some x) ragged_rows v) ∧
  (∀ i v n, zip_star ragged_rows !! i = Some v → euclidean_norm P v n →
     (i ∈ index_b0 ↔ PrimFloat.ltb n 0.01%float = true) ∧
     (i ∈ index_dwi ↔ PrimFloat.ltb n 0.01%float = false)) ∧
  index_b0 ++ index_dwi ≡ₚ seq 0 m ∧
  (identify_b0 P "bvecs" "" 100%float 1%Z w0).1
  = (if decide (index_b0 = []) then Exit 2
     else Return (index_b0, index_dwi, length index_b0, length index_dwi)) ∧
  new_messages w0 (identify_b0 P "bvecs" "" 100%float 1%Z w0).2
  = [Printv msg_identify 1 "normal"; Printv msg_3xn 1 "warning";
     Printv msg_transpose 1 "normal"]
    ++ (if decide (index_b0 = []) then [Printv msg_no_b0 1 "error"]
        else [Printv ("  Number of b=0: " +:+ str (length index_b0) +:+ " "
                      +:+ str_list index_b0) 1 "normal";
              Printv ("  Number of DWI: " +:+ str (length index_dwi) +:+ " "
                      +:+ str_list index_dwi) 1 "normal"]).
Proof.
  apply (identify_b0_shortest_row (demo ragged_rows None []) "bvecs" 100%float 1%Z w0
           [0; 1; 1; 1]%float [[0; 0]%float]).
  - reflexivity.
  - cbn. lia.
  - apply Forall_cons; split; [|apply Forall_cons; split; [|constructor]].
    + eexists. eapply (sqrt_of_sum_of_squares _ _ [_; _]);
        [repeat (apply Forall2_cons; split; [reflexivity|]); constructor
        |reflexivity|reflexivity].
    + eexists. eapply (sqrt_of_sum_of_squares _ _ [_; _]);
        [repeat (apply Forall2_cons; split; [reflexivity|]); constructor
        |reflexivity|reflexivity].
Defined.

(** The two frames of these rows are (0, 0) and (1, 0): the first is
    b=0. *)
Example ragged_rows_run :
  (identify_b0 (demo ragged_rows None []) "bvecs" "" 100%float 1%Z w0).1
  = Return ([0], [1], 1, 1).
Proof. by vm_compute. Qed.

(** X8. Without b-values, when the first row of the file has not 3
    components and some row is empty (a blank line), the transposition
    leaves no frame and [identify_b0] exits with the status 2, whatever the
    other rows hold. *)
Theorem identify_b0_blank_line {frame : Type} (P : platform frame)
    (fname_bvecs : string) (bval_min : float) (verbose : Z) (w : world frame)
    (row0 : list float) (rows : list (list float)) :
  read_bvecs P fname_bvecs = inr (row0 :: rows) →
  length row0 ≠ 3 →
  [] ∈ row0 :: rows →
  (identify_b0 P fname_bvecs "" bval_min verbose w).1 = Exit 2.
Proof.
  intros Hread Hrow0 Hblank.
  assert (zip_star (row0 :: rows) = []) as Hz.
  { apply length_zero_iff_nil. rewrite length_zip_star.
    apply elem_of_cons in Hblank as [<-|Hblank].
    - pose proof (min_length_le_first (length (@nil float)) rows) as Hle.
      simpl in Hle. simpl. lia.
    - pose proof (min_length_le (length row0) rows [] Hblank) as Hle.
      simpl in Hle. lia. }
  rewrite (identify_b0_bvecs P _ _ _ (row0 :: rows)) by done.
  unfold oriented. rewrite (proj2 (Nat.eqb_neq _ _) Hrow0), Hz. done.
Qed.

Lemma identify_b0_blank_line_witness :
  (identify_b0 (demo [[0; 1]; []; [1; 0]]%float None []) "bvecs" "" 100%float 1%Z w0).1
  = Exit 2.
Proof.
  apply (identify_b0_blank_line _ _ _ _ _ [0; 1]%float [[]; [1; 0]%float]).
  - reflexivity.
  - cbn. lia.
  - apply elem_of_cons. right. apply elem_of_cons. by left.
Defined.

(** X9. Without b-values, the warning "bvecs file is 3xn instead of nx3" is
    printed if and only if the first row of the file has not exactly 3
    components, whatever the other rows and however the call ends. *)
Theorem identify_b0_warning {frame : Type} (P : platform frame)
    (fname_bvecs : string) (bval_min : float) (verbose : Z) (w : world frame)
    (row0 : list float) (rows : list (list float)) :
  read_bvecs P fname_bvecs = inr (row0 :: rows) →
  Printv msg_3xn verbose "warning"
  ∈ new_messages w (identify_b0 P fname_bvecs "" bval_min verbose w).2
  ↔ length row0 ≠ 3.
Proof.
  intros Hread. unfold new_messages.
  rewrite (identify_b0_bvecs P _ _ _ (row0 :: rows)) by done.
  assert (∀ b0 dwi, Printv msg_3xn verbose "warning" ∉ finish_trace b0 dwi verbose) as Hfin.
  { intros b0 dwi. unfold finish_trace. case_decide.
    - intros [[=]|Hin%elem_of_nil]%elem_of_cons. done.
    - intros [[=]|[[=]|Hin%elem_of_nil]%elem_of_cons]%elem_of_cons. done. }
  unfold transpose_trace.
  destruct (Nat.eqb (length row0) 3) eqn:Hlen.
  - apply Nat.eqb_eq in Hlen. split; [|done].
    destruct (comprehension _ _); cbn; rewrite drop_app_length.
    + intros [[=]|Hin%elem_of_nil]%elem_of_cons. done.
    + intros [[=]|Hin]%elem_of_cons. by apply Hfin in Hin.
  - apply Nat.eqb_neq in Hlen. split; [done|]. intros _.
    destruct (comprehension _ _); cbn; rewrite drop_app_length;
      apply elem_of_cons; right; apply elem_of_cons; by left.
Qed.

Lemma identify_b0_warning_witness :
  Printv msg_3xn 1 "warning"
  ∈ new_messages w0
      (identify_b0 (demo five_frames_3xn None []) "bvecs" "" 100%float 1%Z w0).2
  ↔ length [0; 0; 1; 0; 0]%float ≠ 3.
Proof.
  apply (identify_b0_warning (demo five_frames_3xn None []) "bvecs" 100%float 1%Z w0
           [0; 0; 1; 0; 0]%float [[0; 0; 0; 1; 0]; [0; 0; 0; 0; 0]]%float).
  reflexivity.
Defined.

(** ** The threshold of the b-values *)

(** The order of the floats, on their specification: [<] followed by [<=]
    is [<]. *)
Lemma SFltb_leb_trans (x y z : SpecFloat.spec_float) :
  SpecFloat.SFltb x y = true → SpecFloat.SFleb y z = true → SpecFloat.SFltb x z = true.
Proof.
  unfold SpecFloat.SFltb, SpecFloat.SFleb, SpecFloat.SFcompare.
  destruct x as [[]|[]| |[] mx ex], y as [[]|[]| |[] my ey], z as [[]|[]| |[] mz ez];
    try done.
  all: destruct (Z.compare_spec ex ey), (Z.compare_spec ey ez), (Z.compare_spec ex ez);
    try done; try lia; subst.
  all: change (PosDef.Pos.compare_cont Eq mx my) with (Pos.compare mx my);
    change (PosDef.Pos.compare_cont Eq my mz) with (Pos.compare my mz);
    change (PosDef.Pos.compare_cont Eq mx mz) with (Pos.compare mx mz);
    destruct (Pos.compare_spec mx my), (Pos.compare_spec my mz), (Pos.compare_spec mx mz);
    simpl; try done; try lia.
Qed.

Lemma ltb_leb_trans (x y z : float) :
  PrimFloat.ltb x y = true → PrimFloat.leb y z = true → PrimFloat.ltb x z = true.
Proof. rewrite !ltb_spec, leb_spec. apply SFltb_leb_trans. Qed.

(** A float that is not a number. *)
Lemma is_nan_spec (y : float) : PrimFloat.is_nan y = true → Prim2SF y = SpecFloat.S754_nan.
Proof.
  unfold PrimFloat.is_nan. intros Hnan. apply negb_true_iff in Hnan.
  rewrite FloatAxioms.eqb_spec in Hnan. unfold SpecFloat.SFeqb, SpecFloat.SFcompare in Hnan.
  destruct (Prim2SF y) as [[]|[]| |[] my ey]; try done;
    by rewrite Z.compare_refl, Pos.compare_cont_refl in Hnan.
Qed.

(** Nothing is below a threshold that is not a number. *)
Lemma ltb_nan (x y : float) : PrimFloat.is_nan y = true → PrimFloat.ltb x y = false.
Proof.
  intros Hnan%is_nan_spec. rewrite ltb_spec, Hnan.
  by destruct (Prim2SF x) as [[]|[]| |[] mx ex].
Qed.

Lemma eqb_nan (x y : float) : PrimFloat.is_nan x = true → PrimFloat.eqb x y = false.
Proof. intros Hnan%is_nan_spec. by rewrite FloatAxioms.eqb_spec, Hnan. Qed.

(** X10. With b-values, raising the threshold only moves frames from the
    DWI to the b=0: when [identify_b0] returns for a threshold, it returns
    for every threshold that is not below it, with every former b=0 index
    among the b=0 and every DWI index among the former DWI. *)
Theorem identify_b0_threshold_monotone {frame : Type} (P : platform frame)
    (fname_bvecs fname_bvals : string) (bval_min bval_min' : float) (verbose : Z)
    (w : world frame) (index_b0 index_dwi : list nat) (nb_b0 nb_dwi : nat) :
  fname_bvals ≠ "" →
  PrimFloat.leb bval_min bval_min' = true →
  (identify_b0 P fname_bvecs fname_bvals bval_min verbose w).1
  = Return (index_b0, index_dwi, nb_b0, nb_dwi) →
  ∃ index_b0' index_dwi',
    (identify_b0 P fname_bvecs fname_bvals bval_min' verbose w).1
    = Return (index_b0', index_dwi', length index_b0', length index_dwi') ∧
    index_b0 ⊆ index_b0' ∧ index_dwi' ⊆ index_dwi.
Proof.
  intros Hne Hle Hrun.
  destruct (read_bvals_bvecs P fname_bvals fname_bvecs) as [e|[bvals bvecs]] eqn:Hread.
  { by rewrite (identify_b0_bvals_unread P _ _ _ _ e) in Hrun. }
  rewrite (identify_b0_bvals P _ _ _ _ bvals bvecs) in Hrun by done.
  rewrite (identify_b0_bvals P _ _ _ _ bvals bvecs) by done.
  cbn [fst] in *. apply finish_Return in Hrun as (Hb0 & -> & -> & _ & _).
  assert (indices (b0_by_bval bvals bval_min) true (length bvals)
          ⊆ indices (b0_by_bval bvals bval_min') true (length bvals)) as Hsub.
  { intros i [Hi Hc]%elem_of_indices. apply elem_of_indices. split; [done|].
    unfold b0_by_bval in *. destruct (bvals !! i) as [b|]; [|done].
    cbn in *. injection Hc as Hc. by rewrite (ltb_leb_trans _ _ _ Hc Hle). }
  eexists _, _. split; [|split; [exact Hsub|]].
  - unfold finish. rewrite decide_False; [done|].
    intros Hnil. rewrite Hnil in Hsub.
    destruct (indices (b0_by_bval bvals bval_min) true (length bvals)) as [|i l]; [done|].
    specialize (Hsub i ltac:(apply elem_of_cons; by left)). by apply elem_of_nil in Hsub.
  - intros i [Hi Hc]%elem_of_indices. apply elem_of_indices. split; [done|].
    unfold b0_by_bval in *. destruct (bvals !! i) as [b|]; [|done].
    cbn in *. injection Hc as Hc.
    destruct (PrimFloat.ltb b bval_min) eqn:Hlt; [|done].
    by rewrite (ltb_leb_trans _ _ _ Hlt Hle) in Hc.
Qed.

Lemma identify_b0_threshold_monotone_witness :
  ∃ index_b0' index_dwi',
    (identify_b0 demo_bvals "bvecs" "bvals" 100%float 1%Z w0).1
    = Return (index_b0', index_dwi', length index_b0', length index_dwi') ∧
    [0; 4] ⊆ index_b0' ∧ index_dwi' ⊆ [1; 2; 3].
Proof.
  apply (identify_b0_threshold_monotone demo_bvals "bvecs" "bvals" 7%float 100%float 1%Z w0
           [0; 4] [1; 2; 3] 2 3).
  - discriminate.
  - reflexivity.
  - reflexivity.
Defined.

(** X11. With b-values, a threshold that is not a number ([-bvalmin nan],
    which [float] accepts and line 136 takes for true) is above no b-value:
    when the reader returns, [identify_b0] exits with the status 2. *)
Theorem identify_b0_nan_threshold {frame : Type} (P : platform frame)
    (fname_bvecs fname_bvals : string) (bval_min : float) (verbose : Z) (w : world frame)
    (bvals : list float) (bvecs : list (list float)) :
  fname_bvals ≠ "" →
  read_bvals_bvecs P fname_bvals fname_bvecs = inr (bvals, bvecs) →
  PrimFloat.is_nan bval_min = true →
  Py.truthy_float bval_min = true ∧
  (identify_b0 P fname_bvecs fname_bvals bval_min verbose w).1 = Exit 2.
Proof.
  intros Hne Hread Hnan. split.
  - unfold Py.truthy_float. by rewrite eqb_nan.
  - rewrite (identify_b0_bvals P _ _ _ _ bvals bvecs) by done. cbn [fst].
    assert (indices (b0_by_bval bvals bval_min) true (length bvals) = []) as ->; [|done].
    destruct (indices _ true _) as [|i l] eqn:Heq; [done|]. exfalso.
    assert (i ∈ indices (b0_by_bval bvals bval_min) true (length bvals)) as Hin
      by (rewrite Heq; apply elem_of_cons; by left).
    apply elem_of_indices in Hin as [Hi Hc].
    unfold b0_by_bval in Hc. destruct (bvals !! i) as [b|]; [|done].
    cbn in Hc. by rewrite ltb_nan in Hc.
Qed.

Lemma identify_b0_nan_threshold_witness :
  Py.truthy_float nan = true ∧
  (identify_b0 demo_bvals "bvecs" "bvals" nan 1%Z w0).1 = Exit 2.
Proof.
  apply (identify_b0_nan_threshold demo_bvals "bvecs" "bvals" nan 1%Z w0
           [5; 10; 800; 900; 0]%float five_frames).
  - discriminate.
  - reflexivity.
  - reflexivity.
Defined.

(** X12. Without [-bval] (or with an empty one), [-bvalmin] has no effect:
    the run of [main] is the run without the option, since [identify_b0]
    reads its threshold only in the branch of the b-values. *)
Theorem bvalmin_unused_without_bval {frame : Type} (P : platform frame) (cmd : cmdline)
    (w : world frame) :
  default "" (opt_bval cmd) = "" →
  main P cmd w = main P (without_bvalmin cmd) w.
Proof.
  destruct cmd as [i bvec a bval bvalmin ofolder r v]. cbn [opt_bval]. intros Hbval.
  unfold main, without_bvalmin, get_parser.
  cbn [opt_i opt_bvec opt_a opt_bval opt_bvalmin opt_ofolder opt_r opt_v].
  rewrite Hbval.
  destruct a as [a|], r as [r|], v as [v|]; repeat case_decide;
    repeat (rewrite !bind_unfold; cbn -[identify_b0 main_outputs update_bval_min]);
    done.
Qed.

(** The command line of the examples with [-bvalmin 7] and no [-bval]. *)
Lemma bvalmin_unused_without_bval_witness :
  main (demo five_frames None [10; 11; 12; 13; 14])
    {| opt_i := "dmri.nii.gz"; opt_bvec := "bvecs"; opt_a := None;
       opt_bval := None; opt_bvalmin := Some 7%float;
       opt_ofolder := None; opt_r := None; opt_v := None |} w0
  = main (demo five_frames None [10; 11; 12; 13; 14])
      (without_bvalmin
         {| opt_i := "dmri.nii.gz"; opt_bvec := "bvecs"; opt_a := None;
            opt_bval := None; opt_bvalmin := Some 7%float;
            opt_ofolder := None; opt_r := None; opt_v := None |}) w0.
Proof. apply bvalmin_unused_without_bval. reflexivity. Defined.

(** ** More on the names of the frames *)

(** X13. The names that lines 199 and 210 give to the frames of a list
    without repetition are without repetition, also from the index 10000 on,
    where [zfill(4)] pads no more; and a name of frame is never the name of
    a merged file or of a mean file. *)
Theorem frame_names_distinct (index : list nat) (file_data : string) :
  NoDup index →
  NoDup (frame_file <$> index) ∧
  (((file_data +:+ "_b0") +:+ ext) ∉ (frame_file <$> index)) ∧
  (((file_data +:+ "_dwi") +:+ ext) ∉ (frame_file <$> index)) ∧
  ((((file_data +:+ "_b0") +:+ "_mean") +:+ ext) ∉ (frame_file <$> index)) ∧
  (((file_data +:+ "_dwi") +:+ "_mean") +:+ ext) ∉ (frame_file <$> index).
Proof.
  intros Hindex. split; [by apply (NoDup_fmap_2 frame_file)|].
  assert (∀ s t c, ¬ digit c → (String.length t < 4)%nat →
            ((s +:+ String c t) +:+ ext) ∉ (frame_file <$> index)) as Hnot.
  { intros s t c Hc Ht (idx & Heq & _)%list_elem_of_fmap.
    by apply (not_frame_file s t c idx). }
  assert (∀ s : string, s +:+ "_mean" = (s +:+ "_mea") +:+ String "n" "") as Hmean.
  { intros s. apply chars_inj. rewrite !chars_app. cbn. by rewrite <- !app_assoc. }
  repeat split.
  - apply (Hnot file_data "b0" "_"%char); [apply letter_not_digit; by left|cbn; lia].
  - apply (Hnot file_data "dwi" "_"%char); [apply letter_not_digit; by left|cbn; lia].
  - rewrite (Hmean (file_data +:+ "_b0")).
    apply (Hnot _ "" "n"%char); [apply letter_not_digit; by right|cbn; lia].
  - rewrite (Hmean (file_data +:+ "_dwi")).
    apply (Hnot _ "" "n"%char); [apply letter_not_digit; by right|cbn; lia].
Qed.

Lemma frame_names_distinct_witness :
  NoDup (frame_file <$> [0; 7; 12]) ∧
  ((("dmri_T0001" +:+ "_b0") +:+ ext) ∉ (frame_file <$> [0; 7; 12])) ∧
  ((("dmri_T0001" +:+ "_dwi") +:+ ext) ∉ (frame_file <$> [0; 7; 12])) ∧
  (((("dmri_T0001" +:+ "_b0") +:+ "_mean") +:+ ext) ∉ (frame_file <$> [0; 7; 12])) ∧
  ((("dmri_T0001" +:+ "_dwi") +:+ "_mean") +:+ ext) ∉ (frame_file <$> [0; 7; 12]).
Proof.
  apply (frame_names_distinct [0; 7; 12] "dmri_T0001").
  repeat (apply NoDup_cons; split;
          [intros H; repeat (apply elem_of_cons in H as [H|H]; [discriminate H|]);
           by apply elem_of_nil in H|]).
  apply NoDup_nil_2.
Defined.

(** ** More on the whole run: failures and what is written *)

Section Failures.

Context {frame : Type} (P : platform frame).

Lemma pure_call_ret {A : Type} (a : A) : pure_call (frame:=frame) (mret a).
Proof. intros w. left. by exists a. Qed.

Lemma pure_call_bind {A B : Type} (m : M frame A) (k : A → M frame B) :
  pure_call m → (∀ a, pure_call (k a)) → pure_call (m ≫= k).
Proof.
  intros Hm Hk w. rewrite bind_unfold.
  destruct (Hm w) as [[a ->]|[e ->]]; [apply Hk|right; by exists e].
Qed.

Lemma pure_call_item {A : Type} (l : list A) (i : nat) : pure_call (frame:=frame) (item l i).
Proof.
  intros w. unfold item. destruct (l !! i) as [x|]; [left; by exists x|right; by exists IndexError].
Qed.

Lemma pure_call_Image (name : string) : pure_call (frame:=frame) (Image name).
Proof.
  intros w. unfold Image.
  destruct (tmp_files w !! name) as [data|]; [left; by exists data|right; by exists IOError].
Qed.

Lemma pure_call_for_in {A S : Type} (xs : list A) (body : A → S → M frame S) (s : S) :
  (∀ x s', pure_call (body x s')) → pure_call (for_in xs body s).
Proof.
  intros Hbody. revert s. induction xs as [|x xs IH]; intros s; [apply pure_call_ret|].
  cbn [for_in]. apply pure_call_bind; [apply Hbody|apply IH].
Qed.

Lemma pure_call_concat_data (l : list string) : pure_call (frame:=frame) (concat_data l).
Proof.
  induction l as [|fname l IH]; [apply pure_call_ret|].
  cbn [concat_data]. apply pure_call_bind; [apply pure_call_Image|intros data].
  apply pure_call_bind; [apply IH|intros rest]. apply pure_call_ret.
Qed.

(** Lines 197-200: an exception before anything is saved, or the file of
    the class saved. *)
Lemma merge_cases (index : list nat) (nb : nat) (name : string) (w : world frame) :
  (∃ e, merge index nb name w = (Raise e, w)) ∨
  (∃ out, merge index nb name w
          = (Return tt,
             World (printed w) (<[name := out]> (tmp_files w)) (out_files w) (tmp_removed w))).
Proof.
  unfold merge. rewrite bind_unfold.
  match goal with |- context [for_in ?xs ?body ?s w] =>
    destruct (pure_call_for_in xs body s) with (w := w) as [[l ->]|[e ->]]
  end.
  - intros it l. apply pure_call_bind; [apply pure_call_item|intros idx; apply pure_call_ret].
  - rewrite bind_unfold.
    destruct (pure_call_concat_data l w) as [[out ->]|[e ->]]; [right; by exists out|left; by exists e].
  - left. by exists e.
Qed.

(** Lines 188-242: the end of [main] raises before any output file is
    written and before the temporary folder is removed, or it returns the
    four names and has written the output files. *)
Lemma main_outputs_cases (file_data ext_data path_out : string) (average : Z)
    (remove_temp_files : Py.value) (data : list frame) (index_b0 index_dwi : list nat)
    (nb_b0 nb_dwi : nat) (w : world frame) :
  let fname_b0 := abspath P (path_join P path_out ((file_data +:+ "_b0") +:+ ext_data)) in
  let fname_dwi := abspath P (path_join P path_out ((file_data +:+ "_dwi") +:+ ext_data)) in
  let fname_b0_mean :=
    abspath P (path_join P path_out (((file_data +:+ "_b0") +:+ "_mean") +:+ ext_data)) in
  let fname_dwi_mean :=
    abspath P (path_join P path_out (((file_data +:+ "_dwi") +:+ "_mean") +:+ ext_data)) in
  (∃ e t,
     main_outputs P file_data ext_data path_out average remove_temp_files data
       index_b0 index_dwi nb_b0 nb_dwi w
     = (Raise e, World (printed w) t (out_files w) (tmp_removed w))) ∨
  (∃ b0 dwi t,
     main_outputs P file_data ext_data path_out average remove_temp_files data
       index_b0 index_dwi nb_b0 nb_dwi w
     = (Return (fname_b0, fname_b0_mean, fname_dwi, fname_dwi_mean),
        World (printed w) t
          (outputs P average fname_b0 fname_b0_mean fname_dwi fname_dwi_mean b0 dwi (out_files w))
          (if eq_int remove_temp_files 1 then true else tmp_removed w))).
Proof.
  intros fname_b0 fname_dwi fname_b0_mean fname_dwi_mean.
  assert (match main_outputs P file_data ext_data path_out average remove_temp_files data
                  index_b0 index_dwi nb_b0 nb_dwi w with
          | (Raise e, w') => ∃ t, w' = World (printed w) t (out_files w) (tmp_removed w)
          | (Return names, w') =>
              names = (fname_b0, fname_b0_mean, fname_dwi, fname_dwi_mean) ∧
              ∃ b0 dwi t,
                w' = World (printed w) t
                       (outputs P average fname_b0 fname_b0_mean fname_dwi fname_dwi_mean
                          b0 dwi (out_files w))
                       (if eq_int remove_temp_files 1 then true else tmp_removed w)
          | (Exit _, _) => False
          end) as Hcases.
  2: { destruct (main_outputs _ _ _ _ _ _ _ _ _ _ _ _) as [[names|s|e] w'].
       - destruct Hcases as (-> & b0 & dwi & t & ->). right. by exists b0, dwi, t.
       - done.
       - destruct Hcases as (t & ->). left. by exists e, t. }
  unfold main_outputs, outputs. cbv zeta.
  fold fname_b0 fname_dwi fname_b0_mean fname_dwi_mean.
  destruct (split_save data w) as (t & Hsplit & _).
  rewrite bind_unfold, Hsplit. cbv beta iota.
  rewrite bind_unfold.
  match goal with |- context [merge index_b0 nb_b0 ?name ?w1] =>
    destruct (merge_cases index_b0 nb_b0 name w1) as [[e ->]|[b0 ->]]
  end; [by exists t|].
  cbv beta iota. cbn [printed tmp_files out_files tmp_removed].
  destruct (decide (average = 0%Z)) as [->|Havg].
  - cbn [Z.eqb negb]. rewrite bind_unfold, mret_unfold. cbv beta iota.
    rewrite bind_unfold.
    match goal with |- context [merge index_dwi nb_dwi ?name ?w1] =>
      destruct (merge_cases index_dwi nb_dwi name w1) as [[e ->]|[dwi ->]]
    end; [by eexists|].
    cbv beta iota. cbn [printed tmp_files out_files tmp_removed].
    rewrite bind_unfold, mret_unfold. cbv beta iota.
    rewrite bind_unfold. unfold generate_output_file at 1. rewrite bind_unfold.
    rewrite (Image_Some _ b0)
      by (cbn; rewrite lookup_insert_ne by names_differ; apply lookup_insert_eq).
    cbv beta iota. unfold write_output at 1. cbv beta iota.
    cbn [printed tmp_files out_files tmp_removed].
    rewrite bind_unfold. unfold generate_output_file at 1. rewrite bind_unfold.
    rewrite (Image_Some _ dwi) by (cbn; apply lookup_insert_eq).
    cbv beta iota. unfold write_output at 1. cbv beta iota.
    cbn [printed tmp_files out_files tmp_removed].
    rewrite bind_unfold, mret_unfold. cbv beta iota.
    rewrite bind_unfold.
    destruct (eq_int remove_temp_files 1); cbn; (split; [done|]); by eexists b0, dwi, _.
  - replace (negb (Z.eqb average 0)) with true
      by (symmetry; apply negb_true_iff, Z.eqb_neq; done).
    rewrite bind_unfold. unfold sct_maths_mean_t at 1. rewrite bind_unfold.
    rewrite (Image_Some _ b0) by (cbn; apply lookup_insert_eq).
    cbv beta iota. unfold save at 1. cbv beta iota.
    cbn [printed tmp_files out_files tmp_removed].
    rewrite bind_unfold.
    match goal with |- context [merge index_dwi nb_dwi ?name ?w1] =>
      destruct (merge_cases index_dwi nb_dwi name w1) as [[e ->]|[dwi ->]]
    end; [by eexists|].
    cbv beta iota. cbn [printed tmp_files out_files tmp_removed].
    rewrite bind_unfold. unfold sct_maths_mean_t at 1. rewrite bind_unfold.
    rewrite (Image_Some _ dwi) by (cbn; apply lookup_insert_eq).
    cbv beta iota. unfold save at 1. cbv beta iota.
    cbn [printed tmp_files out_files tmp_removed].
    rewrite bind_unfold. unfold generate_output_file at 1. rewrite bind_unfold.
    rewrite (Image_Some _ b0)
      by (cbn; do 3 (rewrite lookup_insert_ne by names_differ); apply lookup_insert_eq).
    cbv beta iota. unfold write_output at 1. cbv beta iota.
    cbn [printed tmp_files out_files tmp_removed].
    rewrite bind_unfold. unfold generate_output_file at 1. rewrite bind_unfold.
    rewrite (Image_Some _ dwi)
      by (cbn; rewrite lookup_insert_ne by names_differ; apply lookup_insert_eq).
    cbv beta iota. unfold write_output at 1. cbv beta iota.
    cbn [printed tmp_files out_files tmp_removed].
    rewrite bind_unfold, bind_unfold. unfold generate_output_file at 1. rewrite bind_unfold.
    rewrite (Image_Some _ [mean_t P b0])
      by (cbn; do 2 (rewrite lookup_insert_ne by names_differ); apply lookup_insert_eq).
    cbv beta iota. unfold write_output at 1. cbv beta iota.
    cbn [printed tmp_files out_files tmp_removed].
    unfold generate_output_file at 1. rewrite bind_unfold.
    rewrite (Image_Some _ [mean_t P dwi]) by (cbn; apply lookup_insert_eq).
    cbv beta iota. unfold write_output at 1. cbv beta iota.
    cbn [printed tmp_files out_files tmp_removed].
    rewrite bind_unfold.
    destruct (eq_int remove_temp_files 1); cbn; (split; [done|]); by eexists b0, dwi, _.
Qed.

Lemma get_parser_world (cmd : cmdline) (w : world frame) : (get_parser cmd w).2 = w.
Proof.
  unfold get_parser. destruct cmd as [i bvec a bval bvalmin ofolder r v].
  cbn [opt_a opt_r opt_v].
  by destruct a as [a|], r as [r|], v as [v|]; repeat case_decide.
Qed.

Lemma int_world (x : Py.value) (w : world frame) : (int x w).2 = w.
Proof.
  unfold int. destruct x as [z|s]; [done|].
  destruct (NilEmpty.uint_of_string s); [|done]. by case_decide.
Qed.

(** Lines 117-186: [main] ends before line 188 without a change of the
    output files and of the temporary folder, or it goes on with the end of
    lines 188-242 from a world with the same output files. *)
Lemma main_until_outputs (cmd : cmdline) (w : world frame) :
  ((∀ names, (main P cmd w).1 ≠ Return names) ∧
   out_files (main P cmd w).2 = out_files w ∧
   tmp_removed (main P cmd w).2 = tmp_removed w) ∨
  (∃ arguments file_data ext_data data index_b0 index_dwi nb_b0 nb_dwi w1,
     get_parser cmd w = (Return arguments, w) ∧
     out_files w1 = out_files w ∧ tmp_removed w1 = tmp_removed w ∧
     main P cmd w
     = main_outputs P file_data ext_data (Args.ofolder arguments) (Args.a arguments)
         (Args.r arguments) data index_b0 index_dwi nb_b0 nb_dwi w1).
Proof.
  unfold main. rewrite bind_unfold.
  pose proof (get_parser_world cmd w) as Hw.
  destruct (get_parser cmd w) as [[arguments|s|e] w1]; cbn in Hw; subst w1;
    [|by left..].
  rewrite bind_unfold.
  pose proof (int_world (Args.v arguments) w) as Hw.
  destruct (int (Args.v arguments) w) as [[verbose|s|e] w1]; cbn in Hw; subst w1;
    [|by left..].
  cbv zeta.
  destruct (extract_fname P (abspath P (Args.i arguments))) as [[path_data file_data] ext_data].
  rewrite bind_unfold.
  match goal with |- context [match ?m w with _ => _ end] =>
    assert (∃ w1, m w = (Return tt, w1) ∧ out_files w1 = out_files w ∧
                  tmp_removed w1 = tmp_removed w) as (w1 & -> & Hout & Hrm)
      by (destruct (read_image P _); by eexists)
  end.
  rewrite bind_unfold.
  destruct (pure_call_Image (dmri_name +:+ ext) w1) as [[data ->]|[e ->]]; [|by left].
  rewrite bind_unfold.
  match goal with |- context [identify_b0 P ?fb ?fv ?thr ?v w1] =>
    destruct (identify_b0_ends P fb fv thr v w1)
      as (before & _ & _ & [(e & ->)|(c & n & _ & _ & ->)])
  end; [by left|].
  unfold finish. case_decide; [by left|].
  right. eexists arguments, file_data, ext_data, data, _, _, _, _, _.
  split; [done|]. split; [|split; [|reflexivity]]; done.
Qed.

End Failures.

(** X16. A run of [main] that does not return (an exit of the parser or of
    [identify_b0], an exception of a reader, of the conversion or of the
    assembly of a class) has written no output file and has not removed the
    temporary folder: the output files are written after both classes are
    assembled, and nothing undoes the temporary folder on the way out. *)
Theorem main_failure_keeps_outputs {frame : Type} (P : platform frame) (cmd : cmdline)
    (w : world frame) :
  (∀ names, (main P cmd w).1 ≠ Return names) →
  out_files (main P cmd w).2 = out_files w ∧
  tmp_removed (main P cmd w).2 = tmp_removed w.
Proof.
  intros Hfail.
  destruct (main_until_outputs P cmd w)
    as [(_ & Hout & Hrm)
       |(arguments & file_data & ext_data & data & index_b0 & index_dwi & nb_b0 & nb_dwi & w1
         & _ & Hout & Hrm & Hmain)]; [done|].
  rewrite Hmain in *.
  destruct (main_outputs_cases P file_data ext_data (Args.ofolder arguments)
              (Args.a arguments) (Args.r arguments) data index_b0 index_dwi nb_b0 nb_dwi w1)
    as [(e & t & Hrun)|(b0 & dwi & t & Hrun)]; rewrite Hrun in *.
  - done.
  - exfalso. by eapply Hfail.
Qed.

Lemma main_failure_keeps_outputs_witness :
  out_files (main (demo no_b0_frames None [7; 8]) cmd_default w0).2 = out_files w0 ∧
  tmp_removed (main (demo no_b0_frames None [7; 8]) cmd_default w0).2 = tmp_removed w0.
Proof.
  apply main_failure_keeps_outputs.
  intros names Hrun. vm_compute in Hrun. discriminate Hrun.
Defined.

(** X17. A run of [main] that returns four names has written the files of
    the two classes and changed no output file of another name; with [-a 0]
    it has changed no output file but those of the two classes, although it
    returns the names of the two mean files all the same. *)
Theorem main_writes_only {frame : Type} (P : platform frame) (cmd : cmdline)
    (w w' : world frame) (fname_b0 fname_b0_mean fname_dwi fname_dwi_mean : string) :
  main P cmd w = (Return (fname_b0, fname_b0_mean, fname_dwi, fname_dwi_mean), w') →
  is_Some (out_files w' !! fname_b0) ∧
  is_Some (out_files w' !! fname_dwi) ∧
  (∀ name, name ∉ [fname_b0; fname_b0_mean; fname_dwi; fname_dwi_mean] →
     out_files w' !! name = out_files w !! name) ∧
  (opt_a cmd = Some 0%Z →
   ∀ name, name ∉ [fname_b0; fname_dwi] → out_files w' !! name = out_files w !! name).
Proof.
  intros Hrun.
  destruct (main_until_outputs P cmd w)
    as [(Hfail & _)
       |(arguments & file_data & ext_data & data & index_b0 & index_dwi & nb_b0 & nb_dwi & w1
         & Hparse & Hout & Hrm & Hmain)].
  { rewrite Hrun in Hfail. exfalso. by eapply Hfail. }
  rewrite Hmain in Hrun.
  destruct (main_outputs_cases P file_data ext_data (Args.ofolder arguments)
              (Args.a arguments) (Args.r arguments) data index_b0 index_dwi nb_b0 nb_dwi w1)
    as [(e & t & Hcase)|(b0 & dwi & t & Hcase)]; rewrite Hcase in Hrun; [done|].
  injection Hrun as <- <- <- <- <-. cbn [out_files]. rewrite Hout. unfold outputs.
  split_and!.
  - destruct (negb _); rewrite ?lookup_insert_is_Some'; auto 10.
  - destruct (negb _); rewrite ?lookup_insert_is_Some'; auto 10.
  - intros name Hname.
    apply not_elem_of_cons in Hname as [Hn1 Hname].
    apply not_elem_of_cons in Hname as [Hn2 Hname].
    apply not_elem_of_cons in Hname as [Hn3 Hname].
    apply not_elem_of_cons in Hname as [Hn4 _].
    destruct (negb _); by rewrite !lookup_insert_ne by done.
  - intros Ha name Hname.
    apply not_elem_of_cons in Hname as [Hn1 Hname].
    apply not_elem_of_cons in Hname as [Hn2 _].
    pose proof (get_parser_Return cmd w w arguments Hparse) as (_ & _ & _ & _ & _ & _ & Hargs & _).
    rewrite Ha in Hargs. destruct Hargs as [-> _]. cbn [Z.eqb negb].
    by rewrite !lookup_insert_ne by done.
Qed.

(** The table of five frames with [-a 0]. *)
Lemma main_writes_only_witness :
  is_Some (out_files
             (World [Printv msg_identify 1 "normal";
                     Printv "  Number of b=0: 3 [0, 1, 4]" 1 "normal";
                     Printv "  Number of DWI: 2 [2, 3]" 1 "normal"]
                ∅
                (<["./dmri_in_b0.nii.gz" := [10; 11; 14]]>
                   (<["./dmri_in_dwi.nii.gz" := [12; 13]]> ∅))
                true) !! "./dmri_in_b0.nii.gz") ∧
  is_Some (out_files
             (World [Printv msg_identify 1 "normal";
                     Printv "  Number of b=0: 3 [0, 1, 4]" 1 "normal";
                     Printv "  Number of DWI: 2 [2, 3]" 1 "normal"]
                ∅
                (<["./dmri_in_b0.nii.gz" := [10; 11; 14]]>
                   (<["./dmri_in_dwi.nii.gz" := [12; 13]]> ∅))
                true) !! "./dmri_in_dwi.nii.gz") ∧
  (∀ name, name ∉ ["./dmri_in_b0.nii.gz"; "./dmri_in_b0_mean.nii.gz";
                    "./dmri_in_dwi.nii.gz"; "./dmri_in_dwi_mean.nii.gz"] →
     out_files
       (World [Printv msg_identify 1 "normal";
               Printv "  Number of b=0: 3 [0, 1, 4]" 1 "normal";
               Printv "  Number of DWI: 2 [2, 3]" 1 "normal"]
          ∅
          (<["./dmri_in_b0.nii.gz" := [10; 11; 14]]>
             (<["./dmri_in_dwi.nii.gz" := [12; 13]]> ∅))
          true) !! name = out_files w0 !! name) ∧
  (Some 0%Z = Some 0%Z →
   ∀ name, name ∉ ["./dmri_in_b0.nii.gz"; "./dmri_in_dwi.nii.gz"] →
     out_files
       (World [Printv msg_identify 1 "normal";
               Printv "  Number of b=0: 3 [0, 1, 4]" 1 "normal";
               Printv "  Number of DWI: 2 [2, 3]" 1 "normal"]
          ∅
          (<["./dmri_in_b0.nii.gz" := [10; 11; 14]]>
             (<["./dmri_in_dwi.nii.gz" := [12; 13]]> ∅))
          true) !! name = out_files w0 !! name).
Proof.
  apply (main_writes_only (demo five_frames None [10; 11; 12; 13; 14])
           {| opt_i := "dmri.nii.gz"; opt_bvec := "bvecs"; opt_a := Some 0%Z;
              opt_bval := None; opt_bvalmin := None; opt_ofolder := None;
              opt_r := None; opt_v := None |} w0).
  by vm_compute.
Defined.

(** X18. A value of [-a], [-r] or [-v] that is not among the choices of
    the option ends [main] with the exit status 2 of the parser, before any
    message, conversion or file. *)
Theorem main_rejects_choice {frame : Type} (P : platform frame) (cmd : cmdline)
    (w : world frame) :
  (∃ z, opt_a cmd = Some z ∧ z ∉ [0; 1]%Z) ∨
  (∃ s, opt_r cmd = Some s ∧ s ∉ ["0"; "1"]) ∨
  (∃ s, opt_v cmd = Some s ∧ s ∉ ["0"; "1"]) →
  main P cmd w = (Exit 2, w).
Proof.
  intros Hbad.
  assert (get_parser cmd w = (Exit 2, w)) as Hparse.
  { unfold get_parser. destruct cmd as [i bvec a bval bvalmin ofolder r v].
    cbn [opt_a opt_r opt_v] in *.
    destruct Hbad as [(z & -> & Hz)|[(s & -> & Hs)|(s & -> & Hs)]].
    - by rewrite decide_False.
    - destruct a as [a|]; repeat case_decide; done.
    - destruct a as [a|], r as [r|]; repeat case_decide; done. }
  unfold main. by rewrite bind_unfold, Hparse.
Qed.

Lemma main_rejects_choice_witness :
  main (demo five_frames None [10; 11; 12; 13; 14])
    {| opt_i := "dmri.nii.gz"; opt_bvec := "bvecs"; opt_a := None;
       opt_bval := None; opt_bvalmin := None; opt_ofolder := None;
       opt_r := None; opt_v := Some "2" |} w0
  = (Exit 2, w0).
Proof.
  apply main_rejects_choice. right. right. exists "2". split; [reflexivity|].
  intros H. repeat (apply elem_of_cons in H as [H|H]; [discriminate H|]).
  by apply elem_of_nil in H.
Defined.

(** ** More on the options *)

(** X20. When the parser accepts the options, [int(arguments.v)] of line
    130 returns without exception: 0 for [-v 0], and 1 for [-v 1] as for an
    absent [-v], whose default is the integer 1 and not a string. *)
Theorem verbose_of_options {frame : Type} (cmd : cmdline) (w w' : world frame)
    (arguments : Args.t) :
  get_parser cmd w = (Return arguments, w') →
  ∀ w1 : world frame,
    int (Args.v arguments) w1
    = (Return (if decide (opt_v cmd = Some "0") then 0%Z else 1%Z), w1).
Proof.
  intros (_ & _ & _ & _ & _ & _ & _ & _ & Hv)%get_parser_Return w1.
  destruct (opt_v cmd) as [s|].
  - destruct Hv as [-> [-> | ->]]; by case_decide.
  - rewrite Hv. by case_decide.
Qed.

Lemma verbose_of_options_witness :
  int (Args.v {| Args.i := "dmri.nii.gz"; Args.bvec := "bvecs"; Args.a := 1;
                 Args.bval := ""; Args.bvalmin := None; Args.ofolder := "./";
                 Args.r := Int 1; Args.v := Str "0" |}) w0
  = (Return (if decide (Some "0" = Some "0") then 0%Z else 1%Z), w0).
Proof.
  apply (verbose_of_options
           {| opt_i := "dmri.nii.gz"; opt_bvec := "bvecs"; opt_a := None;
              opt_bval := None; opt_bvalmin := None; opt_ofolder := None;
              opt_r := None; opt_v := Some "0" |} w0 w0).
  reflexivity.
Defined.

(** ** The whole run: the table and the volume *)

(** The frames at the indices of a list. *)
Lemma Forall2_lookup_omap {A : Type} (data : list A) (index : list nat) (out : list A) :
  Forall2 (λ idx fr, data !! idx = Some fr) index out →
  omap (λ idx, data !! idx) index = out.
Proof. induction 1 as [|idx fr index out Hfr _ IH]; [done|]. cbn. by rewrite Hfr, IH. Qed.

Lemma omap_lookup_seq {A : Type} (data : list A) (j n : nat) :
  omap (λ idx, data !! idx) (seq j n) = take n (drop j data).
Proof.
  revert j. induction n as [|n IH]; intros j; [done|].
  cbn [seq omap list_omap]. rewrite IH.
  destruct (data !! j) as [x|] eqn:Hj.
  - by rewrite (drop_S _ _ _ Hj).
  - apply lookup_ge_None in Hj. rewrite !drop_ge by lia. by rewrite !take_nil.
Qed.

(** A run of [main] that returns has changed no output file but those of
    the names that it returns. *)
Lemma main_other_outputs {frame : Type} (P : platform frame) (cmd : cmdline)
    (w w' : world frame) (fname_b0 fname_b0_mean fname_dwi fname_dwi_mean : string) :
  main P cmd w = (Return (fname_b0, fname_b0_mean, fname_dwi, fname_dwi_mean), w') →
  ∀ name, name ∉ [fname_b0; fname_b0_mean; fname_dwi; fname_dwi_mean] →
    out_files w' !! name = out_files w !! name.
Proof.
  intros Hrun.
  destruct (main_until_outputs P cmd w)
    as [(Hfail & _)
       |(arguments & file_data & ext_data & data & index_b0 & index_dwi & nb_b0 & nb_dwi & w1
         & Hparse & Hout & Hrm & Hmain)].
  { rewrite Hrun in Hfail. exfalso. by eapply Hfail. }
  rewrite Hmain in Hrun.
  destruct (main_outputs_cases P file_data ext_data (Args.ofolder arguments)
              (Args.a arguments) (Args.r arguments) data index_b0 index_dwi nb_b0 nb_dwi w1)
    as [(e & t & Hcase)|(b0 & dwi & t & Hcase)]; rewrite Hcase in Hrun; [done|].
  injection Hrun as <- <- <- <- <-. cbn [out_files]. rewrite Hout. unfold outputs.
  intros name Hname.
  apply not_elem_of_cons in Hname as [Hn1 Hname].
  apply not_elem_of_cons in Hname as [Hn2 Hname].
  apply not_elem_of_cons in Hname as [Hn3 Hname].
  apply not_elem_of_cons in Hname as [Hn4 _].
  destruct (negb _); by rewrite !lookup_insert_ne by done.
Qed.

(** The run of [main] on a table of [N] frames and a volume of at least
    [N] frames, from the test [c] that the table gives on each frame. *)
Lemma main_assembles {frame : Type} (P : platform frame) (cmd : cmdline) (w : world frame)
    (arguments : Args.t) (data : list frame) (N : nat) :
  let file_data := (extract_fname P (abspath P (Args.i arguments))).1.2 in
  let ext_data := (extract_fname P (abspath P (Args.i arguments))).2 in
  let path_out := Args.ofolder arguments in
  let fname_b0 := abspath P (path_join P path_out ((file_data +:+ "_b0") +:+ ext_data)) in
  let fname_dwi := abspath P (path_join P path_out ((file_data +:+ "_dwi") +:+ ext_data)) in
  let fname_b0_mean :=
    abspath P (path_join P path_out (((file_data +:+ "_b0") +:+ "_mean") +:+ ext_data)) in
  let fname_dwi_mean :=
    abspath P (path_join P path_out (((file_data +:+ "_dwi") +:+ "_mean") +:+ ext_data)) in
  get_parser cmd w = (Return arguments, w) →
  read_image P (abspath P (Args.i arguments)) = Some data →
  well_formed P (abspath P (Args.bvec arguments)) (fname_bvals_of P arguments) N →
  (N ≤ length data)%nat →
  NoDup [fname_b0; fname_dwi; fname_b0_mean; fname_dwi_mean] →
  ∃ c,
    classification P (abspath P (Args.bvec arguments)) (fname_bvals_of P arguments)
      (Param.bval_min (update_bval_min Param.init arguments)) c N ∧
    total c N ∧
    (indices c true N = [] → (main P cmd w).1 = Exit 2) ∧
    (indices c true N ≠ [] →
       ∃ b0 dwi,
         (main P cmd w).1 = Return (fname_b0, fname_b0_mean, fname_dwi, fname_dwi_mean) ∧
         out_files (main P cmd w).2 !! fname_b0 = Some b0 ∧
         out_files (main P cmd w).2 !! fname_dwi = Some dwi ∧
         Forall2 (λ idx fr, data !! idx = Some fr) (indices c true N) b0 ∧
         Forall2 (λ idx fr, data !! idx = Some fr) (indices c false N) dwi ∧
         (Args.a arguments ≠ 0%Z →
            out_files (main P cmd w).2 !! fname_b0_mean = Some [mean_t P b0] ∧
            out_files (main P cmd w).2 !! fname_dwi_mean = Some [mean_t P dwi])).
Proof.
  intros file_data ext_data path_out fname_b0 fname_dwi fname_b0_mean fname_dwi_mean
    Hparse Himage Hwf HN Hnames.
  destruct (well_formed_classification P _ _
              (Param.bval_min (update_bval_min Param.init arguments)) _ Hwf) as (c & Hc & Ht).
  exists c. split; [done|]. split; [done|].
  destruct (main_classify P cmd w arguments data Hparse Himage) as (verbose & _ & ->).
  destruct (identify_b0_run P _ _ _ verbose (converted data w) c _ Hc Ht)
    as (before & _ & Hrun).
  rewrite bind_unfold, Hrun. unfold finish. split.
  - intros Hb0. by rewrite decide_True.
  - intros Hb0. rewrite decide_False by done. cbv beta iota.
    match goal with |- context [main_outputs _ _ _ _ _ _ _ _ _ _ _ ?w1] =>
      destruct (main_outputs_files P file_data ext_data path_out (Args.a arguments)
                  (Args.r arguments) data (indices c true N) (indices c false N) w1)
        as (w' & b0 & dwi & Hout & Hb0_frames & Hdwi_frames & Hf_b0 & Hf_dwi & Hmeans & _)
    end.
    + apply Forall_forall. intros idx [? _]%elem_of_indices. lia.
    + apply Forall_forall. intros idx [? _]%elem_of_indices. lia.
    + done.
    + exists b0, dwi. fold file_data ext_data path_out. rewrite Hout. done.
Qed.

(** X14. For accepted options, a converted volume of N frames and a
    well-formed table of N frames, classifier and assembly together.  The
    two lists are the indices below N on which the test of the table (the
    norm of the gradient below 0.01, or the b-value below the threshold)
    gives b=0 and those on which it does not: ascending lists that
    partition 0..N-1.  The run exits with the status 2 when the first is
    empty; otherwise it returns the names of the output files, and the
    output files of the two classes hold the frames of the volume at the
    indices of the two lists, in their order. *)
Theorem main_separates {frame : Type} (P : platform frame) (cmd : cmdline) (w : world frame)
    (arguments : Args.t) (data : list frame) :
  let file_data := (extract_fname P (abspath P (Args.i arguments))).1.2 in
  let ext_data := (extract_fname P (abspath P (Args.i arguments))).2 in
  let path_out := Args.ofolder arguments in
  let fname_b0 := abspath P (path_join P path_out ((file_data +:+ "_b0") +:+ ext_data)) in
  let fname_dwi := abspath P (path_join P path_out ((file_data +:+ "_dwi") +:+ ext_data)) in
  let fname_b0_mean :=
    abspath P (path_join P path_out (((file_data +:+ "_b0") +:+ "_mean") +:+ ext_data)) in
  let fname_dwi_mean :=
    abspath P (path_join P path_out (((file_data +:+ "_dwi") +:+ "_mean") +:+ ext_data)) in
  get_parser cmd w = (Return arguments, w) →
  read_image P (abspath P (Args.i arguments)) = Some data →
  well_formed P (abspath P (Args.bvec arguments)) (fname_bvals_of P arguments) (length data) →
  NoDup [fname_b0; fname_dwi; fname_b0_mean; fname_dwi_mean] →
  ∃ c,
    classification P (abspath P (Args.bvec arguments)) (fname_bvals_of P arguments)
      (Param.bval_min (update_bval_min Param.init arguments)) c (length data) ∧
    let index_b0 := indices c true (length data) in
    let index_dwi := indices c false (length data) in
    (∀ i, i ∈ index_b0 ↔ i < length data ∧ c i = inr true) ∧
    (∀ i, i ∈ index_dwi ↔ i < length data ∧ c i = inr false) ∧
    index_b0 ++ index_dwi ≡ₚ seq 0 (length data) ∧
    StronglySorted lt index_b0 ∧ StronglySorted lt index_dwi ∧
    (index_b0 = [] → (main P cmd w).1 = Exit 2) ∧
    (index_b0 ≠ [] →
       ∃ b0 dwi,
         (main P cmd w).1 = Return (fname_b0, fname_b0_mean, fname_dwi, fname_dwi_mean) ∧
         out_files (main P cmd w).2 !! fname_b0 = Some b0 ∧
         out_files (main P cmd w).2 !! fname_dwi = Some dwi ∧
         Forall2 (λ idx fr, data !! idx = Some fr) index_b0 b0 ∧
         Forall2 (λ idx fr, data !! idx = Some fr) index_dwi dwi).
Proof.
  intros file_data ext_data path_out fname_b0 fname_dwi fname_b0_mean fname_dwi_mean
    Hparse Himage Hwf Hnames.
  destruct (main_assembles P cmd w arguments data (length data) Hparse Himage Hwf
              ltac:(lia) Hnames) as (c & Hc & Ht & Hnone & Hsome).
  exists c. split; [done|]. cbv zeta.
  split; [intros i; apply elem_of_indices|].
  split; [intros i; apply elem_of_indices|].
  split; [by apply indices_Permutation|].
  split; [apply indices_sorted|]. split; [apply indices_sorted|].
  split; [done|]. intros Hb0.
  destruct (Hsome Hb0) as (b0 & dwi & Hrun & Hf_b0 & Hf_dwi & Hb0_frames & Hdwi_frames & _).
  by exists b0, dwi.
Qed.

(** The run of the end-to-end scenario. *)
Lemma main_separates_witness :
  let P := demo five_frames None [10; 11; 12; 13; 14] in
  ∃ c,
    classification P "bvecs" "" 100%float c 5 ∧
    let index_b0 := indices c true 5 in
    let index_dwi := indices c false 5 in
    (∀ i, i ∈ index_b0 ↔ i < 5 ∧ c i = inr true) ∧
    (∀ i, i ∈ index_dwi ↔ i < 5 ∧ c i = inr false) ∧
    index_b0 ++ index_dwi ≡ₚ seq 0 5 ∧
    StronglySorted lt index_b0 ∧ StronglySorted lt index_dwi ∧
    (index_b0 = [] → (main P cmd_default w0).1 = Exit 2) ∧
    (index_b0 ≠ [] →
       ∃ b0 dwi,
         (main P cmd_default w0).1
         = Return ("./dmri_in_b0.nii.gz", "./dmri_in_b0_mean.nii.gz",
                   "./dmri_in_dwi.nii.gz", "./dmri_in_dwi_mean.nii.gz") ∧
         out_files (main P cmd_default w0).2 !! "./dmri_in_b0.nii.gz" = Some b0 ∧
         out_files (main P cmd_default w0).2 !! "./dmri_in_dwi.nii.gz" = Some dwi ∧
         Forall2 (λ idx fr, [10; 11; 12; 13; 14] !! idx = Some fr) index_b0 b0 ∧
         Forall2 (λ idx fr, [10; 11; 12; 13; 14] !! idx = Some fr) index_dwi dwi).
Proof.
  apply (main_separates (demo five_frames None [10; 11; 12; 13; 14]) cmd_default w0
           args_default [10; 11; 12; 13; 14]).
  - reflexivity.
  - reflexivity.
  - apply (gradients_only _ _ five_frames 5); [reflexivity|lia| |].
    + left. split; [reflexivity|]. repeat constructor.
    + apply demo_norms_computed, five_frames_01.
  - repeat (apply NoDup_cons; split;
            [intros H; repeat (apply elem_of_cons in H as [H|H]; [discriminate H|]);
             by apply elem_of_nil in H|]).
    apply NoDup_nil_2.
Defined.

(** X15. The number of rows of the table is not compared with the number
    of frames of the volume.  On a well-formed table of [N] frames and a
    volume of more than [N] frames, the run ends as on a volume of [N]
    frames: it exits with the status 2 when the test of the table gives no
    b=0 frame, and otherwise it returns; the files of the two classes hold
    the frames at the indices of their lists, which together are the first
    [N] frames of the volume; the two mean files, when they are written,
    are the means of these two files; and no other output file is changed.
    The frames of the volume from the index [N] on are in no output
    file. *)
Theorem main_short_table {frame : Type} (P : platform frame) (cmd : cmdline) (w : world frame)
    (arguments : Args.t) (data : list frame) (N : nat) :
  let file_data := (extract_fname P (abspath P (Args.i arguments))).1.2 in
  let ext_data := (extract_fname P (abspath P (Args.i arguments))).2 in
  let path_out := Args.ofolder arguments in
  let fname_b0 := abspath P (path_join P path_out ((file_data +:+ "_b0") +:+ ext_data)) in
  let fname_dwi := abspath P (path_join P path_out ((file_data +:+ "_dwi") +:+ ext_data)) in
  let fname_b0_mean :=
    abspath P (path_join P path_out (((file_data +:+ "_b0") +:+ "_mean") +:+ ext_data)) in
  let fname_dwi_mean :=
    abspath P (path_join P path_out (((file_data +:+ "_dwi") +:+ "_mean") +:+ ext_data)) in
  get_parser cmd w = (Return arguments, w) →
  read_image P (abspath P (Args.i arguments)) = Some data →
  well_formed P (abspath P (Args.bvec arguments)) (fname_bvals_of P arguments) N →
  N < length data →
  NoDup [fname_b0; fname_dwi; fname_b0_mean; fname_dwi_mean] →
  ∃ c,
    classification P (abspath P (Args.bvec arguments)) (fname_bvals_of P arguments)
      (Param.bval_min (update_bval_min Param.init arguments)) c N ∧
    (indices c true N = [] → (main P cmd w).1 = Exit 2) ∧
    (indices c true N ≠ [] →
       ∃ b0 dwi,
         (main P cmd w).1 = Return (fname_b0, fname_b0_mean, fname_dwi, fname_dwi_mean) ∧
         out_files (main P cmd w).2 !! fname_b0 = Some b0 ∧
         out_files (main P cmd w).2 !! fname_dwi = Some dwi ∧
         Forall2 (λ idx fr, data !! idx = Some fr) (indices c true N) b0 ∧
         Forall2 (λ idx fr, data !! idx = Some fr) (indices c false N) dwi ∧
         b0 ++ dwi ≡ₚ take N data ∧
         length b0 + length dwi < length data ∧
         (Args.a arguments ≠ 0%Z →
            out_files (main P cmd w).2 !! fname_b0_mean = Some [mean_t P b0] ∧
            out_files (main P cmd w).2 !! fname_dwi_mean = Some [mean_t P dwi]) ∧
         (∀ name, name ∉ [fname_b0; fname_b0_mean; fname_dwi; fname_dwi_mean] →
            out_files (main P cmd w).2 !! name = out_files w !! name)).
Proof.
  intros file_data ext_data path_out fname_b0 fname_dwi fname_b0_mean fname_dwi_mean
    Hparse Himage Hwf HN Hnames.
  destruct (main_assembles P cmd w arguments data N Hparse Himage Hwf ltac:(lia) Hnames)
    as (c & Hc & Ht & Hnone & Hsome).
  exists c. split; [done|]. split; [done|]. intros Hb0.
  destruct (Hsome Hb0)
    as (b0 & dwi & Hrun & Hf_b0 & Hf_dwi & Hb0_frames & Hdwi_frames & Hmeans).
  exists b0, dwi.
  assert (b0 ++ dwi ≡ₚ take N data) as Hframes.
  { rewrite <- (Forall2_lookup_omap data _ b0 Hb0_frames).
    rewrite <- (Forall2_lookup_omap data _ dwi Hdwi_frames).
    rewrite <- omap_app, (indices_Permutation c N Ht), omap_lookup_seq. done. }
  split_and!; try done.
  - rewrite <- length_app, Hframes, length_take. lia.
  - apply (main_other_outputs P cmd w).
    destruct (main P cmd w) as [o w']. cbn in Hrun. by rewrite Hrun.
Qed.

(** The table of five frames and a volume of six. *)
Lemma main_short_table_witness :
  let P := demo five_frames None six_frames in
  ∃ c,
    classification P "bvecs" "" 100%float c 5 ∧
    (indices c true 5 = [] → (main P cmd_default w0).1 = Exit 2) ∧
    (indices c true 5 ≠ [] →
       ∃ b0 dwi,
         (main P cmd_default w0).1
         = Return ("./dmri_in_b0.nii.gz", "./dmri_in_b0_mean.nii.gz",
                   "./dmri_in_dwi.nii.gz", "./dmri_in_dwi_mean.nii.gz") ∧
         out_files (main P cmd_default w0).2 !! "./dmri_in_b0.nii.gz" = Some b0 ∧
         out_files (main P cmd_default w0).2 !! "./dmri_in_dwi.nii.gz" = Some dwi ∧
         Forall2 (λ idx fr, six_frames !! idx = Some fr) (indices c true 5) b0 ∧
         Forall2 (λ idx fr, six_frames !! idx = Some fr) (indices c false 5) dwi ∧
         b0 ++ dwi ≡ₚ take 5 six_frames ∧
         length b0 + length dwi < length six_frames ∧
         (1%Z ≠ 0%Z →
            out_files (main P cmd_default w0).2 !! "./dmri_in_b0_mean.nii.gz"
            = Some [mean_t P b0] ∧
            out_files (main P cmd_default w0).2 !! "./dmri_in_dwi_mean.nii.gz"
            = Some [mean_t P dwi]) ∧
         (∀ name, name ∉ ["./dmri_in_b0.nii.gz"; "./dmri_in_b0_mean.nii.gz";
                           "./dmri_in_dwi.nii.gz"; "./dmri_in_dwi_mean.nii.gz"] →
            out_files (main P cmd_default w0).2 !! name = out_files w0 !! name)).
Proof.
  apply (main_short_table (demo five_frames None six_frames) cmd_default w0 args_default
           six_frames 5).
  - reflexivity.
  - reflexivity.
  - apply (gradients_only _ _ five_frames 5); [reflexivity|lia| |].
    + left. split; [reflexivity|]. repeat constructor.
    + apply demo_norms_computed, five_frames_01.
  - cbn. lia.
  - repeat (apply NoDup_cons; split;
            [intros H; repeat (apply elem_of_cons in H as [H|H]; [discriminate H|]);
             by apply elem_of_nil in H|]).
    apply NoDup_nil_2.
Defined.

(** The run on the table of five frames and the volume of six frames 10 to
    15: the frame 15 is in no output file. *)
Example six_frames_run :
  out_files (main (demo five_frames None six_frames) cmd_default w0).2
  = <["./dmri_in_b0.nii.gz" := [10; 11; 14]]>
      (<["./dmri_in_dwi.nii.gz" := [12; 13]]>
         (<["./dmri_in_b0_mean.nii.gz" := [35]]>
            (<["./dmri_in_dwi_mean.nii.gz" := [25]]> ∅))).
Proof. by vm_compute. Qed.

(** ** The whole run: a table longer than the volume *)

Section Missing.

Context {frame : Type} (P : platform frame).

(** Lines 190-192 write the files of the frames of the volume and no
    other. *)
Lemma split_save_beyond (data : list frame) (w : world frame) :
  ∃ t,
    for_in (split_data dmri_name ext data) (λ im_d _, save im_d.1 im_d.2) tt w
    = (Return tt, World (printed w) t (out_files w) (tmp_removed w)) ∧
    (∀ idx fr, data !! idx = Some fr → t !! frame_file idx = Some [fr]) ∧
    (∀ name, (∀ idx, idx < length data → name ≠ frame_file idx) →
             t !! name = tmp_files w !! name).
Proof.
  induction data as [|fr data (t & Hrun & Hframes & Hothers)] using rev_ind.
  - exists (tmp_files w). split; [by destruct w|]. split; [by intros ? ? ?|done].
  - exists (<[frame_file (length data) := [fr]]> t).
    rewrite split_data_snoc, for_in_app, Hrun. split; [done|]. split.
    + intros idx fr' Hidx. destruct (decide (idx = length data)) as [->|Hne].
      * rewrite list_lookup_middle in Hidx by done. injection Hidx as <-.
        apply lookup_insert_eq.
      * rewrite lookup_insert_ne by (intros ?%(inj frame_file); done).
        apply Hframes. apply lookup_lt_Some in Hidx as Hlt.
        rewrite length_app in Hlt. cbn in Hlt.
        rewrite lookup_app_l in Hidx by lia. done.
    + intros name Hname. rewrite length_app in Hname. cbn in Hname.
      rewrite lookup_insert_ne by (intros Heq; apply (Hname (length data)); [lia|done]).
      apply Hothers. intros idx Hidx. apply Hname. lia.
Qed.

(** [concat_data] on a list with the name of a file that does not exist. *)
Lemma concat_data_missing (l : list string) (name : string) (w : world frame) :
  name ∈ l → tmp_files w !! name = None →
  concat_data l w = (Raise IOError, w).
Proof.
  intros Hin Hname. induction l as [|fname l IH]; [by apply elem_of_nil in Hin|].
  cbn [concat_data]. rewrite bind_unfold. unfold Image at 1.
  destruct (tmp_files w !! fname) as [data|] eqn:Hfname; [|done].
  apply elem_of_cons in Hin as [->|Hin]; [congruence|].
  by rewrite bind_unfold, (IH Hin).
Qed.

Lemma merge_missing (index : list nat) (idx : nat) (name : string) (w : world frame) :
  idx ∈ index → tmp_files w !! frame_file idx = None →
  merge index (length index) name w = (Raise IOError, w).
Proof.
  intros Hin Hidx.
  pose proof (concat_data_missing (map frame_file index) (frame_file idx) w) as Hconcat.
  pose proof (merge_names [] index [] w) as Hnames. cbn [length app] in Hnames.
  unfold merge, range. rewrite bind_unfold, Hnames. cbv beta iota.
  rewrite bind_unfold, Hconcat; [done| |done].
  by apply list_elem_of_fmap_2.
Qed.

(** The end of [main] on lists with an index that has no frame in the
    volume: the split saves the frames of the volume, and the assembly of
    the first class that holds such an index raises. *)
Lemma main_outputs_missing (file_data ext_data path_out : string) (average : Z)
    (remove_temp_files : Py.value) (data : list frame) (index_b0 index_dwi : list nat)
    (idx : nat) (w : world frame) :
  (∀ i, tmp_files w !! frame_file i = None) →
  (length data ≤ idx)%nat →
  idx ∈ index_b0 ++ index_dwi →
  ∃ t,
    main_outputs P file_data ext_data path_out average remove_temp_files data
      index_b0 index_dwi (length index_b0) (length index_dwi) w
    = (Raise IOError, World (printed w) t (out_files w) (tmp_removed w)) ∧
    (∀ i fr, data !! i = Some fr → t !! frame_file i = Some [fr]) ∧
    (∀ i, (length data ≤ i)%nat → t !! frame_file i = None).
Proof.
  intros Hfresh Hidx Hin.
  unfold main_outputs. cbv zeta.
  destruct (split_save_beyond data w) as (t & Hsplit & Hframes & Hothers).
  assert (∀ i, (length data ≤ i)%nat → t !! frame_file i = None) as Ht.
  { intros i Hi. rewrite Hothers; [done|]. intros j Hj Heq%(inj frame_file). lia. }
  rewrite bind_unfold, Hsplit. cbv beta iota.
  assert (∀ i, (file_data +:+ "_b0") +:+ ext ≠ frame_file i) as Hnot_b0.
  { intros i. apply (not_frame_file file_data "b0" "_"); [apply letter_not_digit; by left|cbn; lia]. }
  assert (∀ i, ((file_data +:+ "_b0") +:+ "_mean") +:+ ext ≠ frame_file i) as Hnot_b0_mean.
  { intros i Heq. apply (not_frame_file (file_data +:+ "_b0_mea") "" "n" i);
      [apply letter_not_digit; by right|cbn; lia|].
    rewrite <- Heq. apply chars_inj. rewrite !chars_app. cbn. by rewrite <- !app_assoc. }
  rewrite bind_unfold.
  destruct (decide (Forall (λ i, i < length data) index_b0)) as [Hb0|Hb0].
  - (* the b=0 class is assembled, the DWI class is not *)
    assert (idx ∈ index_dwi) as Hdwi.
    { apply elem_of_app in Hin as [Hin|Hin]; [|done].
      pose proof (proj1 (Forall_forall _ _) Hb0 idx Hin) as Hlt. cbn in Hlt. lia. }
    match goal with |- context [merge index_b0 _ ?name ?w1] =>
      destruct (merge_frames data index_b0 name w1 Hframes Hb0) as (b0 & -> & _)
    end.
    cbv beta iota. cbn [printed tmp_files out_files tmp_removed].
    destruct (negb (Z.eqb average 0)).
    + rewrite bind_unfold. unfold sct_maths_mean_t at 1. rewrite bind_unfold.
      rewrite (Image_Some _ b0) by (cbn; apply lookup_insert_eq).
      cbv beta iota. unfold save at 1. cbv beta iota.
      cbn [printed tmp_files out_files tmp_removed].
      rewrite bind_unfold.
      match goal with |- context [merge index_dwi _ ?name ?w1] =>
        rewrite (merge_missing index_dwi idx name w1 Hdwi)
          by (cbn; rewrite !lookup_insert_ne by done; by apply Ht)
      end.
      eexists. split; [reflexivity|]. split.
      * intros i fr Hi. rewrite !lookup_insert_ne by done. by apply Hframes.
      * intros i Hi. rewrite !lookup_insert_ne by done. by apply Ht.
    + rewrite bind_unfold, mret_unfold. cbv beta iota.
      rewrite bind_unfold.
      match goal with |- context [merge index_dwi _ ?name ?w1] =>
        rewrite (merge_missing index_dwi idx name w1 Hdwi)
          by (cbn; rewrite !lookup_insert_ne by done; by apply Ht)
      end.
      eexists. split; [reflexivity|]. split.
      * intros i fr Hi. rewrite !lookup_insert_ne by done. by apply Hframes.
      * intros i Hi. rewrite !lookup_insert_ne by done. by apply Ht.
  - (* the b=0 class is not assembled *)
    apply not_Forall_Exists in Hb0; [|apply _].
    apply Exists_exists in Hb0 as (idx' & Hin' & Hidx'). cbn in Hidx'.
    match goal with |- context [merge index_b0 _ ?name ?w1] =>
      rewrite (merge_missing index_b0 idx' name w1 Hin') by (cbn; apply Ht; lia)
    end.
    by exists t.
Qed.

End Missing.

(** The name of the converted volume is not a name of frame. *)
Lemma dmri_not_frame_file (idx : nat) : dmri_name +:+ ext ≠ frame_file idx.
Proof.
  intros Heq. apply (f_equal chars) in Heq. unfold frame_file in Heq.
  rewrite !chars_app in Heq. apply app_inv_head in Heq. discriminate Heq.
Qed.

(** X19. On a well-formed table of more frames than the volume has, with
    a temporary folder that holds no file of frame, the run of [main] does
    not return.  It exits with the status 2 when the test of the table
    gives no b=0 frame.  Otherwise it raises the exception of a file that
    does not exist: the split has saved every frame of the volume, no file
    exists for an index from the number of frames on, and in the state in
    which the run stops [concat_data] raises on the names of the class
    that was being assembled, the b=0 frames if their list holds such an
    index and the DWI if not.  In both cases no output file is written and
    the temporary folder is not removed. *)
Theorem main_long_table {frame : Type} (P : platform frame) (cmd : cmdline) (w : world frame)
    (arguments : Args.t) (data : list frame) (N : nat) :
  get_parser cmd w = (Return arguments, w) →
  read_image P (abspath P (Args.i arguments)) = Some data →
  (∀ idx, tmp_files w !! frame_file idx = None) →
  well_formed P (abspath P (Args.bvec arguments)) (fname_bvals_of P arguments) N →
  length data < N →
  ∃ c,
    classification P (abspath P (Args.bvec arguments)) (fname_bvals_of P arguments)
      (Param.bval_min (update_bval_min Param.init arguments)) c N ∧
    (indices c true N = [] → (main P cmd w).1 = Exit 2) ∧
    (indices c true N ≠ [] →
       (main P cmd w).1 = Raise IOError ∧
       frames_saved data (main P cmd w).2 ∧
       (∀ idx, (length data ≤ idx)%nat →
               tmp_files (main P cmd w).2 !! frame_file idx = None) ∧
       (concat_data
          (map frame_file
             (if decide (Forall (λ idx, idx < length data) (indices c true N))
              then indices c false N else indices c true N))
          (main P cmd w).2).1 = Raise IOError) ∧
    out_files (main P cmd w).2 = out_files w ∧
    tmp_removed (main P cmd w).2 = tmp_removed w.
Proof.
  intros Hparse Himage Hfresh Hwf HN.
  destruct (well_formed_classification P _ _
              (Param.bval_min (update_bval_min Param.init arguments)) _ Hwf) as (c & Hc & Ht).
  exists c. split; [done|].
  destruct (main_classify P cmd w arguments data Hparse Himage) as (verbose & _ & ->).
  destruct (identify_b0_run P _ _ _ verbose (converted data w) c _ Hc Ht)
    as (before & _ & Hrun).
  rewrite bind_unfold, Hrun. unfold finish.
  case_decide as Hb0; [done|]. cbv beta iota.
  assert (length data ∈ indices c true N ++ indices c false N) as Hin.
  { rewrite (indices_Permutation c N Ht). apply elem_of_seq. lia. }
  match goal with |- context [main_outputs _ ?f ?e ?o ?a ?r _ _ _ _ _ ?w1] =>
    destruct (main_outputs_missing P f e o a r data (indices c true N) (indices c false N)
                (length data) w1) as (t & -> & Hframes & Hmissing); [|done|done|]
  end.
  { intros idx. cbn. rewrite lookup_insert_ne by apply dmri_not_frame_file. apply Hfresh. }
  cbn [fst snd out_files tmp_removed]. split; [done|]. split; [|done].
  intros _. split; [done|]. split; [exact Hframes|]. split; [exact Hmissing|].
  case_decide as Hall.
  - assert (length data ∈ indices c false N) as Hdwi.
    { apply elem_of_app in Hin as [Hin|Hin]; [|done].
      pose proof (proj1 (Forall_forall _ _) Hall _ Hin) as Hlt. cbn in Hlt. lia. }
    rewrite (concat_data_missing (map frame_file (indices c false N))
               (frame_file (length data))); [done| |by apply Hmissing].
    by apply list_elem_of_fmap_2.
  - apply not_Forall_Exists in Hall; [|apply _].
    apply Exists_exists in Hall as (idx & Hidx & Hge). cbn in Hge.
    rewrite (concat_data_missing (map frame_file (indices c true N)) (frame_file idx));
      [done| |apply Hmissing; lia].
    by apply list_elem_of_fmap_2.
Qed.

(** The table of five frames and a volume of three. *)
Lemma main_long_table_witness :
  let P := demo five_frames None [10; 11; 12] in
  ∃ c,
    classification P "bvecs" "" 100%float c 5 ∧
    (indices c true 5 = [] → (main P cmd_default w0).1 = Exit 2) ∧
    (indices c true 5 ≠ [] →
       (main P cmd_default w0).1 = Raise IOError ∧
       frames_saved [10; 11; 12] (main P cmd_default w0).2 ∧
       (∀ idx, (length [10; 11; 12] ≤ idx)%nat →
               tmp_files (main P cmd_default w0).2 !! frame_file idx = None) ∧
       (concat_data
          (map frame_file
             (if decide (Forall (λ idx, idx < length [10; 11; 12]) (indices c true 5))
              then indices c false 5 else indices c true 5))
          (main P cmd_default w0).2).1 = Raise IOError) ∧
    out_files (main P cmd_default w0).2 = out_files w0 ∧
    tmp_removed (main P cmd_default w0).2 = tmp_removed w0.
Proof.
  apply (main_long_table (demo five_frames None [10; 11; 12]) cmd_default w0 args_default
           [10; 11; 12] 5).
  - reflexivity.
  - reflexivity.
  - intros idx. apply lookup_empty.
  - apply (gradients_only _ _ five_frames 5); [reflexivity|lia| |].
    + left. split; [reflexivity|]. repeat constructor.
    + apply demo_norms_computed, five_frames_01.
  - cbn. lia.
Defined.

(** The run on the table of five frames and a volume of three: the b=0
    frames are 0, 1 and 4, and the frame 4 does not exist. *)
Example three_of_five_run :
  (main (demo five_frames None [10; 11; 12]) cmd_default w0).1 = Raise IOError.
Proof. by vm_compute. Qed.
